(** * Genfy front-end: HTTP client, session store and wizard handlers

    A shallow embedding of [lib/api-client.ts], of the two
    [contexts/session-context.tsx] variants (email/password, and the one that
    delegates sign-in to an identity provider) and of the page handlers that
    drive them, followed by the properties of the interaction specification.

    Conventions.
    - A JavaScript value is a [Val]. Strings are sequences of code units; the
      model covers code units below 256 (one [ascii] each). Numbers are
      integers; no modelled branch depends on a fractional number.
    - [async] functions run to completion one after the other: an [await] is
      a sequence point, and calls that overlap in time are not modelled.
      What React closes over at render time (the state
      values a callback sees) is passed to each callback as an explicit
      snapshot, while state setters write to the store of the [World].
    - Everything the platform provides (the configured base URL, [JSON.parse],
      [JSON.stringify], the serializer of [URLSearchParams] and the remote
      server behind [fetch]) is an instance of the class [Platform]. *)

From stdpp Require Import base option list strings gmap pretty.
From Stdlib Require Import ZArith Ascii.

Set Warnings "-register-all".
Open Scope Z_scope.
Open Scope string_scope.
Open Scope list_scope.

(** ** JavaScript values *)

Inductive Val : Type :=
  | VUndef
  | VNull
  | VBool (b : bool)
  | VNum (n : Z)
  | VStr (s : string)
  | VArr (items : list Val)
  | VObj (fields : list (string * Val)).

(** ToBoolean. *)
Definition truthy (v : Val) : bool :=
  match v with
  | VUndef | VNull => false
  | VBool b => b
  | VNum n => negb (Z.eqb n 0)
  | VStr s => negb (String.eqb s "")
  | VArr _ | VObj _ => true
  end.

(** A parameter with a default value: [undefined] selects the default. *)
Definition default_arg (d v : Val) : Val :=
  match v with VUndef => d | _ => v end.

(** [a ?? b] *)
Definition nullish_or (a b : Val) : Val :=
  match a with VUndef | VNull => b | _ => a end.

(** [a || b] on strings *)
Definition str_or (a b : string) : string := if String.eqb a "" then b else a.

(** [a || b] *)
Definition js_or (a b : Val) : Val := if truthy a then a else b.

Fixpoint join_comma (l : list string) : string :=
  match l with
  | [] => ""
  | [s] => s
  | s :: rest => s +:+ "," +:+ join_comma rest
  end.

(** ToString, as used by template literals, [new Error(x)] and
    [localStorage.setItem]. *)
Fixpoint ToString (v : Val) : string :=
  match v with
  | VUndef => "undefined"
  | VNull => "null"
  | VBool true => "true"
  | VBool false => "false"
  | VNum n => pretty n
  | VStr s => s
  | VArr items =>
      join_comma
        (List.map (fun x => match x with
                            | VUndef | VNull => ""
                            | _ => ToString x
                            end) items)
  | VObj _ => "[object Object]"
  end.

(** What a [localStorage.getItem] result looks like as a value. *)
Definition of_item (o : option string) : Val :=
  match o with
  | Some s => VStr s
  | None => VNull
  end.

Fixpoint lookup_field (k : string) (fields : list (string * Val)) : Val :=
  match fields with
  | [] => VUndef
  | (k', v) :: rest => if String.eqb k k' then v else lookup_field k rest
  end.

(** ** Errors and outcomes *)

(** A thrown [Error]; only [.message] is ever read. *)
Record Error : Type := mkError { message : string }.

Inductive Outcome (A : Type) : Type :=
  | Return (a : A)
  | Throw (e : Error).
Arguments Return {A} a.
Arguments Throw {A} e.

(** ** Requests, responses, observable events *)

Record File : Type := mkFile { file_name : string }.

Inductive Body : Type :=
  | TextBody (text : string)
  | FormData (file : File).

Record Request : Type := mkRequest {
  url : string;
  method : option string;
  headers : gmap string string;
  body : option Body
}.

(** The [RequestInit] a client method hands to [request]. *)
Record RequestInit : Type := mkInit {
  o_method : option string;
  o_headers : gmap string string;
  o_body : option Body
}.

Definition GET : RequestInit := mkInit None ∅ None.
Definition POST (b : option Body) : RequestInit := mkInit (Some "POST") ∅ b.
Definition DELETE : RequestInit := mkInit (Some "DELETE") ∅ None.

(** [response.json()] either yields a value or rejects. *)
Inductive JsonBody : Type :=
  | BodyJson (v : Val)
  | BodyBad (e : Error).

Inductive FetchOutcome : Type :=
  | NetworkFailure (e : Error)
  | Response (status : Z) (json : JsonBody).

Definition ok (status : Z) : bool := Z.leb 200 status && Z.leb status 299.

Inductive Step : Type := Landing | Category | Generate | Chat | Final.

Inductive Event : Type :=
  | EFetch (r : Request)
  | ESetIsLoading (b : bool)
  | EToast (title : string)
  | ERouterPush (path : string)
  | ERouterRefresh.

Definition is_fetch (e : Event) : bool :=
  match e with EFetch _ => true | _ => false end.

(** The network calls among a list of events. *)
Definition fetches (l : list Event) : list Request :=
  omap (fun e => match e with EFetch r => Some r | _ => None end) l.

(** ** The platform *)

Class Platform : Type := {
  baseUrl : string;
  JSON_parse : string -> option Val;       (* [None]: throws SyntaxError *)
  JSON_stringify : Val -> string;
  (* [new URLSearchParams(...).toString()] for the pairs appended, in order *)
  URLSearchParams_toString : list (string * string) -> string;
  (* the server: its answer may depend on everything observed so far *)
  server : list Event -> Request -> FetchOutcome
}.

(** ** The world a handler runs in *)

Record Browser : Type := mkBrowser {
  localStorage : gmap string string;
  href : string
}.

(** The React state of [SessionProvider]. *)
Record StoreState : Type := mkStore {
  sessionId : Val;
  session : Val;
  user : Val;
  isLoading : bool;
  error : option string;
  selectedSuggestions : Val
}.

(** Component-local state of the pages. *)
Record UiState : Type := mkUi {
  currentStep : Step;
  isInitializing : bool;
  selectorLoading : bool
}.

Record World : Type := mkWorld {
  window : option Browser;       (* [None]: [typeof window === 'undefined'] *)
  store : StoreState;
  ui : UiState;
  events : list Event            (* oldest first *)
}.

(** ** Computations: state passing with exceptions *)

Definition M (A : Type) : Type := World -> Outcome A * World.

Definition ret {A} (a : A) : M A := fun w => (Return a, w).
Definition throw {A} (e : Error) : M A := fun w => (Throw e, w).

Definition bind {A B} (m : M A) (k : A -> M B) : M B :=
  fun w =>
    match m w with
    | (Return a, w') => k a w'
    | (Throw e, w') => (Throw e, w')
    end.

Declare Scope js_scope.
Delimit Scope js_scope with js.
Notation "'let*' x := m 'in' k" := (bind m (fun x => k))
  (at level 10, x name, m at level 100, k at level 200) : js_scope.
Notation "m ;;; k" := (bind m (fun _ => k))
  (at level 100, k at level 200, right associativity) : js_scope.
Open Scope js_scope.

(** [try { m } catch (err) { h err }] *)
Definition try_catch {A} (m : M A) (h : Error -> M A) : M A :=
  fun w =>
    match m w with
    | (Return a, w') => (Return a, w')
    | (Throw e, w') => h e w'
    end.

(** [try { m } finally { f }] *)
Definition try_finally {A} (m : M A) (f : M unit) : M A :=
  fun w =>
    let (r, w') := m w in
    match f w' with
    | (Return _, w'') => (r, w'')
    | (Throw e, w'') => (Throw e, w'')
    end.

Definition when (b : bool) (m : M unit) : M unit := if b then m else ret tt.

Definition modify (f : World -> World) : M unit := fun w => (Return tt, f w).

Definition emit (e : Event) : M unit :=
  modify (fun w => mkWorld (window w) (store w) (ui w) (events w ++ [e])).

Definition set_store (f : StoreState -> StoreState) : M unit :=
  modify (fun w => mkWorld (window w) (f (store w)) (ui w) (events w)).

Definition set_ui (f : UiState -> UiState) : M unit :=
  modify (fun w => mkWorld (window w) (store w) (f (ui w)) (events w)).

Definition set_browser (f : Browser -> Browser) : World -> World :=
  fun w => mkWorld (f <$> window w) (store w) (ui w) (events w).

(** Property read [v.k] for the keys this code reads ([id], [detail],
    [session_id], [user], [message], ...): none of them is a built-in
    property of a string, number, boolean or array. *)
Definition prop (v : Val) (k : string) : M Val :=
  match v with
  | VUndef =>
      throw (mkError ("Cannot read properties of undefined (reading '" +:+ k +:+ "')"))
  | VNull =>
      throw (mkError ("Cannot read properties of null (reading '" +:+ k +:+ "')"))
  | VObj fields => ret (lookup_field k fields)
  | _ => ret VUndef
  end.

(** Optional chaining [v?.k] *)
Definition opt_prop (v : Val) (k : string) : M Val :=
  match v with
  | VUndef | VNull => ret VUndef
  | _ => prop v k
  end.

(** [localStorage], a global that only exists in a browser. *)
Definition no_localStorage : Error := mkError "localStorage is not defined".

Definition getItem (k : string) : M (option string) :=
  fun w =>
    match window w with
    | Some b => (Return (localStorage b !! k), w)
    | None => (Throw no_localStorage, w)
    end.

Definition setItem (k : string) (v : Val) : M unit :=
  fun w =>
    match window w with
    | Some b =>
        (Return tt,
         set_browser (fun b => mkBrowser (<[k := ToString v]> (localStorage b)) (href b)) w)
    | None => (Throw no_localStorage, w)
    end.

Definition removeItem (k : string) : M unit :=
  fun w =>
    match window w with
    | Some b =>
        (Return tt, set_browser (fun b => mkBrowser (delete k (localStorage b)) (href b)) w)
    | None => (Throw no_localStorage, w)
    end.

Definition set_href (p : string) : M unit :=
  modify (set_browser (fun b => mkBrowser (localStorage b) p)).

Definition typeof_window_undefined : M bool :=
  fun w => (Return (bool_decide (window w = None)), w).

(** React state setters of the provider. *)
Definition setSessionId (v : Val) : M unit :=
  set_store (fun s => mkStore v (session s) (user s) (isLoading s) (error s)
                              (selectedSuggestions s)).
Definition setSession (v : Val) : M unit :=
  set_store (fun s => mkStore (sessionId s) v (user s) (isLoading s) (error s)
                              (selectedSuggestions s)).
Definition setUser (v : Val) : M unit :=
  set_store (fun s => mkStore (sessionId s) (session s) v (isLoading s) (error s)
                              (selectedSuggestions s)).
Definition setIsLoading (b : bool) : M unit :=
  emit (ESetIsLoading b);;;
  set_store (fun s => mkStore (sessionId s) (session s) (user s) b (error s)
                              (selectedSuggestions s)).
Definition setError (e : option string) : M unit :=
  set_store (fun s => mkStore (sessionId s) (session s) (user s) (isLoading s) e
                              (selectedSuggestions s)).
Definition setSelectedSuggestions (v : Val) : M unit :=
  set_store (fun s => mkStore (sessionId s) (session s) (user s) (isLoading s) (error s) v).

Definition toast (title : string) : M unit := emit (EToast title).
Definition router_push (path : string) : M unit := emit (ERouterPush path).
Definition router_refresh : M unit := emit ERouterRefresh.

(** ** lib/api-client.ts *)

Module ApiClient.
Section WithPlatform.
Context `{P : Platform}.

(** [fetch(url, init)]: the call is observable, the server decides. *)
Definition fetch (r : Request) : M (Z * JsonBody) :=
  fun w =>
    let w' := mkWorld (window w) (store w) (ui w) (events w ++ [EFetch r]) in
    match server (events w) r with
    | NetworkFailure e => (Throw e, w')
    | Response status json => (Return (status, json), w')
    end.

Definition response_json (json : JsonBody) : M Val :=
  match json with
  | BodyJson v => ret v
  | BodyBad e => throw e
  end.

Definition getUserId : M Val :=
  let* nowin := typeof_window_undefined in
  if nowin then ret VNull else
  let* userStr := getItem "user" in
  if negb (truthy (of_item userStr)) then ret VNull else
  try_catch
    (match JSON_parse (ToString (of_item userStr)) with
     | Some user => prop user "id"
     | None => throw (mkError "Unexpected token in JSON")
     end)
    (fun _ => ret VNull).

(** The headers [request] sends for a given user id. *)
Definition request_headers (options : RequestInit) (userId : Val) : gmap string string :=
  let headers := o_headers options ∪ {[ "Content-Type" := "application/json" ]} in
  if truthy userId
  then <[ "Authorization" := "Bearer " +:+ ToString userId ]> headers
  else headers.

Definition request (endpoint : string) (options : RequestInit) : M Val :=
  let url := baseUrl +:+ endpoint in
  let* userId := getUserId in
  try_catch
    (let headers := request_headers options userId in
     let* response := fetch (mkRequest url (o_method options) headers (o_body options)) in
     let (status, json) := response : Z * JsonBody in
     if Z.eqb status 401 then
       (let* nowin := typeof_window_undefined in
        when (negb nowin)
          (removeItem "user";;;
           removeItem "session_id";;;
           set_href "/login"));;;
       throw (mkError "Unauthorized")
     else if Z.eqb status 403 then
       throw (mkError "Access denied: You don't have permission to access this resource")
     else if negb (ok status) then
       let* error :=
         try_catch (response_json json)
                   (fun _ => ret (VObj [("detail", VStr "Unknown error")])) in
       let* detail := prop error "detail" in
       throw (mkError (ToString (js_or detail (VStr ("HTTP " +:+ pretty status)))))
     else response_json json)
    (fun error => throw error).

Definition json_body (v : Val) : option Body := Some (TextBody (JSON_stringify v)).

Definition signup (email password : Val) : M Val :=
  request "/api/auth/signup" (POST (json_body (VObj [("email", email); ("password", password)]))).

Definition login (email password : Val) : M Val :=
  request "/api/auth/login" (POST (json_body (VObj [("email", email); ("password", password)]))).

Definition logout : M Val := request "/api/auth/logout" (POST None).

Definition createSession (llmProvider userId : Val) : M Val :=
  let llmProvider := default_arg (VStr "Claude") llmProvider in
  request "/api/session/create"
          (POST (json_body (VObj [("llm_provider", llmProvider); ("user_id", userId)]))).

Definition getSession (sessionId : Val) : M Val :=
  request ("/api/session/" +:+ ToString sessionId) GET.

Definition deleteSession (sessionId : Val) : M Val :=
  request ("/api/session/" +:+ ToString sessionId) DELETE.

Definition setLLM (sessionId llmProvider : Val) : M Val :=
  request ("/api/session/" +:+ ToString sessionId +:+ "/llm")
          (POST (json_body (VObj [("llm_provider", llmProvider)]))).

Definition getAvailableLLMs : M Val := request "/api/llms/available" GET.

Definition getCategories : M Val := request "/api/categories" GET.

Definition selectCategory (sessionId category userIdea : Val) : M Val :=
  request ("/api/categories/select/" +:+ ToString sessionId)
          (POST (json_body (VObj [("category", category); ("user_idea", userIdea)]))).

Definition getVisualSettingsOptions : M Val := request "/api/visual-settings/options" GET.

Definition saveVisualSettings (sessionId settings : Val) : M Val :=
  request ("/api/visual-settings/save/" +:+ ToString sessionId) (POST (json_body settings)).

Definition generateQuickPrompt (sessionId : Val) : M Val :=
  request ("/api/visual-settings/generate-quick/" +:+ ToString sessionId) (POST None).

Definition startChat (sessionId category userIdea visualSettings : Val) : M Val :=
  request ("/api/chat/start/" +:+ ToString sessionId)
          (POST (json_body (VObj [("category", category); ("user_idea", userIdea);
                                  ("visual_settings", visualSettings)]))).

Definition getChatMessages (sessionId : Val) : M Val :=
  request ("/api/chat/messages/" +:+ ToString sessionId) GET.

Definition getCurrentQuestion (sessionId : Val) : M Val :=
  request ("/api/chat/current-question/" +:+ ToString sessionId) GET.

Definition getSuggestions (sessionId refresh : Val) : M Val :=
  let refresh := default_arg (VNum 0) refresh in
  request ("/api/suggestions/" +:+ ToString sessionId +:+ "?refresh=" +:+ ToString refresh) GET.

Definition toggleSuggestion (sessionId suggestion action : Val) : M Val :=
  let action := default_arg (VStr "toggle") action in
  request ("/api/suggestions/toggle/" +:+ ToString sessionId)
          (POST (json_body (VObj [("suggestion", suggestion); ("action", action)]))).

Definition getSelectedSuggestions (sessionId : Val) : M Val :=
  request ("/api/suggestions/selected/" +:+ ToString sessionId) GET.

Definition clearSuggestions (sessionId : Val) : M Val :=
  request ("/api/suggestions/clear/" +:+ ToString sessionId) DELETE.

Definition submitAnswer (sessionId answer : Val) : M Val :=
  request ("/api/answer/submit/" +:+ ToString sessionId)
          (POST (json_body (VObj [("answer", answer)]))).

Definition skipToGeneration (sessionId : Val) : M Val :=
  request ("/api/chat/skip/" +:+ ToString sessionId) (POST None).

Definition getFinalPrompt (sessionId : Val) : M Val :=
  request ("/api/prompt/final/" +:+ ToString sessionId) GET.

Definition refinePrompt (sessionId refinementInstruction : Val) : M Val :=
  request ("/api/prompt/refine/" +:+ ToString sessionId)
          (POST (json_body (VObj [("refinement_instruction", refinementInstruction)]))).

Definition getHistory (limit userId : Val) : M Val :=
  let limit := default_arg (VNum 50) limit in
  let query := [("limit", ToString limit)] in
  let query := if truthy userId then query ++ [("user_id", ToString userId)] else query in
  request ("/api/sessions/history?" +:+ URLSearchParams_toString query) GET.

Definition getHistoryItem (promptId : Val) : M Val :=
  request ("/api/history/" +:+ ToString promptId) GET.

Definition deleteHistoryItem (promptId : Val) : M Val :=
  request ("/api/history/" +:+ ToString promptId) DELETE.

Definition clearHistory : M Val := request "/api/history" DELETE.

(** [uploadFile] calls [fetch] itself, with a method and a body only. *)
Definition uploadFile (sessionId : Val) (file : File) : M Val :=
  let formData := FormData file in
  let url := baseUrl +:+ "/api/session/" +:+ ToString sessionId +:+ "/upload" in
  try_catch
    (let* response := fetch (mkRequest url (Some "POST") ∅ (Some formData)) in
     let (status, json) := response : Z * JsonBody in
     if negb (ok status) then
       let* error :=
         try_catch (response_json json)
                   (fun _ => ret (VObj [("detail", VStr "Unknown upload error")])) in
       let* detail := prop error "detail" in
       throw (mkError (ToString (js_or detail (VStr ("HTTP " +:+ pretty status)))))
     else response_json json)
    (fun error => throw error).

Definition deleteSessionFile (sessionId fileIndex : Val) : M Val :=
  request ("/api/session/" +:+ ToString sessionId +:+ "/files/" +:+ ToString fileIndex) DELETE.

End WithPlatform.
End ApiClient.

(** ** contexts/session-context.tsx, email/password variant

    Every callback takes the render snapshot [snap] it closed over. *)

Module SessionContext.
Section WithPlatform.
Context `{P : Platform}.

(** [JSON.stringify(v)] as an expression: [undefined] stays [undefined]. *)
Definition stringify (v : Val) : Val :=
  match v with
  | VUndef => VUndef
  | _ => VStr (JSON_stringify v)
  end.

Definition handleError (err : Error) : M unit :=
  let message := str_or (message err) "An unexpected error occurred" in
  setError (Some message).

Definition clearError : M Val := setError None;;; ret VUndef.

Definition refreshSession (snap : StoreState) (id : Val) : M unit :=
  let targetId := js_or id (sessionId snap) in
  if negb (truthy targetId) then ret tt else
  try_catch
    (let* sessionData := ApiClient.getSession targetId in
     setSession sessionData;;;
     let* chips := prop sessionData "selected_chips" in
     when (truthy chips) (setSelectedSuggestions chips))
    (fun err => handleError err).

(** The mount effect. [refreshSession] is started without [await]: its call
    goes out at once, and the answer is dealt with after the rest of the
    effect has run. The rest writes neither local storage nor the log, so
    the un-awaited call is placed last. *)
Definition mount (snap : StoreState) : M unit :=
  let* storedSessionId := getItem "session_id" in
  when (truthy (of_item storedSessionId))
    (setSessionId (of_item storedSessionId));;;
  let* storedUser := getItem "user" in
  when (truthy (of_item storedUser))
    (try_catch
       (match JSON_parse (ToString (of_item storedUser)) with
        | Some u => setUser u
        | None => throw (mkError "Unexpected token in JSON")
        end)
       (fun _ => ret tt));;;
  when (truthy (of_item storedSessionId))
    (refreshSession snap (of_item storedSessionId)).

Definition login (email pass : Val) : M Val :=
  setIsLoading true;;;
  setError None;;;
  try_finally
    (try_catch
       (let* res := ApiClient.login email pass in
        let* u := prop res "user" in
        setUser u;;;
        setItem "user" (stringify u);;;
        setSessionId VNull;;;
        setSession VNull;;;
        removeItem "session_id";;;
        ret VUndef)
       (fun err =>
          setError (Some (str_or (message err) "Login failed"));;;
          throw err))
    (setIsLoading false).

Definition signup (email pass : Val) : M Val :=
  setIsLoading true;;;
  setError None;;;
  try_finally
    (try_catch
       (let* res := ApiClient.signup email pass in
        ret VUndef)
       (fun err =>
          setError (Some (str_or (message err) "Signup failed"));;;
          throw err))
    (setIsLoading false).

Definition signOut : M Val :=
  removeItem "user";;;
  setUser VNull;;;
  router_push "/";;;
  router_refresh;;;
  ret VUndef.

Definition initializeSession (snap : StoreState) (llmProvider : Val) : M Val :=
  let llmProvider := default_arg (VStr "Claude") llmProvider in
  setIsLoading true;;;
  setError None;;;
  try_finally
    (try_catch
       (let* uid := opt_prop (user snap) "id" in
        let* response := ApiClient.createSession llmProvider uid in
        let* sid := prop response "session_id" in
        setSessionId sid;;;
        setItem "session_id" sid;;;
        refreshSession snap sid;;;
        ret VUndef)
       (fun err => handleError err;;; ret VUndef))
    (setIsLoading false).

Definition joinSession (snap : StoreState) (id : Val) : M Val :=
  setSessionId id;;;
  setItem "session_id" id;;;
  refreshSession snap id;;;
  ret VUndef.

(** The second half of [selectCategory], once a session id is at hand. *)
Definition record_category (snap : StoreState) (activeSessionId category userIdea : Val)
  : M Val :=
  setIsLoading true;;;
  setError None;;;
  try_finally
    (try_catch
       (ApiClient.selectCategory activeSessionId category userIdea;;;
        refreshSession snap activeSessionId;;;
        ret VUndef)
       (fun err => handleError err;;; ret VUndef))
    (setIsLoading false).

(** [ensured] is [None] when the function has already returned from the
    [catch] of the creation block. *)
Definition selectCategory (snap : StoreState) (category userIdea : Val) : M Val :=
  let* stored := getItem "session_id" in
  let activeSessionId := js_or (of_item stored) (sessionId snap) in
  let* ensured :=
    if negb (truthy activeSessionId) then
      try_catch
        (let* uid := opt_prop (user snap) "id" in
         let* response := ApiClient.createSession (VStr "Claude") uid in
         let* sid := prop response "session_id" in
         setSessionId sid;;;
         setItem "session_id" sid;;;
         ret (Some sid))
        (fun e => handleError e;;; ret None)
    else ret (Some activeSessionId) in
  match ensured with
  | None => ret VUndef
  | Some activeSessionId => record_category snap activeSessionId category userIdea
  end.

Definition no_active_session : Error := mkError "No active session".

Definition saveVisualSettings (snap : StoreState) (settings : Val) : M Val :=
  if negb (truthy (sessionId snap)) then throw no_active_session else
  setIsLoading true;;;
  setError None;;;
  try_finally
    (try_catch
       (ApiClient.saveVisualSettings (sessionId snap) settings;;;
        refreshSession snap VUndef;;;
        ret VUndef)
       (fun err => handleError err;;; throw err))
    (setIsLoading false).

Definition generateQuickPrompt (snap : StoreState) : M Val :=
  if negb (truthy (sessionId snap)) then throw no_active_session else
  setIsLoading true;;;
  setError None;;;
  try_finally
    (try_catch
       (let* response := ApiClient.generateQuickPrompt (sessionId snap) in
        refreshSession snap VUndef;;;
        prop response "final_prompt")
       (fun err => handleError err;;; throw err))
    (setIsLoading false).

Definition startChat (snap : StoreState) (category userIdea visualSettings : Val) : M Val :=
  if negb (truthy (sessionId snap)) then throw no_active_session else
  setIsLoading true;;;
  setError None;;;
  try_finally
    (try_catch
       (ApiClient.startChat (sessionId snap) category userIdea visualSettings;;;
        refreshSession snap VUndef;;;
        ret VUndef)
       (fun err => handleError err;;; throw err))
    (setIsLoading false).

Definition submitAnswer (snap : StoreState) (answer : Val) : M Val :=
  if negb (truthy (sessionId snap)) then throw no_active_session else
  setIsLoading true;;;
  setError None;;;
  try_finally
    (try_catch
       (let* response := ApiClient.submitAnswer (sessionId snap) answer in
        refreshSession snap VUndef;;;
        ret response)
       (fun err => handleError err;;; throw err))
    (setIsLoading false).

Definition skipToGeneration (snap : StoreState) : M Val :=
  if negb (truthy (sessionId snap)) then throw no_active_session else
  setIsLoading true;;;
  setError None;;;
  try_finally
    (try_catch
       (ApiClient.skipToGeneration (sessionId snap);;;
        refreshSession snap VUndef;;;
        ret VUndef)
       (fun err => handleError err;;; throw err))
    (setIsLoading false).

Definition getCurrentQuestion (snap : StoreState) : M Val :=
  if negb (truthy (sessionId snap)) then throw no_active_session else
  try_catch
    (ApiClient.getCurrentQuestion (sessionId snap))
    (fun err => handleError err;;; throw err).

Definition getSuggestions (snap : StoreState) (refresh : Val) : M Val :=
  let refresh := default_arg (VNum 0) refresh in
  if negb (truthy (sessionId snap)) then throw no_active_session else
  try_catch
    (let* response := ApiClient.getSuggestions (sessionId snap) refresh in
     prop response "suggestions")
    (fun err => handleError err;;; ret (VArr [])).

Definition toggleSuggestion (snap : StoreState) (suggestion : Val) : M Val :=
  if negb (truthy (sessionId snap)) then throw no_active_session else
  try_catch
    (let* response := ApiClient.toggleSuggestion (sessionId snap) suggestion VUndef in
     let* selected := prop response "selected_suggestions" in
     setSelectedSuggestions selected;;;
     ret VUndef)
    (fun err => handleError err;;; ret VUndef).

Definition getFinalPrompt (snap : StoreState) : M Val :=
  if negb (truthy (sessionId snap)) then throw no_active_session else
  try_catch
    (ApiClient.getFinalPrompt (sessionId snap))
    (fun err => handleError err;;; throw err).

Definition refinePrompt (snap : StoreState) (instruction : Val) : M Val :=
  if negb (truthy (sessionId snap)) then throw no_active_session else
  setIsLoading true;;;
  setError None;;;
  try_finally
    (try_catch
       (let* response := ApiClient.refinePrompt (sessionId snap) instruction in
        refreshSession snap VUndef;;;
        prop response "refined_prompt")
       (fun err => handleError err;;; throw err))
    (setIsLoading false).

End WithPlatform.
End SessionContext.

(** ** The session context that delegates sign-in to an identity provider

    The provider itself is a third-party service: what it reports (the auth
    session of [getSession] and of each [onAuthStateChange] event) is an
    argument. The callbacks whose text is the same in both variants are
    shared. *)

Module SessionContextIdp.
Section WithPlatform.
Context `{P : Platform}.

Definition handleError := SessionContext.handleError.
Definition refreshSession := SessionContext.refreshSession.

(** This [initializeSession] is rebuilt only when the user changes, so the
    [refreshSession] it calls may have closed over an older render than the
    one that supplies [user]: [older] is that render's snapshot. *)
Definition initializeSession (snap older : StoreState) (llmProvider : Val) : M Val :=
  let llmProvider := default_arg (VStr "Claude") llmProvider in
  setIsLoading true;;;
  setError None;;;
  try_finally
    (try_catch
       (let* uid := opt_prop (user snap) "id" in
        let* response := ApiClient.createSession llmProvider uid in
        let* sid := prop response "session_id" in
        setSessionId sid;;;
        setItem "session_id" sid;;;
        refreshSession older sid;;;
        ret VUndef)
       (fun err => handleError err;;; ret VUndef))
    (setIsLoading false).

(** [checkAuth], given what [supabase.auth.getSession()] resolved to. *)
Definition checkAuth (authSession : Val) : M unit :=
  let* u := opt_prop authSession "user" in
  setUser (nullish_or u VNull).

(** The listener registered with [onAuthStateChange]; sign-in, sign-out
    and token refresh all arrive here. The branch on a missing user is
    empty. *)
Definition onAuthStateChange (_event : string) (session : Val) : M unit :=
  let* u := opt_prop session "user" in
  setUser (nullish_or u VNull);;;
  let* u' := opt_prop session "user" in
  if negb (truthy u') then ret tt else ret tt.

(** The mount effect; [authSession] is what the provider's [getSession]
    resolves to. Neither [refreshSession] nor [checkAuth] is awaited; they
    write different parts of the state. *)
Definition mount (snap : StoreState) (authSession : Val) : M unit :=
  let* storedSessionId := getItem "session_id" in
  when (truthy (of_item storedSessionId))
    (setSessionId (of_item storedSessionId);;;
     refreshSession snap (of_item storedSessionId));;;
  checkAuth authSession.

(** After the provider has signed the user out. *)
Definition signOut : M Val :=
  setUser VNull;;;
  router_push "/";;;
  router_refresh;;;
  ret VUndef.

Definition selectCategory (snap older : StoreState) (category userIdea : Val) : M Val :=
  when (negb (truthy (sessionId snap)))
    (initializeSession snap older VUndef;;; ret tt);;;
  let activeSessionId := sessionId snap in
  let* ensured :=
    if negb (truthy activeSessionId) then
      try_catch
        (let* uid := opt_prop (user snap) "id" in
         let* response := ApiClient.createSession (VStr "Claude") uid in
         let* sid := prop response "session_id" in
         setSessionId sid;;;
         setItem "session_id" sid;;;
         ret (Some sid))
        (fun e => handleError e;;; ret None)
    else ret (Some activeSessionId) in
  match ensured with
  | None => ret VUndef
  | Some activeSessionId =>
      SessionContext.record_category snap activeSessionId category userIdea
  end.

Definition saveVisualSettings := SessionContext.saveVisualSettings.
Definition generateQuickPrompt := SessionContext.generateQuickPrompt.
Definition startChat := SessionContext.startChat.
Definition submitAnswer := SessionContext.submitAnswer.
Definition skipToGeneration := SessionContext.skipToGeneration.
Definition getCurrentQuestion := SessionContext.getCurrentQuestion.
Definition getSuggestions := SessionContext.getSuggestions.
Definition toggleSuggestion := SessionContext.toggleSuggestion.
Definition getFinalPrompt := SessionContext.getFinalPrompt.
Definition refinePrompt := SessionContext.refinePrompt.

End WithPlatform.
End SessionContextIdp.

(** ** String helpers of the views *)

Definition is_space (a : ascii) : bool :=
  let n := N_of_ascii a in
  (N.leb 9 n && N.leb n 13) || N.eqb n 32 || N.eqb n 160.

Fixpoint trim_start (l : list ascii) : list ascii :=
  match l with
  | a :: rest => if is_space a then trim_start rest else l
  | [] => []
  end.

(** [s.trim()] *)
Definition trim (s : string) : string :=
  String.string_of_list_ascii
    (rev (trim_start (rev (trim_start (String.list_ascii_of_string s))))).

Definition lower_char (a : ascii) : ascii :=
  let n := N_of_ascii a in
  if (N.leb 65 n && N.leb n 90) || (N.leb 192 n && N.leb n 222 && negb (N.eqb n 215))
  then ascii_of_N (n + 32)
  else a.

(** [s.toLowerCase()] *)
Fixpoint toLowerCase (s : string) : string :=
  match s with
  | EmptyString => EmptyString
  | String a rest => String (lower_char a) (toLowerCase rest)
  end.

(** ** Page and component handlers *)

Module Views.
Section WithPlatform.
Context `{P : Platform}.

Definition setCurrentStep (s : Step) : M unit :=
  set_ui (fun u => mkUi s (isInitializing u) (selectorLoading u)).
Definition setIsInitializing (b : bool) : M unit :=
  set_ui (fun u => mkUi (currentStep u) b (selectorLoading u)).
Definition setSelectorLoading (b : bool) : M unit :=
  set_ui (fun u => mkUi (currentStep u) (isInitializing u) b).

(** The object with all four settings set to [undefined]. *)
Definition cleared_settings : Val :=
  VObj [("aspect_ratio", VUndef); ("color_palette", VUndef);
        ("camera_settings", VUndef); ("image_purpose", VUndef)].

(** *** CategorySelector *)

(** [selectCategory] is the store callback of the current render,
    [onComplete] the prop. Toast titles are given without their emoji. *)
Definition handleContinue (selectCategory : Val -> Val -> M Val) (onComplete : M unit)
           (selectedCategory : Val) (userIdea : string) : M unit :=
  if negb (truthy selectedCategory) || negb (truthy (VStr (trim userIdea))) then
    toast "Missing Information"
  else if Nat.ltb (String.length (trim userIdea)) 10 then
    toast "Idea Too Short"
  else
    setSelectorLoading true;;;
    try_finally
      (try_catch
         (selectCategory selectedCategory (VStr userIdea);;;
          toast "Category Selected!";;;
          onComplete)
         (fun _ => toast "Error"))
      (setSelectorLoading false).

(** *** GeneratePanel *)

Inductive Mode : Type := Quick | Advanced.

Record PanelState : Type := mkPanel {
  prompt : string;
  mode : Mode;
  hasAppliedSettings : bool;
  aspectRatio : string;
  colorPalette : string;
  cameraSettings : string;
  imagePurpose : string
}.

Definition panel_settings (p : PanelState) : Val :=
  VObj [("aspect_ratio", VStr (aspectRatio p)); ("color_palette", VStr (colorPalette p));
        ("camera_settings", VStr (cameraSettings p)); ("image_purpose", VStr (imagePurpose p))].

Definition call_opt {A} (f : option (A -> M unit)) (a : A) : M unit :=
  match f with
  | Some g => g a
  | None => ret tt
  end.

Definition handleGenerate (snap : StoreState)
           (selectCategory : Val -> Val -> M Val)
           (generateQuickPrompt : M Val)
           (startChat : Val -> Val -> Val -> M Val)
           (onPromptGenerated : option (Val -> M unit))
           (onAdvancedMode : option (unit -> M unit))
           (p : PanelState) : M unit :=
  if negb (truthy (VStr (trim (prompt p)))) then toast "Empty Input" else
  let* category := opt_prop (session snap) "selected_category" in
  if negb (truthy category) then toast "No Category Selected" else
  try_catch
    (selectCategory category (VStr (prompt p));;;
     when (truthy (sessionId snap))
       (if hasAppliedSettings p
        then ApiClient.saveVisualSettings (sessionId snap) (panel_settings p);;; ret tt
        else ApiClient.saveVisualSettings (sessionId snap) cleared_settings;;; ret tt);;;
     match mode p with
     | Quick =>
         let* finalPrompt := generateQuickPrompt in
         toast "Prompt Generated!";;;
         call_opt onPromptGenerated finalPrompt
     | Advanced =>
         when (truthy (sessionId snap) && truthy category)
           (startChat category (VStr (prompt p))
                      (if hasAppliedSettings p then panel_settings p else VUndef);;;
            toast "Chat Started!");;;
         call_opt onAdvancedMode tt
     end)
    (fun _ => toast "Generation Failed").

(** *** The single-page wizard (Home with a [currentStep]) *)

Definition placeholderIdea (categoryName : string) : string :=
  "Create a " +:+ toLowerCase categoryName +:+ " style image".

(** The half-second pause after [initializeSession] changes nothing the
    handler can see: it keeps the snapshot of its own render. *)
Definition handleCategorySelect (snap : StoreState)
           (initializeSession : Val -> M Val)
           (selectCategory : Val -> Val -> M Val)
           (categoryName : string) : M unit :=
  setIsInitializing true;;;
  try_finally
    (try_catch
       (when (negb (truthy (sessionId snap)))
          (initializeSession VUndef;;; ret tt);;;
        selectCategory (VStr categoryName) (VStr (placeholderIdea categoryName));;;
        setCurrentStep Generate)
       (fun _ => ret tt))
    (setIsInitializing false).

Definition handleCategoryComplete : M unit := setCurrentStep Generate.
Definition handlePromptGenerated (prompt : Val) : M unit := setCurrentStep Final.
Definition handleAdvancedMode : M unit := setCurrentStep Chat.
Definition handleChatComplete : M unit := setCurrentStep Final.

Definition handleStartNew (snap : StoreState) : M unit :=
  when (truthy (sessionId snap))
    (try_catch
       (ApiClient.saveVisualSettings (sessionId snap) cleared_settings;;; ret tt)
       (fun _ => ret tt));;;
  setCurrentStep Landing.

(** *** The routed pages (app/page.tsx) *)

Definition routed_handleCategorySelect (snap : StoreState)
           (selectCategory : Val -> Val -> M Val)
           (categoryName : string) : M unit :=
  setIsInitializing true;;;
  try_finally
    (try_catch
       (selectCategory (VStr categoryName) (VStr (placeholderIdea categoryName));;;
        let* id := getItem "session_id" in
        when (truthy (of_item id))
          (router_push ("/generate/" +:+ ToString (of_item id))))
       (fun _ => ret tt))
    (setIsInitializing false).

(** ResultPage: "Clear visual settings if needed, or just go home". *)
Definition ResultPage_handleStartNew : M unit := router_push "/".

End WithPlatform.
End Views.

(** ** Vocabulary of the statements *)

Section Vocabulary.
Context `{P : Platform}.

(** The world right after [fetch] has been called with [r]. *)
Definition log_fetch (r : Request) (w : World) : World :=
  mkWorld (window w) (store w) (ui w) (events w ++ [EFetch r]).

(** What [getUserId] reads off a world. *)
Definition cachedUserId (w : World) : Val :=
  match window w with
  | None => VNull
  | Some b =>
      match localStorage b !! "user" with
      | None => VNull
      | Some s =>
          if String.eqb s "" then VNull else
          match JSON_parse s with
          | Some (VObj fields) => lookup_field "id" fields
          | Some VUndef | Some VNull | None => VNull
          | Some _ => VUndef
          end
      end
  end.

(** The request that [request endpoint options] sends from world [w]. *)
Definition request_sent (endpoint : string) (options : RequestInit) (w : World) : Request :=
  mkRequest (baseUrl +:+ endpoint) (o_method options)
            (ApiClient.request_headers options (cachedUserId w)) (o_body options).

(** The browser after the forced logout of a 401. *)
Definition logged_out (b : Browser) : Browser :=
  mkBrowser (delete "session_id" (delete "user" (localStorage b))) "/login".

(** The error [request] raises for a status outside 2xx other than 401
    and 403. *)
Definition failure_of (status : Z) (json : JsonBody) : Error :=
  let fallback := VStr ("HTTP " +:+ pretty status) in
  match json with
  | BodyBad _ => mkError "Unknown error"
  | BodyJson VUndef => mkError "Cannot read properties of undefined (reading 'detail')"
  | BodyJson VNull => mkError "Cannot read properties of null (reading 'detail')"
  | BodyJson (VObj fields) =>
      mkError (ToString (js_or (lookup_field "detail" fields) fallback))
  | BodyJson _ => mkError (ToString fallback)
  end.

(** What [request] makes of the server's answer, in the world where the
    call has been logged. *)
Definition settle (answer : FetchOutcome) (w : World) : Outcome Val * World :=
  match answer with
  | NetworkFailure e => (Throw e, w)
  | Response status json =>
      if Z.eqb status 401 then
        (Throw (mkError "Unauthorized"), set_browser logged_out w)
      else if Z.eqb status 403 then
        (Throw (mkError "Access denied: You don't have permission to access this resource"),
         w)
      else if negb (ok status) then (Throw (failure_of status json), w)
      else match json with
           | BodyJson v => (Return v, w)
           | BodyBad e => (Throw e, w)
           end
  end.

(** The cached user slot is absent, or its text is not JSON. *)
Definition cached_user_unusable (w : World) : Prop :=
  match window w with
  | None => True
  | Some b =>
      match localStorage b !! "user" with
      | None => True
      | Some s => JSON_parse s = None
      end
  end.

(** The same world with the cached user slot emptied. *)
Definition without_user (w : World) : World :=
  set_browser (fun b => mkBrowser (delete "user" (localStorage b)) (href b)) w.

(** The request [uploadFile] sends. *)
Definition upload_sent (sessionId : Val) (file : File) : Request :=
  mkRequest (baseUrl +:+ "/api/session/" +:+ ToString sessionId +:+ "/upload")
            (Some "POST") ∅ (Some (FormData file)).

End Vocabulary.

(** ** The store actions as data

    Statements about "every action" range over [Action]; [run] is the
    dispatch to the callbacks of the email/password provider. *)

Inductive Action : Type :=
  | Login (email pass : Val)
  | Signup (email pass : Val)
  | InitializeSession (llmProvider : Val)
  | RefreshSession (id : Val)
  | JoinSession (id : Val)
  | SelectCategory (category userIdea : Val)
  | SaveVisualSettings (settings : Val)
  | GenerateQuickPrompt
  | StartChat (category userIdea visualSettings : Val)
  | SubmitAnswer (answer : Val)
  | SkipToGeneration
  | GetCurrentQuestion
  | GetSuggestions (refresh : Val)
  | ToggleSuggestion (suggestion : Val)
  | GetFinalPrompt
  | RefinePrompt (instruction : Val).

Section Actions.
Context `{P : Platform}.

Definition run (snap : StoreState) (a : Action) : M Val :=
  match a with
  | Login email pass => SessionContext.login email pass
  | Signup email pass => SessionContext.signup email pass
  | InitializeSession llm => SessionContext.initializeSession snap llm
  | RefreshSession id => SessionContext.refreshSession snap id;;; ret VUndef
  | JoinSession id => SessionContext.joinSession snap id
  | SelectCategory c i => SessionContext.selectCategory snap c i
  | SaveVisualSettings s => SessionContext.saveVisualSettings snap s
  | GenerateQuickPrompt => SessionContext.generateQuickPrompt snap
  | StartChat c i v => SessionContext.startChat snap c i v
  | SubmitAnswer x => SessionContext.submitAnswer snap x
  | SkipToGeneration => SessionContext.skipToGeneration snap
  | GetCurrentQuestion => SessionContext.getCurrentQuestion snap
  | GetSuggestions r => SessionContext.getSuggestions snap r
  | ToggleSuggestion x => SessionContext.toggleSuggestion snap x
  | GetFinalPrompt => SessionContext.getFinalPrompt snap
  | RefinePrompt x => SessionContext.refinePrompt snap x
  end.

(** [u?.id] as a value. *)
Definition user_id_of (u : Val) : Val :=
  match u with
  | VObj fields => lookup_field "id" fields
  | _ => VUndef
  end.

(** The session id [selectCategory] works with: the stored one if it is
    truthy, else the one of the snapshot. *)
Definition session_at_hand (snap : StoreState) (w : World) : Val :=
  match window w with
  | Some b => js_or (of_item (localStorage b !! "session_id")) (sessionId snap)
  | None => sessionId snap
  end.

(** Actions that start with [if (!sessionId) throw ...]. *)
Definition requires_session (a : Action) : bool :=
  match a with
  | SaveVisualSettings _ | GenerateQuickPrompt | StartChat _ _ _ | SubmitAnswer _
  | SkipToGeneration | GetCurrentQuestion | GetSuggestions _ | ToggleSuggestion _
  | GetFinalPrompt | RefinePrompt _ => true
  | _ => false
  end.

(** The action gets as far as a Client call. *)
Definition passes_guard (snap : StoreState) (a : Action) : bool :=
  match a with
  | RefreshSession id | JoinSession id => truthy (js_or id (sessionId snap))
  | _ => if requires_session a then truthy (sessionId snap) else true
  end.

(** Actions whose text opens with [setIsLoading(true); setError(null)]
    and closes with [finally { setIsLoading(false) }]. *)
Definition brackets_loading (a : Action) : bool :=
  match a with
  | Login _ _ | Signup _ _ | InitializeSession _ | SaveVisualSettings _
  | GenerateQuickPrompt | StartChat _ _ _ | SubmitAnswer _ | SkipToGeneration
  | RefinePrompt _ => true
  | _ => false
  end.

Definition loading_on : M unit := setIsLoading true;;; setError None.
Definition loading_off : M unit := setIsLoading false.

(** What the action does before its first Client call. *)
Definition prologue (snap : StoreState) (a : Action) : M unit :=
  match a with
  | SelectCategory _ _ =>
      fun w => if truthy (session_at_hand snap w) then loading_on w else ret tt w
  | JoinSession id => setSessionId id;;; setItem "session_id" id
  | _ => if brackets_loading a then loading_on else ret tt
  end.

(** Whether this run of the action closes with [setIsLoading(false)]
    when its first Client call fails. *)
Definition closes_loading (snap : StoreState) (a : Action) (w : World) : bool :=
  match a with
  | SelectCategory _ _ => truthy (session_at_hand snap w)
  | _ => brackets_loading a
  end.

(** The first Client call of the action. *)
Definition client_call (snap : StoreState) (a : Action) : M Val :=
  match a with
  | Login email pass => ApiClient.login email pass
  | Signup email pass => ApiClient.signup email pass
  | InitializeSession llm =>
      ApiClient.createSession (default_arg (VStr "Claude") llm) (user_id_of (user snap))
  | RefreshSession id | JoinSession id => ApiClient.getSession (js_or id (sessionId snap))
  | SelectCategory c i =>
      fun w =>
        if truthy (session_at_hand snap w)
        then ApiClient.selectCategory (session_at_hand snap w) c i w
        else ApiClient.createSession (VStr "Claude") (user_id_of (user snap)) w
  | SaveVisualSettings s => ApiClient.saveVisualSettings (sessionId snap) s
  | GenerateQuickPrompt => ApiClient.generateQuickPrompt (sessionId snap)
  | StartChat c i v => ApiClient.startChat (sessionId snap) c i v
  | SubmitAnswer x => ApiClient.submitAnswer (sessionId snap) x
  | SkipToGeneration => ApiClient.skipToGeneration (sessionId snap)
  | GetCurrentQuestion => ApiClient.getCurrentQuestion (sessionId snap)
  | GetSuggestions r => ApiClient.getSuggestions (sessionId snap) (default_arg (VNum 0) r)
  | ToggleSuggestion x => ApiClient.toggleSuggestion (sessionId snap) x VUndef
  | GetFinalPrompt => ApiClient.getFinalPrompt (sessionId snap)
  | RefinePrompt x => ApiClient.refinePrompt (sessionId snap) x
  end.

(** What the caller of the action gets when that call has thrown [e]. *)
Definition on_failure (a : Action) (e : Error) : Outcome Val :=
  match a with
  | InitializeSession _ | RefreshSession _ | JoinSession _ | SelectCategory _ _
  | ToggleSuggestion _ => Return VUndef
  | GetSuggestions _ => Return (VArr [])
  | _ => Throw e
  end.

(** The text stored in the shared error field. *)
Definition failure_message (a : Action) (e : Error) : string :=
  match a with
  | Login _ _ => str_or (message e) "Login failed"
  | Signup _ _ => str_or (message e) "Signup failed"
  | _ => str_or (message e) "An unexpected error occurred"
  end.

(** The actions whose way of reporting a failed call is covered here: the
    ones that rethrow, [getSuggestions] with its empty list, and
    [refreshSession] together with [joinSession], which ends in it.
    [initializeSession], [selectCategory] and [toggleSuggestion] are left
    aside. *)
Definition reports (a : Action) : bool :=
  match a with
  | InitializeSession _ | SelectCategory _ _ | ToggleSuggestion _ => false
  | _ => true
  end.

(** [v.k] as a value, for a [v] that is not nullish. *)
Definition field_of (k : string) (v : Val) : Val :=
  match v with
  | VObj fields => lookup_field k fields
  | _ => VUndef
  end.

(** What the action hands its caller when its own call has returned [v],
    not nullish. *)
Definition returned (a : Action) (v : Val) : Val :=
  match a with
  | GenerateQuickPrompt => field_of "final_prompt" v
  | RefinePrompt _ => field_of "refined_prompt" v
  | SubmitAnswer _ => v
  | _ => VUndef
  end.

(** Actions that call [refreshSession] after their Client call. *)
Definition refreshes (a : Action) : bool :=
  match a with
  | InitializeSession _ | SelectCategory _ _ | SaveVisualSettings _ | GenerateQuickPrompt
  | StartChat _ _ _ | SubmitAnswer _ | SkipToGeneration | RefinePrompt _ => true
  | _ => false
  end.

(** The world once [msg] has been put in the shared error field. *)
Definition recorded (msg : string) (w : World) : World := (setError (Some msg) w).2.

(** The world the caller gets back, from the world [w1] the handler left. *)
Definition epilogue (snap : StoreState) (a : Action) (w w1 : World) : World :=
  if closes_loading snap a w then (loading_off w1).2 else w1.

(** [v.session_id] as a value, for a response [v] that is not nullish. *)
Definition session_id_of (v : Val) : Val :=
  match v with
  | VObj fields => lookup_field "session_id" fields
  | _ => VUndef
  end.

Definition nullish (v : Val) : bool :=
  match v with VUndef | VNull => true | _ => false end.





(** *** On-demand creation in [selectCategory] *)

(** A create-session call: [POST /api/session/create]. *)
Definition is_create (e : Event) : bool :=
  match e with
  | EFetch r =>
      String.eqb (url r) (baseUrl +:+ "/api/session/create")
      && bool_decide (method r = Some "POST")
  | _ => false
  end.

Definition creations (l : list Event) : nat := length (List.filter is_create l).

(** The requests of [selectCategory]. *)
Definition create_request (snap : StoreState) (w : World) : Request :=
  request_sent "/api/session/create"
    (POST (ApiClient.json_body
             (VObj [("llm_provider", VStr "Claude"); ("user_id", user_id_of (user snap))])))
    w.

Definition select_request (id category userIdea : Val) (w : World) : Request :=
  request_sent ("/api/categories/select/" +:+ ToString id)
    (POST (ApiClient.json_body (VObj [("category", category); ("user_idea", userIdea)])))
    w.

Definition session_request (id : Val) (w : World) : Request :=
  request_sent ("/api/session/" +:+ ToString id) GET w.

(** No call is ever answered 401. *)
Definition never_401 : Prop := forall l r json, server l r <> Response 401 json.

(** What [record_category] adds to the log after its select call: the
    clearing of the flag, preceded by the re-fetch if the call returned. *)
Definition category_tail (id : Val) (w : World) (tail : list Event) : Prop :=
  tail = [ESetIsLoading false]
  \/ tail = [EFetch (session_request id w); ESetIsLoading false].

(** A computation is silent when it adds nothing to the event log. *)
Definition silent {A} (m : M A) : Prop := forall w, events (m w).2 = events w.

(** A computation is quiet when all it adds to the event log are network
    calls, and it leaves the loading flag as it found it. *)
Definition quiet {A} (m : M A) : Prop :=
  forall w, exists l,
    events (m w).2 = events w ++ l
    /\ Forall (fun e => is_fetch e = true) l
    /\ isLoading (store (m w).2) = isLoading (store w).

(** A computation brackets the loading flag when the first thing it adds
    to the log is [setIsLoading(true)], the last is [setIsLoading(false)],
    and only network calls lie between. *)
Definition brackets {A} (m : M A) : Prop :=
  forall w, exists mid,
    events (m w).2 = events w ++ ESetIsLoading true :: mid ++ [ESetIsLoading false]
    /\ Forall (fun e => is_fetch e = true) mid
    /\ isLoading (store (m w).2) = false.

(** How the first half of [selectCategory] ends in world [w]: an id is
    stored or in the snapshot; or there is none and the create-session call
    made in [w] returns an answer that is not nullish; or that call throws
    or returns a nullish answer, and the [catch] of the creation block ends
    the function. *)
Inductive Readiness : Type :=
  | AtHand (id : Val)
  | Created (answer : Val)
  | CreationFailed.

Definition readiness (snap : StoreState) (w : World) : Readiness :=
  if truthy (session_at_hand snap w) then AtHand (session_at_hand snap w) else
  match (ApiClient.createSession (VStr "Claude") (user_id_of (user snap)) w).1 with
  | Return v => if nullish v then CreationFailed else Created v
  | Throw _ => CreationFailed
  end.

(** A stretch of the log that sets the flag, records the category under
    [id], makes nothing but network calls after that and clears the flag. *)
Definition category_bracket (id category userIdea : Val) (w : World) (l : list Event)
  : Prop :=
  exists mid,
    l = ESetIsLoading true :: EFetch (select_request id category userIdea w)
        :: mid ++ [ESetIsLoading false]
    /\ Forall (fun e => is_fetch e = true) mid.

(** [selectCategory] and the flag, in a browser: with an id at hand it
    brackets the category call; without one it first makes the
    create-session call, and then brackets the category call for the id of
    the answer, or, when creation failed, stops there with the flag as it
    found it. *)
Definition brackets_once_ready (snap : StoreState) (category userIdea : Val) (m : M Val)
  : Prop :=
  forall w, is_Some (window w) ->
    match readiness snap w with
    | AtHand id =>
        exists l,
          events (m w).2 = events w ++ l
          /\ category_bracket id category userIdea w l
          /\ isLoading (store (m w).2) = false
    | Created v =>
        exists l,
          events (m w).2 = events w ++ EFetch (create_request snap w) :: l
          /\ category_bracket (session_id_of v) category userIdea w l
          /\ isLoading (store (m w).2) = false
    | CreationFailed =>
        events (m w).2 = events w ++ [EFetch (create_request snap w)]
        /\ isLoading (store (m w).2) = isLoading (store w)
    end.

(** How each action treats the loading flag. *)
Definition follows (snap : StoreState) (a : Action) (m : M Val) : Prop :=
  match a with
  | SelectCategory category userIdea => brackets_once_ready snap category userIdea m
  | _ => if brackets_loading a then brackets m else quiet m
  end.

End Actions.

(** ** Concrete platforms for worked examples *)

Module Demo.

Definition dq : string := String (ascii_of_nat 34) EmptyString.
Definition quoted (s : string) : string := dq +:+ s +:+ dq.

(** A serializer for values whose strings need no escaping. *)
Fixpoint stringify (v : Val) : string :=
  match v with
  | VUndef | VNull => "null"
  | VBool true => "true"
  | VBool false => "false"
  | VNum n => pretty n
  | VStr s => quoted s
  | VArr items => "[" +:+ join_comma (List.map stringify items) +:+ "]"
  | VObj fields =>
      "{" +:+
      join_comma
        ((fix go (l : list (string * Val)) : list string :=
            match l with
            | [] => []
            | (k, VUndef) :: rest => go rest
            | (k, x) :: rest => (quoted k +:+ ":" +:+ stringify x) :: go rest
            end) fields)
      +:+ "}"
  end.

Definition user1 : Val := VObj [("id", VStr "u1"); ("email", VStr "ada@example.org")].
Definition user1_text : string := stringify user1.

(** A parser that knows the one text stored by the examples. *)
Definition parse (s : string) : option Val :=
  if String.eqb s user1_text then Some user1 else None.

Definition ends_with (suffix s : string) : bool :=
  let n := String.length s in
  let k := String.length suffix in
  String.eqb (String.substring (n - k) k s) suffix.

(** The query serializer for keys and values that need no escaping. *)
Fixpoint form_encode (pairs : list (string * string)) : string :=
  match pairs with
  | [] => ""
  | [(k, v)] => k +:+ "=" +:+ v
  | (k, v) :: rest => k +:+ "=" +:+ v +:+ "&" +:+ form_encode rest
  end.

Definition platform (srv : list Event -> Request -> FetchOutcome) : Platform :=
  {| baseUrl := "http://localhost:8000";
     JSON_parse := parse;
     JSON_stringify := stringify;
     URLSearchParams_toString := form_encode;
     server := srv |}.

(** Every call is answered 401. *)
Definition unauthorized : Platform :=
  platform (fun _ _ => Response 401 (BodyJson (VObj [("detail", VStr "Not authenticated")]))).

(** Every call is answered 500. *)
Definition down : Platform :=
  platform (fun _ _ => Response 500 (BodyJson (VObj [("detail", VStr "boom")]))).

(** A healthy server: creation hands out the id [s1], every other call
    succeeds with an object that carries what the callers read. *)
Definition healthy_answer (r : Request) : FetchOutcome :=
  if ends_with "/api/session/create" (url r)
  then Response 200 (BodyJson (VObj [("session_id", VStr "s1"); ("llm_provider", VStr "Claude")]))
  else Response 200 (BodyJson (VObj [("success", VBool true);
                                     ("selected_suggestions", VArr [VStr "neon lights"]);
                                     ("suggestions", VArr [VStr "neon lights"]);
                                     ("final_prompt", VStr "a prompt")])).
Definition healthy : Platform := platform (fun _ r => healthy_answer r).

Definition fresh_store : StoreState := mkStore VNull VNull VNull false None (VArr []).
Definition fresh_ui : UiState := mkUi Landing false false.

Definition world (ls : gmap string string) (st : StoreState) : World :=
  mkWorld (Some (mkBrowser ls "/")) st fresh_ui [].

(** Nothing stored, nobody signed in. *)
Definition fresh : World := world ∅ fresh_store.

(** A signed-in user working on session [s0]. *)
Definition signed_in_store : StoreState :=
  mkStore (VStr "s0") (VObj [("session_id", VStr "s0"); ("selected_category", VStr "Logo")])
          user1 false None (VArr []).
Definition signed_in : World :=
  world (<["session_id" := "s0"]> (<["user" := user1_text]> ∅)) signed_in_store.

(** A guest working on session [s0]. *)
Definition guest_store : StoreState :=
  mkStore (VStr "s0") (VObj [("session_id", VStr "s0"); ("selected_category", VStr "Logo")])
          VNull false None (VArr []).
Definition guest : World := world (<["session_id" := "s0"]> ∅) guest_store.

(** The cached user slot holds text that is not JSON. *)
Definition garbled : World := world (<["user" := "{not json"]> ∅) fresh_store.

(** The guest of [guest] while another action is still loading. *)
Definition busy : World :=
  world (<["session_id" := "s0"]> ∅)
        (mkStore (VStr "s0") (session guest_store) VNull true None (VArr [])).

Definition photo : File := mkFile "photo.png".

(** The id [s9] is stored, the render still shows the older [s0]. *)
Definition stale_store : StoreState := mkStore (VStr "s0") VNull VNull false None (VArr []).
Definition stale : World := world (<["session_id" := "s9"]> ∅) stale_store.

Definition logo_idea : Val := VStr "Create a logo style image".

Definition created : list (string * Val) :=
  [("session_id", VStr "s1"); ("llm_provider", VStr "Claude")].

(** The generate panel with three characters typed, quick mode, no
    settings applied. *)
Definition short_prompt : Views.PanelState :=
  Views.mkPanel "cat" Views.Quick false " Instagram Square (1:1)"
                " Natural Sunlight/Golden Hour" " Standard (50mm)" " Social Media Post".

End Demo.


(** ** Further vocabulary *)

Section MoreVocabulary.
Context `{P : Platform}.


(** A computation is steady when it keeps a browser a browser and leaves
    the page state alone. *)
Definition steady {A} (m : M A) : Prop :=
  forall w, (is_Some (window w) -> is_Some (window (m w).2)) /\ ui (m w).2 = ui w.

(** The create-session request of [initializeSession]. *)
Definition create_request_for (llmProvider : Val) (snap : StoreState) (w : World) : Request :=
  request_sent "/api/session/create"
    (POST (ApiClient.json_body
             (VObj [("llm_provider", default_arg (VStr "Claude") llmProvider);
                    ("user_id", user_id_of (user snap))])))
    w.

Definition signup_request (email pass : Val) (w : World) : Request :=
  request_sent "/api/auth/signup"
    (POST (ApiClient.json_body (VObj [("email", email); ("password", pass)]))) w.

Definition login_request (email pass : Val) (w : World) : Request :=
  request_sent "/api/auth/login"
    (POST (ApiClient.json_body (VObj [("email", email); ("password", pass)]))) w.

(** The store with another user, another session id, another session. *)
Definition with_user (u : Val) (s : StoreState) : StoreState :=
  mkStore (sessionId s) (session s) u (isLoading s) (error s) (selectedSuggestions s).
Definition with_sessionId (v : Val) (s : StoreState) : StoreState :=
  mkStore v (session s) (user s) (isLoading s) (error s) (selectedSuggestions s).
Definition with_session (v chips : Val) (s : StoreState) : StoreState :=
  mkStore (sessionId s) v (user s) (isLoading s) (error s) chips.

(** [session?.selected_category] as a value. *)
Definition selected_category_of (s : Val) : Val :=
  match s with
  | VObj fields => lookup_field "selected_category" fields
  | _ => VUndef
  end.

(** A computation creates [n] sessions when, from every world, exactly [n]
    of the events it adds to the log are create-session calls. *)
Definition creates {A} (n : nat) (m : M A) : Prop :=
  forall w, exists l, events (m w).2 = events w ++ l /\ creations l = n.

(** The user the mount effect restores from the cached text, given the
    user the store holds. *)
Definition restored_user (cached : option string) (current : Val) : Val :=
  match cached with
  | None => current
  | Some text =>
      if String.eqb text "" then current else
      match JSON_parse text with
      | Some u => u
      | None => current
      end
  end.

End MoreVocabulary.

(** More concrete platforms. *)
Module Scenario.

(** The sign-in endpoint knows [ada]; everything else is healthy. *)
Definition auth_answer (r : Request) : FetchOutcome :=
  if Demo.ends_with "/api/auth/login" (url r)
  then Response 200 (BodyJson (VObj [("user", Demo.user1); ("session", VObj [])]))
  else Demo.healthy_answer r.
Definition auth : Platform := Demo.platform (fun _ r => auth_answer r).

(** Every call is answered 403. *)
Definition forbidden : Platform :=
  Demo.platform (fun _ _ => Response 403 (BodyJson (VObj [("detail", VStr "nope")]))).

(** Every call is answered 422 with a detail. *)
Definition invalid : Platform :=
  Demo.platform (fun _ _ => Response 422 (BodyJson (VObj [("detail", VStr "Idea too vague")]))).

(** The network is unreachable. *)
Definition offline : Platform :=
  Demo.platform (fun _ _ => NetworkFailure (mkError "Failed to fetch")).

(** The session [s0] cannot be fetched; every other call is healthy. *)
Definition refetch_answer (r : Request) : FetchOutcome :=
  if Demo.ends_with "/api/session/s0" (url r)
  then Response 500 (BodyJson (VObj [("detail", VStr "gone")]))
  else Demo.healthy_answer r.
Definition refetch_down : Platform := Demo.platform (fun _ r => refetch_answer r).


End Scenario.

(** ** components/ui/chat-interface.tsx: the input box and the chips *)

Module ChatInterface.

(** [s.split(',')] *)
Fixpoint split_comma (s : string) : list string :=
  match s with
  | EmptyString => [""]
  | String c rest =>
      if Ascii.eqb c ","
      then "" :: split_comma rest
      else match split_comma rest with
           | piece :: pieces => String c piece :: pieces
           | [] => [String c ""]
           end
  end.

(** [l.join(sep)] *)
Fixpoint join (sep : string) (l : list string) : string :=
  match l with
  | [] => ""
  | [s] => s
  | s :: rest => s +:+ sep +:+ join sep rest
  end.

(** [prev.split(',').map(s => s.trim()).filter(s => s !== "")] *)
Definition parts (prev : string) : list string :=
  filter (fun s => s <> "") (trim <$> split_comma prev).

(** The updater [handleSuggestionSelect] hands to [setUserInput]. *)
Definition handleSuggestionSelect (suggestion prev : string) : string :=
  let parts := parts prev in
  if bool_decide (suggestion ∈ parts)
  then join ", " (filter (fun p => p <> suggestion) parts)
  else if bool_decide (0 < length parts)%nat
       then prev +:+ ", " +:+ suggestion
       else suggestion.

End ChatInterface.

(** A piece of text that survives a round through the input box: it holds
    no comma, has no white space at either end and is not empty. *)
Definition plain (s : string) : Prop :=
  (","%char ∉ String.list_ascii_of_string s) /\ trim s = s /\ s <> "".

(** ** Components with state of their own

    A component's [useState] cells live beside the world; a handler reads
    them from the render it closed over and writes them through the
    setters, and what it wrote stays written when it throws. *)

Module Component.
Section WithState.
Context {S : Type}.

Definition C (A : Type) : Type := S -> World -> Outcome A * (S * World).

Definition ret {A} (a : A) : C A := fun s w => (Return a, (s, w)).

Definition bind {A B} (m : C A) (k : A -> C B) : C B :=
  fun s w =>
    match m s w with
    | (Return a, (s', w')) => k a s' w'
    | (Throw e, sw) => (Throw e, sw)
    end.

Definition try_catch {A} (m : C A) (h : Error -> C A) : C A :=
  fun s w =>
    match m s w with
    | (Return a, sw) => (Return a, sw)
    | (Throw e, (s', w')) => h e s' w'
    end.

Definition try_finally {A} (m : C A) (f : C unit) : C A :=
  fun s w =>
    match m s w with
    | (r, (s', w')) =>
        match f s' w' with
        | (Return _, sw) => (r, sw)
        | (Throw e, sw) => (Throw e, sw)
        end
    end.

(** A computation of the world, run from inside a component. *)
Definition lift {A} (m : M A) : C A :=
  fun s w => let (r, w') := m w in (r, (s, w')).

(** A [useState] setter. *)
Definition set_local (f : S -> S) : C unit := fun s w => (Return tt, (f s, w)).

Definition when (b : bool) (m : C unit) : C unit := if b then m else ret tt.

End WithState.
Arguments C : clear implicits.
End Component.

Declare Scope comp_scope.
Delimit Scope comp_scope with comp.
Notation "'let*' x := m 'in' k" := (Component.bind m (fun x => k))
  (at level 10, x name, m at level 100, k at level 200) : comp_scope.
Notation "m ;;; k" := (Component.bind m (fun _ => k))
  (at level 100, k at level 200, right associativity) : comp_scope.

(** ** app/auth/page.tsx *)

Module AuthPage.
Section WithPlatform.
Context `{P : Platform}.
Local Open Scope comp_scope.

Record State : Type := mkState {
  isLoading : bool;
  isSignUp : bool;
  email : Val;
  password : Val
}.

Definition setIsLoading (b : bool) : Component.C State unit :=
  Component.set_local (fun s => mkState b (isSignUp s) (email s) (password s)).

Definition go_home : Component.C State unit :=
  Component.lift (router_push "/");;;
  Component.lift router_refresh.

(** [handleAuth], with the [login] and [signup] of the session store and
    the render [snap] it closed over. [e.preventDefault()] touches nothing
    modelled here. Each [return] inside the [catch] block skips the final
    toast; the [finally] block still runs. *)
Definition handleAuth (login signup : Val -> Val -> M Val) (snap : State)
  : Component.C State unit :=
  setIsLoading true;;;
  Component.try_finally
    (Component.try_catch
       (if isSignUp snap then
          Component.lift (signup (email snap) (password snap));;;
          Component.lift (login (email snap) (password snap));;;
          Component.lift (toast "Account created!");;;
          go_home
        else
          Component.lift (login (email snap) (password snap));;;
          go_home)
       (fun error =>
          if isSignUp snap && String.eqb (message error) "User already exists" then
            Component.lift (toast "Account exists");;;
            Component.try_catch
              (Component.lift (login (email snap) (password snap));;;
               go_home)
              (fun loginError => Component.lift (toast "Login failed"))
          else
            Component.lift (toast "Error")))
    (setIsLoading false).

End WithPlatform.
End AuthPage.

(** ** components/ui/prompt-display.tsx *)

Module PromptDisplay.
Section WithPlatform.
Context `{P : Platform}.
Local Open Scope comp_scope.

Record State : Type := mkState {
  finalPrompt : Val;
  isLoadingPrompt : bool;
  refinementInput : string;
  isRefining : bool
}.

Definition initial : State := mkState (VStr "") true "" false.

Definition setFinalPrompt (v : Val) : Component.C State unit :=
  Component.set_local
    (fun s => mkState v (isLoadingPrompt s) (refinementInput s) (isRefining s)).
Definition setIsLoadingPrompt (b : bool) : Component.C State unit :=
  Component.set_local
    (fun s => mkState (finalPrompt s) b (refinementInput s) (isRefining s)).

(** The effect that loads the prompt; [store] is the session store of the
    render it runs in. It talks to the client directly. *)
Definition loadPrompt (store : StoreState) : Component.C State unit :=
  if negb (truthy (sessionId store)) then setIsLoadingPrompt false else
  setIsLoadingPrompt true;;;
  Component.try_finally
    (Component.try_catch
       (let* cached := Component.lift (opt_prop (session store) "final_prompt") in
        if truthy cached then setFinalPrompt cached
        else
          let* response := Component.lift (ApiClient.getFinalPrompt (sessionId store)) in
          let* prompt := Component.lift (prop response "final_prompt") in
          setFinalPrompt prompt)
       (fun error =>
          Component.try_catch
            (let* sessionData := Component.lift (ApiClient.getSession (sessionId store)) in
             let* prompt := Component.lift (prop sessionData "final_prompt") in
             Component.when (truthy prompt) (setFinalPrompt prompt))
            (fun err => Component.ret tt)))
    (setIsLoadingPrompt false).

End WithPlatform.
End PromptDisplay.

(** ** components/sidebar.tsx *)

Module Sidebar.
Section WithPlatform.
Context `{P : Platform}.
Local Open Scope comp_scope.

(** [{ ...fields, [k]: v }]: an own key keeps its place, a new one goes
    last. *)
Fixpoint spread_with (k : string) (v : Val) (fields : list (string * Val))
  : list (string * Val) :=
  match fields with
  | [] => [(k, v)]
  | (k', v') :: rest =>
      if String.eqb k k' then (k, v) :: rest else (k', v') :: spread_with k v rest
  end.

(** The component's [settings] cell. *)
Definition State : Type := list (string * Val).

Definition initial : State :=
  [("aspect_ratio", VStr "16:9"); ("color_palette", VUndef);
   ("camera_settings", VUndef); ("image_purpose", VUndef)].

Definition setSettings (fields : list (string * Val)) : Component.C State unit :=
  Component.set_local (fun _ => fields).

(** The three change handlers differ in the key they write. *)
Definition change (key : string) (saveVisualSettings : Val -> M Val) (snap : State)
    (value : Val) : Component.C State unit :=
  let newSettings := spread_with key value snap in
  setSettings newSettings;;;
  Component.try_catch
    (Component.lift (saveVisualSettings (VObj newSettings));;; Component.ret tt)
    (fun error => Component.ret tt).

Definition handleAspectRatioChange := change "aspect_ratio".
Definition handleContentTypeChange := change "image_purpose".
Definition handleStyleChange := change "color_palette".

End WithPlatform.
End Sidebar.

(** What a request says apart from its headers. *)
Definition told (r : Request) : string * option string * option Body :=
  (url r, method r, body r).

Section PageVocabulary.
Context `{P : Platform}.

(** The calls a list of events holds, headers left out. *)
Definition calls (l : list Event) : list (string * option string * option Body) :=
  told <$> fetches l.



End PageVocabulary.

Section MorePageVocabulary.
Context `{P : Platform}.

(** [session?.final_prompt] as a value. *)
Definition final_prompt_of (s : Val) : Val :=
  match s with
  | VObj fields => lookup_field "final_prompt" fields
  | _ => VUndef
  end.

(** What an attempt to read [final_prompt] off the answer of a call comes
    to: nothing when the call throws or its answer is nullish (reading the
    property throws), the property otherwise. *)
Definition landed (r : Outcome Val) : option Val :=
  match r with
  | Return v => if nullish v then None else Some (field_of "final_prompt" v)
  | Throw _ => None
  end.

(** The prompt shown after the second attempt of [loadPrompt]: the one of
    the session when that is truthy, the old one otherwise. *)
Definition fallback_prompt (r : Outcome Val) (old : Val) : Val :=
  match landed r with
  | Some p => if truthy p then p else old
  | None => old
  end.

(** The two calls [loadPrompt] can make for a session id. *)
Definition final_prompt_call (id : Val) : string * option string * option Body :=
  (baseUrl +:+ "/api/prompt/final/" +:+ ToString id, None, None).
Definition session_call (id : Val) : string * option string * option Body :=
  (baseUrl +:+ "/api/session/" +:+ ToString id, None, None).

End MorePageVocabulary.

(** The forms and cells the examples use. *)
Module Pages.


End Pages.

(** * Properties *)

(** ** Generic facts about computations *)

Lemma bind_Return {A B} (m : M A) (k : A -> M B) w a w' :
  m w = (Return a, w') -> bind m k w = k a w'.
Proof. unfold bind. by intros ->. Qed.

Lemma bind_Throw {A B} (m : M A) (k : A -> M B) w e w' :
  m w = (Throw e, w') -> bind m k w = (Throw e, w').
Proof. unfold bind. by intros ->. Qed.

Lemma try_catch_Return {A} (m : M A) h w a w' :
  m w = (Return a, w') -> try_catch m h w = (Return a, w').
Proof. unfold try_catch. by intros ->. Qed.

Lemma try_catch_Throw {A} (m : M A) h w e w' :
  m w = (Throw e, w') -> try_catch m h w = h e w'.
Proof. unfold try_catch. by intros ->. Qed.

(** ** lib/api-client.ts *)

Section ApiClientFacts.
Context `{P : Platform}.

Lemma prop_caught (v : Val) (k : string) (w : World) :
  try_catch (prop v k) (fun _ => ret VNull) w
  = (Return (match v with
             | VObj fields => lookup_field k fields
             | VUndef | VNull => VNull
             | _ => VUndef
             end), w).
Proof. by destruct v. Qed.

(** [getUserId] never throws and leaves the world alone. *)
Lemma getUserId_spec (w : World) :
  ApiClient.getUserId w = (Return (cachedUserId w), w).
Proof.
  unfold ApiClient.getUserId, cachedUserId, bind, typeof_window_undefined, getItem.
  destruct (window w) as [b|] eqn:Hw; simpl; [|done].
  rewrite Hw.
  destruct (localStorage b !! "user") as [s|] eqn:Hs; simpl; [|done].
  destruct (String.eqb s ""); simpl; [done|].
  destruct (JSON_parse s) as [u|]; [|done].
  apply prop_caught.
Qed.

(** The first step of [request]: the user id is read, the call goes out. *)
Lemma request_unfold (endpoint : string) (options : RequestInit) (w : World) :
  ApiClient.request endpoint options w
  = try_catch
      (let* response := ApiClient.fetch (request_sent endpoint options w) in
       let (status, json) := response : Z * JsonBody in
       if Z.eqb status 401 then
         (let* nowin := typeof_window_undefined in
          when (negb nowin)
            (removeItem "user";;;
             removeItem "session_id";;;
             set_href "/login"));;;
         throw (mkError "Unauthorized")
       else if Z.eqb status 403 then
         throw (mkError "Access denied: You don't have permission to access this resource")
       else if negb (ok status) then
         let* error :=
           try_catch (ApiClient.response_json json)
                     (fun _ => ret (VObj [("detail", VStr "Unknown error")])) in
         let* detail := prop error "detail" in
         throw (mkError (ToString (js_or detail (VStr ("HTTP " +:+ pretty status)))))
       else ApiClient.response_json json)
      (fun error => throw error) w.
Proof.
  unfold ApiClient.request at 1.
  rewrite (bind_Return _ _ _ _ _ (getUserId_spec w)). reflexivity.
Qed.

Lemma fetch_spec (r : Request) (w : World) :
  ApiClient.fetch r w
  = match server (events w) r with
    | NetworkFailure e => (Throw e, log_fetch r w)
    | Response status json => (Return (status, json), log_fetch r w)
    end.
Proof. reflexivity. Qed.

(** What the forced logout of a 401 does to a world. *)
Lemma forced_logout_spec (w : World) :
  (let* nowin := typeof_window_undefined in
   when (negb nowin)
     (removeItem "user";;;
      removeItem "session_id";;;
      set_href "/login")) w
  = (Return tt, set_browser logged_out w).
Proof.
  unfold bind, typeof_window_undefined, when, removeItem, set_href, modify, set_browser,
    logged_out.
  destruct w as [[b|] st u ev]; simpl; reflexivity.
Qed.

(** [request] is: send, then settle the answer. *)
Lemma request_settle (endpoint : string) (options : RequestInit) (w : World) :
  ApiClient.request endpoint options w
  = settle (server (events w) (request_sent endpoint options w))
           (log_fetch (request_sent endpoint options w) w).
Proof.
  rewrite request_unfold. unfold try_catch, bind at 1. rewrite fetch_spec.
  destruct (server (events w) _) as [e|status json]; [done|]. simpl.
  destruct (Z.eqb status 401).
  { unfold bind at 1. by rewrite forced_logout_spec. }
  destruct (Z.eqb status 403); [done|].
  destruct (negb (ok status)).
  - destruct json as [v|e]; simpl; [destruct v|]; done.
  - destruct json; done.
Qed.

Lemma settle_frame (answer : FetchOutcome) (w : World) :
  events (settle answer w).2 = events w
  /\ store (settle answer w).2 = store w
  /\ ui (settle answer w).2 = ui w.
Proof.
  destruct answer as [e|status json]; [done|]. simpl.
  destruct (Z.eqb status 401); [done|].
  destruct (Z.eqb status 403); [done|].
  destruct (negb (ok status)); [done|].
  by destruct json.
Qed.

(** Whatever the server answers, [request] logs exactly its one call and
    touches neither the store nor the page state. *)
Lemma request_frame (endpoint : string) (options : RequestInit) (w : World) :
  exists res w',
    ApiClient.request endpoint options w = (res, w')
    /\ events w' = events w ++ [EFetch (request_sent endpoint options w)]
    /\ store w' = store w /\ ui w' = ui w.
Proof.
  rewrite request_settle.
  destruct (settle_frame (server (events w) (request_sent endpoint options w))
              (log_fetch (request_sent endpoint options w) w)) as (Hev & Hst & Hui).
  destruct (settle _ _) as [res w']. by exists res, w'.
Qed.

(** Unless the answer is a 401, the browser is left alone too. *)
Lemma settle_window (answer : FetchOutcome) (w : World) :
  (forall json, answer <> Response 401 json) ->
  window (settle answer w).2 = window w.
Proof.
  intros Hno. destruct answer as [e|status json]; [done|]. simpl.
  destruct (Z.eqb_spec status 401) as [->|_]; [by destruct (Hno json)|].
  destruct (Z.eqb status 403); [done|].
  destruct (negb (ok status)); [done|].
  by destruct json.
Qed.

Lemma request_window (endpoint : string) (options : RequestInit) (w : World) :
  (forall json, server (events w) (request_sent endpoint options w) <> Response 401 json) ->
  window (ApiClient.request endpoint options w).2 = window w.
Proof. intros Hno. rewrite request_settle. by rewrite settle_window. Qed.

Lemma settle_outcome (answer : FetchOutcome) (w1 w2 : World) :
  (settle answer w1).1 = (settle answer w2).1.
Proof.
  destruct answer as [e|status json]; [done|]. simpl.
  destruct (Z.eqb status 401); [done|].
  destruct (Z.eqb status 403); [done|].
  destruct (negb (ok status)); [done|].
  by destruct json.
Qed.

End ApiClientFacts.

(** C2. On a response with status 401 the client's [request], for any
    endpoint and any options, never returns a value: it throws
    "Unauthorized"; in the browser it has by then removed both the cached
    user and the stored session id from local storage and sent the page to
    [/login]. *)
Theorem request_401_forces_logout `{P : Platform}
    (endpoint : string) (options : RequestInit) (w : World) (b : Browser) (json : JsonBody) :
  window w = Some b ->
  server (events w) (request_sent endpoint options w) = Response 401 json ->
  exists w',
    ApiClient.request endpoint options w = (Throw (mkError "Unauthorized"), w')
    /\ (exists b', window w' = Some b'
                  /\ localStorage b' !! "user" = None
                  /\ localStorage b' !! "session_id" = None
                  /\ href b' = "/login")
    /\ store w' = store w
    /\ events w' = events w ++ [EFetch (request_sent endpoint options w)].
Proof.
  intros Hw Hs.
  eexists. split.
  { rewrite request_settle, Hs. reflexivity. }
  simpl. rewrite Hw. simpl. split; [|done].
  eexists. split; [reflexivity|]. simpl.
  rewrite lookup_delete_ne, !lookup_delete_eq by done. done.
Qed.

Lemma request_401_forces_logout_witness :
  exists w',
    @ApiClient.request Demo.unauthorized "/api/categories" GET Demo.signed_in
    = (Throw (mkError "Unauthorized"), w')
    /\ (exists b', window w' = Some b'
                  /\ localStorage b' !! "user" = None
                  /\ localStorage b' !! "session_id" = None
                  /\ href b' = "/login")
    /\ store w' = store Demo.signed_in
    /\ events w' = events Demo.signed_in
                    ++ [EFetch (@request_sent Demo.unauthorized "/api/categories" GET
                                              Demo.signed_in)].
Proof.
  apply (@request_401_forces_logout Demo.unauthorized "/api/categories" GET Demo.signed_in
           (mkBrowser (<["session_id" := "s0"]> (<["user" := Demo.user1_text]> ∅)) "/")
           (BodyJson (VObj [("detail", VStr "Not authenticated")]))); reflexivity.
Defined.

Section BearerFacts.
Context `{P : Platform}.

(** [request] attaches the bearer credential built from the cached id. *)
Lemma request_attaches_bearer (endpoint : string) (options : RequestInit) (w : World) :
  truthy (cachedUserId w) = true ->
  headers (request_sent endpoint options w) !! "Authorization"
  = Some ("Bearer " +:+ ToString (cachedUserId w)).
Proof.
  intros Ht. simpl. unfold ApiClient.request_headers. rewrite Ht.
  apply lookup_insert_eq.
Qed.

(** A cached user whose text parses to an object with a non-empty [id]. *)
Lemma request_bearer_of_cached_user (endpoint : string) (options : RequestInit) (w : World)
      (b : Browser) (text : string) (fields : list (string * Val)) (id : string) :
  window w = Some b ->
  localStorage b !! "user" = Some text ->
  text <> "" ->
  JSON_parse text = Some (VObj fields) ->
  lookup_field "id" fields = VStr id ->
  id <> "" ->
  headers (request_sent endpoint options w) !! "Authorization" = Some ("Bearer " +:+ id).
Proof.
  intros Hb Htext Hne Hparse Hid Hid'.
  assert (Hc : cachedUserId w = VStr id).
  { unfold cachedUserId. rewrite Hb, Htext.
    destruct (String.eqb_spec text ""); [done|]. by rewrite Hparse. }
  rewrite request_attaches_bearer; rewrite Hc; [done|].
  simpl. by destruct (String.eqb_spec id "").
Qed.

Lemma request_no_bearer (endpoint : string) (options : RequestInit) (w : World) :
  truthy (cachedUserId w) = false ->
  headers (request_sent endpoint options w)
  = o_headers options ∪ {[ "Content-Type" := "application/json" ]}.
Proof. intros Ht. simpl. unfold ApiClient.request_headers. by rewrite Ht. Qed.

Lemma cached_user_unusable_null (w : World) :
  cached_user_unusable w -> cachedUserId w = VNull.
Proof.
  unfold cached_user_unusable, cachedUserId.
  destruct (window w) as [b|]; [|done].
  destruct (localStorage b !! "user") as [s|]; [|done].
  intros ->. by destruct (String.eqb s "").
Qed.

Lemma without_user_null (w : World) : cachedUserId (without_user w) = VNull.
Proof.
  unfold cachedUserId, without_user, set_browser. simpl.
  destruct (window w) as [b|]; [|done]. simpl.
  by rewrite lookup_delete_eq.
Qed.

(** The outcome of [request] is a function of the request sent and of the
    server's answer to it. *)
Lemma request_outcome_ext (endpoint : string) (options : RequestInit) (w1 w2 : World) :
  events w1 = events w2 ->
  cachedUserId w1 = cachedUserId w2 ->
  (ApiClient.request endpoint options w1).1 = (ApiClient.request endpoint options w2).1.
Proof.
  intros Hev Hid. rewrite !request_settle. unfold request_sent.
  rewrite Hev, Hid. apply settle_outcome.
Qed.

End BearerFacts.

(** C7 (the upload path). [uploadFile] sends its one call with a method and
    a multipart body and no header at all, so no [Authorization] header goes
    out, whatever user is cached. *)
Theorem uploadFile_sends_no_Authorization `{P : Platform}
    (sessionId : Val) (file : File) (w : World) :
  exists res w',
    ApiClient.uploadFile sessionId file w = (res, w')
    /\ events w' = events w ++ [EFetch (upload_sent sessionId file)]
    /\ headers (upload_sent sessionId file) !! "Authorization" = None.
Proof.
  unfold ApiClient.uploadFile, try_catch, bind at 1. rewrite fetch_spec.
  fold (upload_sent sessionId file).
  destruct (server (events w) _) as [e|status json]; [by eexists _, _|].
  destruct (negb (ok status)).
  - destruct json as [v|e]; simpl; [destruct v|]; by eexists _, _.
  - destruct json; by eexists _, _.
Qed.

(** With the user [u1] cached, every [request] carries [Bearer u1] while the
    upload of the same world carries nothing. *)
Example upload_of_signed_in_user :
  headers (@request_sent Demo.healthy "/api/categories" GET Demo.signed_in) !! "Authorization"
  = Some "Bearer u1"
  /\ fetches (events (@ApiClient.uploadFile Demo.healthy (VStr "s0") Demo.photo
                                              Demo.signed_in).2)
     = [mkRequest "http://localhost:8000/api/session/s0/upload" (Some "POST") ∅
                  (Some (FormData Demo.photo))].
Proof. split; reflexivity. Qed.

(** C10. When the cached user slot is absent or holds text that is not JSON,
    [getUserId] yields null without throwing; the request is sent with the
    content type (and the caller's headers) only, and its outcome is the one
    of the same request made with no cached user at all. *)
Theorem malformed_identity_is_unauthenticated `{P : Platform}
    (endpoint : string) (options : RequestInit) (w : World) :
  cached_user_unusable w ->
  ApiClient.getUserId w = (Return VNull, w)
  /\ headers (request_sent endpoint options w)
     = o_headers options ∪ {[ "Content-Type" := "application/json" ]}
  /\ (o_headers options !! "Authorization" = None ->
      headers (request_sent endpoint options w) !! "Authorization" = None)
  /\ (exists res w',
        ApiClient.request endpoint options w = (res, w')
        /\ events w' = events w ++ [EFetch (request_sent endpoint options w)]
        /\ res = (ApiClient.request endpoint options (without_user w)).1).
Proof.
  intros Hbad. pose proof (cached_user_unusable_null w Hbad) as Hnull.
  assert (Hh : headers (request_sent endpoint options w)
               = o_headers options ∪ {[ "Content-Type" := "application/json" ]}).
  { apply request_no_bearer. by rewrite Hnull. }
  split; [by rewrite getUserId_spec, Hnull|].
  split; [done|].
  split.
  { intros Hno. rewrite Hh. apply lookup_union_None. split; [done|].
    by apply lookup_singleton_ne. }
  destruct (request_frame endpoint options w) as (res & w' & Heq & Hev & _).
  exists res, w'. split; [done|]. split; [done|].
  change res with (res, w').1. rewrite <- Heq.
  apply request_outcome_ext; [by destruct w|].
  by rewrite Hnull, without_user_null.
Qed.

Lemma malformed_identity_is_unauthenticated_witness :
  @ApiClient.getUserId Demo.healthy Demo.garbled = (Return VNull, Demo.garbled)
  /\ headers (@request_sent Demo.healthy "/api/categories" GET Demo.garbled)
     = o_headers GET ∪ {[ "Content-Type" := "application/json" ]}
  /\ (o_headers GET !! "Authorization" = None ->
      headers (@request_sent Demo.healthy "/api/categories" GET Demo.garbled)
        !! "Authorization" = None)
  /\ (exists res w',
        @ApiClient.request Demo.healthy "/api/categories" GET Demo.garbled = (res, w')
        /\ events w' = events Demo.garbled
                        ++ [EFetch (@request_sent Demo.healthy "/api/categories" GET
                                                  Demo.garbled)]
        /\ res = (@ApiClient.request Demo.healthy "/api/categories" GET
                                      (without_user Demo.garbled)).1).
Proof.
  apply (@malformed_identity_is_unauthenticated Demo.healthy "/api/categories" GET
           Demo.garbled).
  vm_compute. reflexivity.
Defined.

(** ** Quiet computations *)

Section Quiet.
Context `{P : Platform}.

Lemma quiet_ret {A} (a : A) : quiet (ret a).
Proof. intros w. exists []. by rewrite app_nil_r. Qed.

Lemma quiet_throw {A} (e : Error) : quiet (@throw A e).
Proof. intros w. exists []. by rewrite app_nil_r. Qed.

Lemma quiet_bind {A B} (m : M A) (k : A -> M B) :
  quiet m -> (forall a, quiet (k a)) -> quiet (bind m k).
Proof.
  intros Hm Hk w. unfold bind.
  destruct (Hm w) as (l1 & Hev1 & Hf1 & Hl1).
  destruct (m w) as [[a|e] w1]; simpl in *.
  - destruct (Hk a w1) as (l2 & Hev2 & Hf2 & Hl2).
    exists (l1 ++ l2). rewrite Hev2, Hev1, Hl2, Hl1, app_assoc.
    split; [done|]. split; [by apply Forall_app|done].
  - by exists l1.
Qed.

Lemma quiet_try_catch {A} (m : M A) (h : Error -> M A) :
  quiet m -> (forall e, quiet (h e)) -> quiet (try_catch m h).
Proof.
  intros Hm Hh w. unfold try_catch.
  destruct (Hm w) as (l1 & Hev1 & Hf1 & Hl1).
  destruct (m w) as [[a|e] w1]; simpl in *.
  - by exists l1.
  - destruct (Hh e w1) as (l2 & Hev2 & Hf2 & Hl2).
    exists (l1 ++ l2). rewrite Hev2, Hev1, Hl2, Hl1, app_assoc.
    split; [done|]. split; [by apply Forall_app|done].
Qed.

Lemma quiet_when (b : bool) (m : M unit) : quiet m -> quiet (when b m).
Proof. destruct b; [done|]. intros _. apply quiet_ret. Qed.

(** A step that rewrites the world without touching log or flag. *)
Lemma quiet_silent {A} (m : M A) :
  (forall w, events (m w).2 = events w /\ isLoading (store (m w).2) = isLoading (store w)) ->
  quiet m.
Proof. intros H w. destruct (H w) as [Hev Hl]. exists []. by rewrite app_nil_r. Qed.

Lemma quiet_setSessionId v : quiet (setSessionId v).
Proof. by apply quiet_silent. Qed.
Lemma quiet_setSession v : quiet (setSession v).
Proof. by apply quiet_silent. Qed.
Lemma quiet_setUser v : quiet (setUser v).
Proof. by apply quiet_silent. Qed.
Lemma quiet_setError e : quiet (setError e).
Proof. by apply quiet_silent. Qed.
Lemma quiet_setSelectedSuggestions v : quiet (setSelectedSuggestions v).
Proof. by apply quiet_silent. Qed.
Lemma quiet_getItem k : quiet (getItem k).
Proof. apply quiet_silent. intros w. unfold getItem. by destruct (window w). Qed.
Lemma quiet_setItem k v : quiet (setItem k v).
Proof. apply quiet_silent. intros w. unfold setItem. by destruct (window w). Qed.
Lemma quiet_removeItem k : quiet (removeItem k).
Proof. apply quiet_silent. intros w. unfold removeItem. by destruct (window w). Qed.
Lemma quiet_prop v k : quiet (prop v k).
Proof. apply quiet_silent. intros w. by destruct v. Qed.
Lemma quiet_opt_prop v k : quiet (opt_prop v k).
Proof. apply quiet_silent. intros w. by destruct v. Qed.

Lemma quiet_request endpoint options : quiet (ApiClient.request endpoint options).
Proof.
  intros w. destruct (request_frame endpoint options w) as (res & w' & -> & Hev & Hst & _).
  exists [EFetch (request_sent endpoint options w)]. simpl.
  rewrite Hst. repeat split; [done|]. by repeat constructor.
Qed.

Lemma quiet_handleError e : quiet (SessionContext.handleError e).
Proof. apply quiet_setError. Qed.

End Quiet.

Create HintDb quiet.
#[export] Hint Resolve quiet_ret quiet_throw quiet_when quiet_setSessionId quiet_setSession
  quiet_setUser quiet_setError quiet_setSelectedSuggestions quiet_getItem quiet_setItem
  quiet_removeItem quiet_prop quiet_opt_prop quiet_request quiet_handleError : quiet.

(** Walks through a computation built from quiet pieces. *)
Ltac quiet_step :=
  match goal with
  | |- quiet (bind _ _) => apply quiet_bind; [|intros ?]
  | |- quiet (try_catch _ _) => apply quiet_try_catch; [|intros ?]
  | |- quiet (when _ _) => apply quiet_when
  | |- quiet (if ?b then _ else _) => destruct b
  | |- quiet (match ?x with _ => _ end) => destruct x
  | |- quiet (let x := _ in _) => cbv zeta
  | |- quiet _ => solve [eauto with quiet]
  end.
Ltac quiet_tac := repeat quiet_step.

Section QuietStore.
Context `{P : Platform}.

Lemma quiet_refreshSession snap id : quiet (SessionContext.refreshSession snap id).
Proof. unfold SessionContext.refreshSession, ApiClient.getSession. quiet_tac. Qed.

Lemma quiet_client_call snap a : quiet (client_call snap a).
Proof.
  destruct a; simpl;
    unfold ApiClient.login, ApiClient.signup, ApiClient.createSession, ApiClient.getSession,
      ApiClient.saveVisualSettings, ApiClient.generateQuickPrompt, ApiClient.startChat,
      ApiClient.submitAnswer, ApiClient.skipToGeneration, ApiClient.getCurrentQuestion,
      ApiClient.getSuggestions, ApiClient.toggleSuggestion, ApiClient.getFinalPrompt,
      ApiClient.refinePrompt; try quiet_tac.
  intros w. destruct (truthy (session_at_hand snap w)).
  - apply quiet_request.
  - apply quiet_request.
Qed.

End QuietStore.

#[export] Hint Resolve quiet_refreshSession : quiet.

(** ** The session store: failure of the Client call *)

Section StoreFailure.
Context `{P : Platform}.

Lemma opt_prop_user_id (u : Val) (w : World) :
  opt_prop u "id" w = (Return (user_id_of u), w).
Proof. by destruct u. Qed.

Lemma bracket_unfold {A} (m : M A) (w : World) :
  (setIsLoading true;;; setError None;;; m) w = m (loading_on w).2.
Proof. reflexivity. Qed.

Lemma getItem_browser (k : string) (w : World) (b : Browser) :
  window w = Some b -> getItem k w = (Return (localStorage b !! k), w).
Proof. unfold getItem. by intros ->. Qed.

Lemma session_at_hand_loading_on snap (w : World) :
  session_at_hand snap (loading_on w).2 = session_at_hand snap w.
Proof. reflexivity. Qed.

(** The world in which the first Client call of an action is made, the
    outcome and the world the caller sees when that call throws. *)
Lemma run_failure (snap : StoreState) (a : Action) (w : World) (e : Error) (w1 : World) :
  is_Some (window w) ->
  passes_guard snap a = true ->
  client_call snap a (prologue snap a w).2 = (Throw e, w1) ->
  run snap a w
  = (on_failure a e, epilogue snap a w (recorded (failure_message a e) w1)).
Proof.
  intros [b Hb] Hg Hc. unfold epilogue.
  destruct a; cbn [run client_call prologue brackets_loading closes_loading on_failure
                   failure_message passes_guard requires_session] in *.
  - (* login *)
    unfold SessionContext.login. rewrite bracket_unfold. unfold try_finally.
    by rewrite (try_catch_Throw _ _ _ _ _ (bind_Throw _ _ _ _ _ Hc)).
  - (* signup *)
    unfold SessionContext.signup. rewrite bracket_unfold. unfold try_finally.
    by rewrite (try_catch_Throw _ _ _ _ _ (bind_Throw _ _ _ _ _ Hc)).
  - (* initializeSession *)
    unfold SessionContext.initializeSession. cbv zeta.
    rewrite bracket_unfold. unfold try_finally.
    rewrite (try_catch_Throw _ _ (loading_on w).2 e w1); [done|].
    rewrite (bind_Return _ _ _ _ _ (opt_prop_user_id _ _)).
    by apply bind_Throw.
  - (* refreshSession *)
    unfold SessionContext.refreshSession. cbv zeta. rewrite Hg. cbn [negb].
    by rewrite (bind_Return _ _ w tt (recorded (failure_message (RefreshSession id) e) w1)
                  (try_catch_Throw _ _ _ _ _ (bind_Throw _ _ _ _ _ Hc))).
  - (* joinSession *)
    unfold SessionContext.joinSession.
    assert (Hp : (setSessionId id;;; setItem "session_id" id) w
                 = (Return tt, ((setSessionId id;;; setItem "session_id" id) w).2)).
    { unfold bind, setSessionId, set_store, modify, setItem. simpl. by rewrite Hb. }
    set (w0 := ((setSessionId id;;; setItem "session_id" id) w).2) in *.
    transitivity ((SessionContext.refreshSession snap id;;; ret VUndef) w0).
    { unfold bind at 1 2. unfold bind in Hp. revert Hp.
      destruct (setSessionId id w) as [[[]|?] ?]; [|done].
      by intros ->. }
    unfold SessionContext.refreshSession. cbv zeta. rewrite Hg. cbn [negb].
    by rewrite (bind_Return _ _ w0 tt (recorded (failure_message (JoinSession id) e) w1)
                  (try_catch_Throw _ _ _ _ _ (bind_Throw _ _ _ _ _ Hc))).
  - (* selectCategory *)
    unfold SessionContext.selectCategory.
    rewrite (bind_Return _ _ _ _ _ (getItem_browser _ _ _ Hb)). cbv zeta.
    assert (Hs : session_at_hand snap w
                 = js_or (of_item (localStorage b !! "session_id")) (sessionId snap)).
    { unfold session_at_hand. by rewrite Hb. }
    rewrite <- Hs.
    destruct (truthy (session_at_hand snap w)) eqn:Ht; cbn [negb].
    + rewrite session_at_hand_loading_on, Ht in Hc.
      rewrite (bind_Return _ _ w (Some (session_at_hand snap w)) w) by done.
      unfold SessionContext.record_category. rewrite bracket_unfold. unfold try_finally.
      by rewrite (try_catch_Throw _ _ _ _ _ (bind_Throw _ _ _ _ _ Hc)).
    + change (ret tt w).2 with w in Hc. rewrite Ht in Hc.
      rewrite (bind_Return _ _ w None
                 (recorded (failure_message (SelectCategory category userIdea) e) w1));
        [done|].
      rewrite (try_catch_Throw _ _ w e w1); [done|].
      rewrite (bind_Return _ _ _ _ _ (opt_prop_user_id _ _)).
      by apply bind_Throw.
  - (* saveVisualSettings *)
    unfold SessionContext.saveVisualSettings. rewrite Hg. cbn [negb].
    rewrite bracket_unfold. unfold try_finally.
    by rewrite (try_catch_Throw _ _ _ _ _ (bind_Throw _ _ _ _ _ Hc)).
  - (* generateQuickPrompt *)
    unfold SessionContext.generateQuickPrompt. rewrite Hg. cbn [negb].
    rewrite bracket_unfold. unfold try_finally.
    by rewrite (try_catch_Throw _ _ _ _ _ (bind_Throw _ _ _ _ _ Hc)).
  - (* startChat *)
    unfold SessionContext.startChat. rewrite Hg. cbn [negb].
    rewrite bracket_unfold. unfold try_finally.
    by rewrite (try_catch_Throw _ _ _ _ _ (bind_Throw _ _ _ _ _ Hc)).
  - (* submitAnswer *)
    unfold SessionContext.submitAnswer. rewrite Hg. cbn [negb].
    rewrite bracket_unfold. unfold try_finally.
    by rewrite (try_catch_Throw _ _ _ _ _ (bind_Throw _ _ _ _ _ Hc)).
  - (* skipToGeneration *)
    unfold SessionContext.skipToGeneration. rewrite Hg. cbn [negb].
    rewrite bracket_unfold. unfold try_finally.
    by rewrite (try_catch_Throw _ _ _ _ _ (bind_Throw _ _ _ _ _ Hc)).
  - (* getCurrentQuestion *)
    unfold SessionContext.getCurrentQuestion. rewrite Hg. cbn [negb].
    by rewrite (try_catch_Throw _ _ _ _ _ Hc).
  - (* getSuggestions *)
    unfold SessionContext.getSuggestions. cbv zeta. rewrite Hg. cbn [negb].
    by rewrite (try_catch_Throw _ _ _ _ _ (bind_Throw _ _ _ _ _ Hc)).
  - (* toggleSuggestion *)
    unfold SessionContext.toggleSuggestion. rewrite Hg. cbn [negb].
    by rewrite (try_catch_Throw _ _ _ _ _ (bind_Throw _ _ _ _ _ Hc)).
  - (* getFinalPrompt *)
    unfold SessionContext.getFinalPrompt. rewrite Hg. cbn [negb].
    by rewrite (try_catch_Throw _ _ _ _ _ Hc).
  - (* refinePrompt *)
    unfold SessionContext.refinePrompt. rewrite Hg. cbn [negb].
    rewrite bracket_unfold. unfold try_finally.
    by rewrite (try_catch_Throw _ _ _ _ _ (bind_Throw _ _ _ _ _ Hc)).
Qed.

End StoreFailure.

(** ** The session store: the loading flag *)

Section StoreLoading.
Context `{P : Platform}.

Lemma brackets_intro {A} (m : M A) :
  quiet m ->
  brackets (setIsLoading true;;; setError None;;; try_finally m (setIsLoading false)).
Proof.
  intros Hm w. rewrite bracket_unfold. unfold try_finally.
  destruct (Hm (loading_on w).2) as (mid & Hev & Hf & _).
  destruct (m (loading_on w).2) as [r w1]. simpl in *.
  exists mid. rewrite Hev. split; [|done].
  by rewrite <- !app_assoc.
Qed.

Lemma quiet_ensure_session (snap : StoreState) (activeSessionId : Val) :
  quiet (if negb (truthy activeSessionId) then
           try_catch
             (let* uid := opt_prop (user snap) "id" in
              let* response := ApiClient.createSession (VStr "Claude") uid in
              let* sid := prop response "session_id" in
              setSessionId sid;;;
              setItem "session_id" sid;;;
              ret (Some sid))
             (fun e => SessionContext.handleError e;;; ret None)
         else ret (Some activeSessionId)).
Proof. unfold ApiClient.createSession. quiet_tac. Qed.

Lemma brackets_record_category snap activeSessionId category userIdea :
  brackets (SessionContext.record_category snap activeSessionId category userIdea).
Proof.
  apply brackets_intro. unfold ApiClient.selectCategory. quiet_tac.
Qed.

End StoreLoading.

(** ** The session store: the re-fetch after a successful call *)

Section StoreRefresh.
Context `{P : Platform}.

Lemma settle_Return (answer : FetchOutcome) (w : World) (v : Val) (w1 : World) :
  settle answer w = (Return v, w1) -> w1 = w.
Proof.
  destruct answer as [e|status json]; [done|]. simpl.
  destruct (Z.eqb status 401); [done|].
  destruct (Z.eqb status 403); [done|].
  destruct (negb (ok status)); [done|].
  destruct json; congruence.
Qed.

(** A [request] that returns has only logged its call. *)
Lemma request_Return endpoint options (w : World) (v : Val) (w1 : World) :
  ApiClient.request endpoint options w = (Return v, w1) ->
  w1 = log_fetch (request_sent endpoint options w) w.
Proof. rewrite request_settle. apply settle_Return. Qed.

Lemma client_call_Return snap a (w : World) (v : Val) (w1 : World) :
  client_call snap a w = (Return v, w1) -> exists r, w1 = log_fetch r w.
Proof.
  destruct a; simpl; try (intros H; eexists; exact (request_Return _ _ _ _ _ H)).
  destruct (truthy (session_at_hand snap w));
    intros H; eexists; exact (request_Return _ _ _ _ _ H).
Qed.

Lemma request_sent_ext endpoint options (w w' : World) :
  cachedUserId w = cachedUserId w' ->
  request_sent endpoint options w = request_sent endpoint options w'.
Proof. unfold request_sent. by intros ->. Qed.

Lemma try_catch_bind_Return {A B} (m : M A) (k : A -> M B) h w a w1 :
  m w = (Return a, w1) -> try_catch (bind m k) h w = try_catch (k a) h w1.
Proof. unfold try_catch, bind. by intros ->. Qed.

Lemma try_finally_ext {A} (m m' : M A) f w w' :
  m w = m' w' -> try_finally m f w = try_finally m' f w'.
Proof. unfold try_finally. by intros ->. Qed.

(** [refreshSession] with an id to work on makes exactly one call, for
    that session, and never throws. *)
Lemma refreshSession_fetches snap id (w : World) :
  truthy (js_or id (sessionId snap)) = true ->
  exists w',
    SessionContext.refreshSession snap id w = (Return tt, w')
    /\ events w' = events w
                   ++ [EFetch (request_sent
                                 ("/api/session/" +:+ ToString (js_or id (sessionId snap)))
                                 GET w)]
    /\ isLoading (store w') = isLoading (store w).
Proof.
  intros Ht. unfold SessionContext.refreshSession. cbv zeta. rewrite Ht. cbn [negb].
  unfold ApiClient.getSession, try_catch, bind at 1.
  destruct (request_frame ("/api/session/" +:+ ToString (js_or id (sessionId snap))) GET w)
    as (res & w1 & -> & Hev & Hst & _).
  destruct res as [v|e].
  - unfold bind, setSession, setSelectedSuggestions, set_store, modify, when.
    destruct v as [| | | | |?|fields]; simpl;
      try (eexists; split; [reflexivity|]; simpl; by rewrite Hev, Hst).
    destruct (truthy (lookup_field "selected_chips" fields)); simpl;
      eexists; (split; [reflexivity|]); simpl; by rewrite Hev, Hst.
  - eexists. split; [reflexivity|]. simpl. by rewrite Hev, Hst.
Qed.

Lemma silent_ret {A} (a : A) : silent (ret a).
Proof. done. Qed.
Lemma silent_swallow : forall e, silent (SessionContext.handleError e;;; ret VUndef).
Proof. done. Qed.

(** The tail shared by the re-fetching actions. *)
Lemma refresh_tail snap id (k : M Val) (h : Error -> M Val) (w1 : World) :
  truthy (js_or id (sessionId snap)) = true ->
  silent k -> (forall e, silent (h e)) ->
  exists res w',
    try_finally (try_catch (SessionContext.refreshSession snap id;;; k) h)
                (setIsLoading false) w1 = (res, w')
    /\ events w' = events w1
                   ++ [EFetch (request_sent
                                 ("/api/session/" +:+ ToString (js_or id (sessionId snap)))
                                 GET w1);
                       ESetIsLoading false].
Proof.
  intros Ht Hk Hh.
  destruct (refreshSession_fetches snap id w1 Ht) as (w2 & Hr & Hev & _).
  unfold try_finally, try_catch. rewrite (bind_Return _ _ _ _ _ Hr).
  pose proof (Hk w2) as Hk2. destruct (k w2) as [[v|e] w3]; simpl in Hk2.
  - eexists _, _. split; [reflexivity|]. simpl. rewrite Hk2, Hev.
    by rewrite <- app_assoc.
  - pose proof (Hh e w3) as Hh3. destruct (h e w3) as [r w4]. simpl in Hh3.
    eexists _, _. split; [reflexivity|]. simpl. rewrite Hh3, Hk2, Hev.
    by rewrite <- app_assoc.
Qed.

Lemma js_or_truthy a b : truthy a = true -> js_or a b = a.
Proof. unfold js_or. by intros ->. Qed.

Lemma prop_not_nullish v k (w : World) :
  nullish v = false ->
  prop v k w = (Return (match v with VObj fields => lookup_field k fields | _ => VUndef end),
                w).
Proof. by destruct v. Qed.

End StoreRefresh.





(** ** The session store: on-demand creation in [selectCategory] *)

Section SelectCategory.
Context `{P : Platform}.

Lemma eqb_append_l (p x y : string) :
  String.eqb (p +:+ x) (p +:+ y) = String.eqb x y.
Proof.
  induction p as [|a p IH]; [done|]. simpl. by rewrite Ascii.eqb_refl.
Qed.

Lemma select_is_not_create id c i (w : World) :
  is_create (EFetch (select_request id c i w)) = false.
Proof. simpl. by rewrite eqb_append_l. Qed.

Lemma session_is_not_create id (w : World) :
  is_create (EFetch (session_request id w)) = false.
Proof. simpl. apply andb_false_r. Qed.

Lemma create_is_create snap (w : World) :
  is_create (EFetch (create_request snap w)) = true.
Proof. simpl. by rewrite String.eqb_refl. Qed.

Lemma creations_app (l1 l2 : list Event) :
  creations (l1 ++ l2) = (creations l1 + creations l2)%nat.
Proof. unfold creations. by rewrite List.filter_app, length_app. Qed.

Lemma category_tail_creations id (w : World) tail :
  category_tail id w tail -> creations tail = 0%nat.
Proof.
  intros [->| ->]; [done|]. unfold creations. cbn [List.filter].
  by rewrite session_is_not_create.
Qed.

Lemma refreshSession_window snap id (w : World) :
  never_401 -> window (SessionContext.refreshSession snap id w).2 = window w.
Proof.
  intros Hno. unfold SessionContext.refreshSession. cbv zeta.
  destruct (negb (truthy (js_or id (sessionId snap)))); [done|].
  unfold ApiClient.getSession, try_catch, bind at 1.
  pose proof (request_window ("/api/session/" +:+ ToString (js_or id (sessionId snap)))
                GET w (Hno _ _)) as Hw.
  destruct (ApiClient.request _ _ w) as [[v|e] w1]; simpl in Hw; [|done].
  unfold bind, setSession, setSelectedSuggestions, set_store, modify, when.
  destruct v as [| | | | |?|fields]; simpl; try done.
  by destruct (truthy (lookup_field "selected_chips" fields)).
Qed.

(** The second half of [selectCategory] for a usable id: the flag is set,
    the category is recorded for that id, the session is fetched again if
    that call returned, the flag is cleared. *)
Lemma record_category_events snap id c i (w : World) :
  truthy id = true ->
  exists res w' tail,
    SessionContext.record_category snap id c i w = (res, w')
    /\ events w' = events w ++ ESetIsLoading true :: EFetch (select_request id c i w) :: tail
    /\ category_tail id w tail
    /\ (never_401 -> window w' = window w).
Proof.
  intros Ht. unfold SessionContext.record_category. rewrite bracket_unfold.
  assert (Hsent : forall ep o, request_sent ep o (loading_on w).2 = request_sent ep o w)
    by done.
  destruct (ApiClient.selectCategory id c i (loading_on w).2) as [[v|e] w1] eqn:Hc.
  - pose proof (request_Return _ _ _ _ _ Hc) as Hw1. rewrite Hsent in Hw1.
    fold (select_request id c i w) in Hw1.
    assert (Hev1 : events w1
                   = events w ++ [ESetIsLoading true; EFetch (select_request id c i w)]).
    { rewrite Hw1. simpl. by rewrite <- app_assoc. }
    assert (Hu : cachedUserId w1 = cachedUserId w) by (by rewrite Hw1).
    assert (Hwin : window w1 = window w) by (by rewrite Hw1).
    clear Hw1.
    erewrite try_finally_ext; [|by apply try_catch_bind_Return, Hc]. cbv beta.
    destruct (refresh_tail snap id (ret VUndef)
                (fun err => SessionContext.handleError err;;; ret VUndef) w1)
      as (res & w' & Heq & Hev);
      [by rewrite js_or_truthy|apply silent_ret|apply silent_swallow|].
    rewrite js_or_truthy in Hev by done.
    exists res, w', [EFetch (session_request id w); ESetIsLoading false].
    split; [done|]. split; [|split; [by right|]].
    + rewrite Hev, Hev1, <- app_assoc. unfold session_request.
      by rewrite (request_sent_ext _ _ w1 w Hu).
    + intros Hno. revert Heq. unfold try_finally, try_catch.
      pose proof (refreshSession_window snap id w1 Hno) as Hrw.
      unfold bind at 1.
      destruct (SessionContext.refreshSession snap id w1) as [[[]|e] w2]; simpl in Hrw.
      * intros [= <- <-]. simpl. by rewrite Hrw, Hwin.
      * intros [= <- <-]. simpl. by rewrite Hrw, Hwin.
  - unfold try_finally. rewrite (try_catch_Throw _ _ _ _ _ (bind_Throw _ _ _ _ _ Hc)).
    destruct (request_frame ("/api/categories/select/" +:+ ToString id)
                (POST (ApiClient.json_body (VObj [("category", c); ("user_idea", i)])))
                (loading_on w).2) as (res & w1' & Heq & Hev & _).
    unfold ApiClient.selectCategory in Hc. rewrite Hc in Heq. injection Heq as <- <-.
    eexists _, _, [ESetIsLoading false]. split; [reflexivity|]. simpl.
    split; [|split; [by left|]].
    + rewrite Hev. unfold select_request. rewrite Hsent. simpl.
      by rewrite <- !app_assoc.
    + intros Hno.
      pose proof (request_window ("/api/categories/select/" +:+ ToString id)
                    (POST (ApiClient.json_body (VObj [("category", c); ("user_idea", i)])))
                    (loading_on w).2 (Hno _ _)) as Hw.
      rewrite Hc in Hw. exact Hw.
Qed.

Lemma truthy_VStr (s : string) : s <> "" -> truthy (VStr s) = true.
Proof. intros Hs. simpl. by destruct (String.eqb_spec s ""). Qed.

(** A stored id is used as it is, whatever the snapshot holds. *)
Lemma selectCategory_reuse snap c i (w : World) (b : Browser) (d : string) :
  window w = Some b ->
  localStorage b !! "session_id" = Some d ->
  d <> "" ->
  exists res w' tail,
    SessionContext.selectCategory snap c i w = (res, w')
    /\ events w'
       = events w ++ ESetIsLoading true :: EFetch (select_request (VStr d) c i w) :: tail
    /\ category_tail (VStr d) w tail
    /\ (never_401 -> window w' = Some b).
Proof.
  intros Hb Hd Hne. unfold SessionContext.selectCategory.
  rewrite (bind_Return _ _ _ _ _ (getItem_browser _ _ _ Hb)). cbv zeta.
  rewrite Hd. cbn [of_item]. rewrite (js_or_truthy _ _ (truthy_VStr d Hne)).
  rewrite (truthy_VStr d Hne). cbn [negb].
  rewrite (bind_Return _ _ w (Some (VStr d)) w) by done.
  destruct (record_category_events snap (VStr d) c i w (truthy_VStr d Hne))
    as (res & w' & tail & Heq & Hev & Htail & Hwin).
  exists res, w', tail. repeat split; try done.
  intros Hno. by rewrite Hwin.
Qed.

Lemma ok_not_401 st : ok st = true -> Z.eqb st 401 = false /\ Z.eqb st 403 = false.
Proof. unfold ok. intros [? ?]%andb_true_iff. split; apply Z.eqb_neq; lia. Qed.

(** With nothing stored and nothing in the snapshot, a session is created
    first; its id is stored and used. *)
Lemma selectCategory_creates snap c i (w : World) (b : Browser)
      (st : Z) (fields : list (string * Val)) (sid : string) :
  window w = Some b ->
  localStorage b !! "session_id" = None ->
  truthy (sessionId snap) = false ->
  server (events w) (create_request snap w) = Response st (BodyJson (VObj fields)) ->
  ok st = true ->
  lookup_field "session_id" fields = VStr sid ->
  sid <> "" ->
  exists res w' tail,
    SessionContext.selectCategory snap c i w = (res, w')
    /\ events w'
       = events w ++ EFetch (create_request snap w) :: ESetIsLoading true
                  :: EFetch (select_request (VStr sid) c i w) :: tail
    /\ category_tail (VStr sid) w tail
    /\ (never_401 ->
        exists b', window w' = Some b' /\ localStorage b' !! "session_id" = Some sid).
Proof.
  intros Hb Hnone Hsnap Hsrv Hok Hsid Hne. unfold SessionContext.selectCategory.
  rewrite (bind_Return _ _ _ _ _ (getItem_browser _ _ _ Hb)). cbv zeta.
  rewrite Hnone. cbn [of_item]. change (js_or VNull (sessionId snap)) with (sessionId snap).
  rewrite Hsnap. cbn [negb].
  set (wc := mkWorld
               (Some (mkBrowser (<["session_id" := sid]> (localStorage b)) (href b)))
               (mkStore (VStr sid) (session (store w)) (user (store w))
                        (isLoading (store w)) (error (store w))
                        (selectedSuggestions (store w)))
               (ui w) (events w ++ [EFetch (create_request snap w)])).
  rewrite (bind_Return _ _ w (Some (VStr sid)) wc); cycle 1.
  { rewrite (try_catch_bind_Return _ _ _ _ _ _ (opt_prop_user_id _ _)).
    assert (Hcreate : ApiClient.createSession (VStr "Claude") (user_id_of (user snap)) w
                      = (Return (VObj fields),
                         log_fetch (create_request snap w) w)).
    { unfold ApiClient.createSession. cbv zeta. cbn [default_arg].
      rewrite request_settle. fold (create_request snap w). rewrite Hsrv.
      destruct (ok_not_401 st Hok) as [H1 H3]. simpl. by rewrite H1, H3, Hok. }
    rewrite (try_catch_bind_Return _ _ _ _ _ _ Hcreate).
    unfold try_catch, bind, prop, ret, setSessionId, set_store, modify, setItem.
    simpl. rewrite Hb, Hsid. reflexivity. }
  destruct (record_category_events snap (VStr sid) c i wc (truthy_VStr sid Hne))
    as (res & w' & tail & Heq & Hev & Htail & Hwin).
  assert (Hu : cachedUserId wc = cachedUserId w).
  { unfold cachedUserId. simpl. rewrite Hb. by rewrite lookup_insert_ne. }
  exists res, w', tail. split; [done|]. split; [|split].
  - rewrite Hev. simpl. rewrite <- app_assoc. simpl. unfold select_request.
    by rewrite (request_sent_ext _ _ wc w Hu).
  - destruct Htail as [->| ->]; [by left|right].
    unfold session_request. by rewrite (request_sent_ext _ _ wc w Hu).
  - intros Hno. rewrite (Hwin Hno). eexists. split; [reflexivity|].
    apply lookup_insert_eq.
Qed.

End SelectCategory.

Lemma healthy_never_401 : @never_401 Demo.healthy.
Proof.
  intros l r json. simpl. unfold Demo.healthy_answer.
  destruct (Demo.ends_with "/api/session/create" (url r)); discriminate.
Qed.

Section StoreRefetchFailure.
Context `{P : Platform}.

(** [refreshSession] whose call throws: the message is recorded, nothing is
    thrown. *)
Lemma refreshSession_failure snap id (w1 : World) (e : Error) (w2 : World) :
  truthy (js_or id (sessionId snap)) = true ->
  ApiClient.getSession (js_or id (sessionId snap)) w1 = (Throw e, w2) ->
  SessionContext.refreshSession snap id w1
  = (Return tt, recorded (str_or (message e) "An unexpected error occurred") w2).
Proof.
  intros Ht Hc. unfold SessionContext.refreshSession. cbv zeta. rewrite Ht. cbn [negb].
  by rewrite (try_catch_Throw _ _ _ _ _ (bind_Throw _ _ _ _ _ Hc)).
Qed.

Lemma prop_field (v : Val) (k : string) (w : World) :
  nullish v = false -> prop v k w = (Return (field_of k v), w).
Proof. by destruct v. Qed.

(** The caller's view when the action's own call has returned and the
    re-fetch after it throws. *)
Lemma run_refetch_failure (snap : StoreState) (a : Action) (w : World)
    (v : Val) (w1 : World) (e : Error) (w2 : World) :
  passes_guard snap a = true ->
  reports a = true ->
  refreshes a = true ->
  client_call snap a (prologue snap a w).2 = (Return v, w1) ->
  nullish v = false ->
  ApiClient.getSession (sessionId snap) w1 = (Throw e, w2) ->
  run snap a w
  = (Return (returned a v),
     (loading_off (recorded (str_or (message e) "An unexpected error occurred") w2)).2).
Proof.
  intros Hg Hrep Href Hc Hn Hr.
  assert (Hfail : SessionContext.refreshSession snap VUndef w1
                  = (Return tt,
                     recorded (str_or (message e) "An unexpected error occurred") w2)).
  { destruct a; try discriminate Hrep; try discriminate Href;
      cbn [passes_guard requires_session] in Hg;
      by apply refreshSession_failure; [change (js_or VUndef (sessionId snap))
                                           with (sessionId snap)|]. }
  destruct a; try discriminate Hrep; try discriminate Href;
    cbn [run client_call prologue brackets_loading passes_guard requires_session returned]
      in *.
  - unfold SessionContext.saveVisualSettings. rewrite Hg. cbn [negb].
    rewrite bracket_unfold. unfold try_finally.
    rewrite (try_catch_bind_Return _ _ _ _ _ _ Hc).
    by rewrite (try_catch_bind_Return _ _ _ _ _ _ Hfail).
  - unfold SessionContext.generateQuickPrompt. rewrite Hg. cbn [negb].
    rewrite bracket_unfold. unfold try_finally.
    rewrite (try_catch_bind_Return _ _ _ _ _ _ Hc).
    rewrite (try_catch_bind_Return _ _ _ _ _ _ Hfail).
    unfold try_catch. by rewrite (prop_field _ _ _ Hn).
  - unfold SessionContext.startChat. rewrite Hg. cbn [negb].
    rewrite bracket_unfold. unfold try_finally.
    rewrite (try_catch_bind_Return _ _ _ _ _ _ Hc).
    by rewrite (try_catch_bind_Return _ _ _ _ _ _ Hfail).
  - unfold SessionContext.submitAnswer. rewrite Hg. cbn [negb].
    rewrite bracket_unfold. unfold try_finally.
    rewrite (try_catch_bind_Return _ _ _ _ _ _ Hc).
    by rewrite (try_catch_bind_Return _ _ _ _ _ _ Hfail).
  - unfold SessionContext.skipToGeneration. rewrite Hg. cbn [negb].
    rewrite bracket_unfold. unfold try_finally.
    rewrite (try_catch_bind_Return _ _ _ _ _ _ Hc).
    by rewrite (try_catch_bind_Return _ _ _ _ _ _ Hfail).
  - unfold SessionContext.refinePrompt. rewrite Hg. cbn [negb].
    rewrite bracket_unfold. unfold try_finally.
    rewrite (try_catch_bind_Return _ _ _ _ _ _ Hc).
    rewrite (try_catch_bind_Return _ _ _ _ _ _ Hfail).
    unfold try_catch. by rewrite (prop_field _ _ _ Hn).
Qed.

End StoreRefetchFailure.

(** C4, as the code has it. Take [login], [signup], [refreshSession],
    [joinSession], [saveVisualSettings], [generateQuickPrompt], [startChat],
    [submitAnswer], [skipToGeneration], [getCurrentQuestion],
    [getSuggestions], [getFinalPrompt] or [refinePrompt], in a browser and
    past its guard. When the Client call the action makes itself throws, the
    action puts the error's message (or its default text when the message
    is empty) in the shared error field and rethrows the same error, except
    that [getSuggestions] returns an empty list and [refreshSession] and
    [joinSession] return normally; where the action had set the loading
    flag, it is false again. When that call has returned an answer and the
    re-fetch of the session that follows it throws, the message of the
    re-fetch is in the error field, the flag is false and the action
    returns normally, with the result it has on success. *)
Theorem failed_call_is_recorded `{P : Platform}
    (snap : StoreState) (a : Action) (w : World) (e : Error) :
  is_Some (window w) ->
  passes_guard snap a = true ->
  reports a = true ->
  (forall w1,
      client_call snap a (prologue snap a w).2 = (Throw e, w1) ->
      exists w',
        run snap a w = (on_failure a e, w')
        /\ error (store w') = Some (failure_message a e)
        /\ (closes_loading snap a w = true -> isLoading (store w') = false))
  /\ (refreshes a = true ->
      forall v w1 w2,
        client_call snap a (prologue snap a w).2 = (Return v, w1) ->
        nullish v = false ->
        ApiClient.getSession (sessionId snap) w1 = (Throw e, w2) ->
        exists w',
          run snap a w = (Return (returned a v), w')
          /\ error (store w') = Some (str_or (message e) "An unexpected error occurred")
          /\ isLoading (store w') = false).
Proof.
  intros Hb Hg Hrep. split.
  - intros w1 Hc. eexists. split; [by apply run_failure|].
    unfold epilogue. destruct (closes_loading snap a w); by split.
  - intros Href v w1 w2 Hc Hn Hr. eexists.
    split; [by apply (run_refetch_failure snap a w v w1 e w2)|]. by split.
Qed.

Lemma failed_call_is_recorded_witness :
  (exists w',
      @run Demo.down Demo.guest_store (SubmitAnswer (VStr "blue")) Demo.guest
      = (Throw (mkError "boom"), w')
      /\ error (store w') = Some "boom"
      /\ isLoading (store w') = false)
  /\ (exists w',
        @run Scenario.refetch_down Demo.guest_store (SubmitAnswer (VStr "blue")) Demo.guest
        = (Return (VObj [("success", VBool true);
                         ("selected_suggestions", VArr [VStr "neon lights"]);
                         ("suggestions", VArr [VStr "neon lights"]);
                         ("final_prompt", VStr "a prompt")]), w')
        /\ error (store w') = Some "gone"
        /\ isLoading (store w') = false).
Proof.
  split.
  - destruct (@failed_call_is_recorded Demo.down Demo.guest_store (SubmitAnswer (VStr "blue"))
                Demo.guest (mkError "boom")) as [Hown _].
    + by eexists.
    + reflexivity.
    + reflexivity.
    + destruct (Hown (@client_call Demo.down Demo.guest_store (SubmitAnswer (VStr "blue"))
                        (prologue Demo.guest_store (SubmitAnswer (VStr "blue"))
                                  Demo.guest).2).2)
        as (w' & Hrun & Herr & Hflag).
      * vm_compute. reflexivity.
      * exists w'. split; [exact Hrun|]. split; [exact Herr|]. apply Hflag. reflexivity.
  - destruct (@failed_call_is_recorded Scenario.refetch_down Demo.guest_store
                (SubmitAnswer (VStr "blue")) Demo.guest (mkError "gone")) as [_ Hrefetch].
    + by eexists.
    + reflexivity.
    + reflexivity.
    + apply (Hrefetch eq_refl _
               (@client_call Scenario.refetch_down Demo.guest_store
                  (SubmitAnswer (VStr "blue"))
                  (prologue Demo.guest_store (SubmitAnswer (VStr "blue")) Demo.guest).2).2
               (@ApiClient.getSession Scenario.refetch_down (VStr "s0")
                  (@client_call Scenario.refetch_down Demo.guest_store
                     (SubmitAnswer (VStr "blue"))
                     (prologue Demo.guest_store (SubmitAnswer (VStr "blue"))
                               Demo.guest).2).2).2).
      * vm_compute. reflexivity.
      * reflexivity.
      * vm_compute. reflexivity.
Defined.

(** Against C4 as stated. With the server down, the Client call inside
    [getSuggestions] throws, and the action hands its caller an empty list.
    And on a server that answers everything but the re-fetch of the
    session, the Client call of the re-fetch inside [saveVisualSettings]
    throws, and the action returns normally. *)
Lemma failed_call_not_always_rethrown :
  ((@client_call Demo.down Demo.guest_store (GetSuggestions VUndef) Demo.guest).1
   = Throw (mkError "boom")
   /\ (@run Demo.down Demo.guest_store (GetSuggestions VUndef) Demo.guest).1
      = Return (VArr []))
  /\ ((@ApiClient.getSession Scenario.refetch_down (VStr "s0")
         (@client_call Scenario.refetch_down Demo.guest_store (SaveVisualSettings (VObj []))
            (prologue Demo.guest_store (SaveVisualSettings (VObj [])) Demo.guest).2).2).1
      = Throw (mkError "gone")
      /\ (@run Scenario.refetch_down Demo.guest_store (SaveVisualSettings (VObj []))
               Demo.guest).1
         = Return VUndef
      /\ error (store (@run Scenario.refetch_down Demo.guest_store
                            (SaveVisualSettings (VObj [])) Demo.guest).2)
         = Some "gone").
Proof. repeat split; vm_compute; reflexivity. Qed.

(** ** The loading flag *)

Section SelectCategoryFlag.
Context `{P : Platform}.

(** The second half of [selectCategory], for any id: flag on, the category
    call, network calls only, flag off. *)
Lemma record_category_bracket snap id c i (w : World) :
  exists res w' l,
    SessionContext.record_category snap id c i w = (res, w')
    /\ events w' = events w ++ l
    /\ category_bracket id c i w l
    /\ isLoading (store w') = false.
Proof.
  unfold SessionContext.record_category. rewrite bracket_unfold.
  unfold try_finally, try_catch, bind at 1, ApiClient.selectCategory.
  destruct (request_frame ("/api/categories/select/" +:+ ToString id)
              (POST (ApiClient.json_body (VObj [("category", c); ("user_idea", i)])))
              (loading_on w).2) as (res & w1 & -> & Hev & Hst & _).
  change (request_sent ?ep ?o (loading_on w).2) with (request_sent ep o w) in Hev.
  fold (select_request id c i w) in Hev.
  assert (Hpre : events w1 = events w ++ [ESetIsLoading true; EFetch (select_request id c i w)]).
  { rewrite Hev. simpl. by rewrite <- app_assoc. }
  destruct res as [v|e].
  - assert (Hq : quiet (SessionContext.refreshSession snap id;;; ret VUndef)) by quiet_tac.
    destruct (Hq w1) as (mid & Hev2 & Hf & _).
    destruct ((SessionContext.refreshSession snap id;;; ret VUndef) w1) as [[v'|e] w2];
      simpl in Hev2; simpl.
    + eexists _, _, _. split; [reflexivity|]. simpl.
      split; [|split; [exists mid; split; [reflexivity|exact Hf]|done]].
      rewrite Hev2, Hpre, <- !app_assoc. done.
    + eexists _, _, _. split; [reflexivity|]. simpl.
      split; [|split; [exists mid; split; [reflexivity|exact Hf]|done]].
      rewrite Hev2, Hpre, <- !app_assoc. done.
  - simpl. eexists _, _, _. split; [reflexivity|]. simpl.
    split; [|split; [exists []; split; [reflexivity|done]|done]].
    rewrite Hpre, <- !app_assoc. done.
Qed.

Lemma cachedUserId_other_slot (w : World) (b : Browser) (v : string) st u ev :
  window w = Some b ->
  cachedUserId (mkWorld (Some (mkBrowser (<["session_id" := v]> (localStorage b)) (href b)))
                        st u ev)
  = cachedUserId w.
Proof.
  intros Hb. unfold cachedUserId. simpl. rewrite Hb. by rewrite lookup_insert_ne.
Qed.

Lemma selectCategory_flag snap c i :
  brackets_once_ready snap c i (SessionContext.selectCategory snap c i).
Proof.
  intros w [b Hb]. unfold readiness, SessionContext.selectCategory.
  rewrite (bind_Return _ _ _ _ _ (getItem_browser _ _ _ Hb)). cbv zeta.
  assert (Hs : session_at_hand snap w
               = js_or (of_item (localStorage b !! "session_id")) (sessionId snap)).
  { unfold session_at_hand. by rewrite Hb. }
  rewrite <- Hs.
  destruct (truthy (session_at_hand snap w)) eqn:Ht; cbn [negb].
  { rewrite (bind_Return _ _ w (Some (session_at_hand snap w)) w) by done.
    destruct (record_category_bracket snap (session_at_hand snap w) c i w)
      as (res & w' & l & -> & Hev & Hl & Hload).
    by exists l. }
  destruct (ApiClient.createSession (VStr "Claude") (user_id_of (user snap)) w)
    as [[v|e] w1] eqn:Hc; cbn [fst].
  - pose proof (request_Return _ _ _ _ _ Hc) as Hw1.
    change (request_sent _ _ w) with (create_request snap w) in Hw1. subst w1.
    destruct (nullish v) eqn:Hn.
    + rewrite (bind_Return _ _ w None
                 (recorded (str_or (message (mkError
                    ("Cannot read properties of " +:+ ToString v
                     +:+ " (reading 'session_id')"))) "An unexpected error occurred")
                    (log_fetch (create_request snap w) w))); [done|].
      rewrite (try_catch_bind_Return _ _ _ _ _ _ (opt_prop_user_id _ _)).
      rewrite (try_catch_bind_Return _ _ _ _ _ _ Hc).
      by destruct v.
    + set (w2 := mkWorld
                   (Some (mkBrowser (<["session_id" := ToString (session_id_of v)]>
                                       (localStorage b)) (href b)))
                   (with_sessionId (session_id_of v) (store w)) (ui w)
                   (events w ++ [EFetch (create_request snap w)])).
      rewrite (bind_Return _ _ w (Some (session_id_of v)) w2); cycle 1.
      { rewrite (try_catch_bind_Return _ _ _ _ _ _ (opt_prop_user_id _ _)).
        rewrite (try_catch_bind_Return _ _ _ _ _ _ Hc).
        unfold try_catch, bind, prop, ret, setSessionId, set_store, modify, setItem.
        destruct v; try discriminate Hn; simpl; by rewrite Hb. }
      destruct (record_category_bracket snap (session_id_of v) c i w2)
        as (res & w' & l & -> & Hev & (mid & Hl & Hf) & Hload).
      exists l. split; [|split; [|exact Hload]].
      * simpl. rewrite Hev. subst w2. simpl. by rewrite <- app_assoc.
      * exists mid. split; [|exact Hf]. rewrite Hl. unfold select_request.
        by rewrite (request_sent_ext _ _ w2 w (cachedUserId_other_slot w b _ _ _ _ Hb)).
  - destruct (request_frame "/api/session/create"
                (POST (ApiClient.json_body
                         (VObj [("llm_provider", VStr "Claude");
                                ("user_id", user_id_of (user snap))]))) w)
      as (res & w1' & Heq & Hev & Hst & _).
    pose proof Hc as Hc'.
    unfold ApiClient.createSession in Hc'. cbv zeta in Hc'. cbn [default_arg] in Hc'.
    rewrite Hc' in Heq. injection Heq as <- <-.
    rewrite (bind_Return _ _ w None
               (recorded (str_or (message e) "An unexpected error occurred") w1)).
    + simpl. by rewrite Hev, Hst.
    + rewrite (try_catch_bind_Return _ _ _ _ _ _ (opt_prop_user_id _ _)).
      by rewrite (try_catch_Throw _ _ _ _ _ (bind_Throw _ _ _ _ _ Hc)).
Qed.

End SelectCategoryFlag.

(** C5, as the code has it. Past their session guard, [login], [signup],
    [initializeSession], [saveVisualSettings], [generateQuickPrompt],
    [startChat], [submitAnswer], [skipToGeneration] and [refinePrompt] set
    the loading flag as their first effect and clear it as their last, with
    only network calls between, whatever the outcome. [selectCategory], in
    a browser, sets it only once it has a session id: at once when one is
    stored or in its snapshot, after the create-session call when that
    returned an answer, and then it records the category under that id and
    clears the flag as its last effect; when creation failed its one effect
    on the log is the create-session call and the flag is what it was. The
    other actions, among them [toggleSuggestion], never touch the flag. *)
Theorem loading_flag_discipline `{P : Platform} (snap : StoreState) (a : Action) :
  passes_guard snap a = true ->
  follows snap a (run snap a).
Proof.
  intros Hg.
  destruct a; cbn [brackets_loading follows run passes_guard requires_session] in *;
    try apply selectCategory_flag;
    unfold SessionContext.login, SessionContext.signup, SessionContext.initializeSession,
      SessionContext.joinSession, SessionContext.saveVisualSettings,
      SessionContext.generateQuickPrompt, SessionContext.startChat,
      SessionContext.submitAnswer, SessionContext.skipToGeneration,
      SessionContext.getCurrentQuestion, SessionContext.getSuggestions,
      SessionContext.toggleSuggestion, SessionContext.getFinalPrompt,
      SessionContext.refinePrompt, SessionContext.stringify,
      ApiClient.login, ApiClient.signup, ApiClient.createSession,
      ApiClient.saveVisualSettings, ApiClient.generateQuickPrompt, ApiClient.startChat,
      ApiClient.submitAnswer, ApiClient.skipToGeneration, ApiClient.getCurrentQuestion,
      ApiClient.getSuggestions, ApiClient.toggleSuggestion, ApiClient.getFinalPrompt,
      ApiClient.refinePrompt;
    cbv zeta; rewrite ?Hg; cbn [negb];
    try (apply brackets_intro); try quiet_tac.
Qed.

Lemma loading_flag_discipline_witness :
  @brackets_once_ready Demo.healthy Demo.fresh_store (VStr "Logo") Demo.logo_idea
    (@run Demo.healthy Demo.fresh_store (SelectCategory (VStr "Logo") Demo.logo_idea)).
Proof.
  apply (@loading_flag_discipline Demo.healthy Demo.fresh_store
           (SelectCategory (VStr "Logo") Demo.logo_idea)).
  reflexivity.
Defined.

(** Against C5 as stated. [toggleSuggestion], started while the flag is
    set, returns with the flag still set, and nothing but its one network
    call has happened. [selectCategory] from a first render, nothing stored:
    on a healthy server its first effect is the create-session call and the
    flag is set after it, and while the server is down that call is all
    that happens. And [saveVisualSettings] from a render without a session
    throws before it has set anything. *)
Lemma flag_not_always_set_on_entry :
  ((@run Demo.healthy Demo.guest_store (ToggleSuggestion (VStr "neon lights")) Demo.busy).1
   = Return VUndef
   /\ isLoading (store (@run Demo.healthy Demo.guest_store
                             (ToggleSuggestion (VStr "neon lights")) Demo.busy).2) = true
   /\ url <$> fetches
        (events (@run Demo.healthy Demo.guest_store
                      (ToggleSuggestion (VStr "neon lights")) Demo.busy).2)
      = ["http://localhost:8000/api/suggestions/toggle/s0"]
   /\ ESetIsLoading true
      ∉ events (@run Demo.healthy Demo.guest_store
                     (ToggleSuggestion (VStr "neon lights")) Demo.busy).2)
  /\ take 2 (events (@run Demo.healthy Demo.fresh_store
                          (SelectCategory (VStr "Logo") Demo.logo_idea) Demo.fresh).2)
     = [EFetch (@create_request Demo.healthy Demo.fresh_store Demo.fresh);
        ESetIsLoading true]
  /\ events (@run Demo.down Demo.fresh_store
                  (SelectCategory (VStr "Logo") Demo.logo_idea) Demo.fresh).2
     = [EFetch (@create_request Demo.down Demo.fresh_store Demo.fresh)]
  /\ @run Demo.healthy Demo.fresh_store (SaveVisualSettings (VObj [])) Demo.fresh
     = (Throw SessionContext.no_active_session, Demo.fresh).
Proof.
  split; [|split; [vm_compute; reflexivity|split; vm_compute; reflexivity]].
  split; [vm_compute; reflexivity|]. split; [vm_compute; reflexivity|].
  split; [vm_compute; reflexivity|].
  intros Hin. apply list_elem_of_In in Hin. vm_compute in Hin.
  destruct Hin as [Heq|[]]. discriminate Heq.
Qed.

(** C3 (the provider that delegates sign-in). One [selectCategory] call
    from a first render, nothing stored, on a healthy server: this provider
    makes two create-session calls, the one of [initializeSession] and its
    own, because the id it tests is still the empty one of that render; the
    email/password provider makes one at the same input. And with the id
    [s9] stored beside an older [s0] in the render, this provider records
    the category under [s0], where the email/password provider, which reads
    local storage first, uses [s9]. *)
Theorem idp_selectCategory_creates_two_sessions :
  @creations Demo.healthy
    (events (@SessionContextIdp.selectCategory Demo.healthy Demo.fresh_store Demo.fresh_store
               (VStr "Logo") Demo.logo_idea Demo.fresh).2) = 2%nat
  /\ url <$> fetches
        (events (@SessionContextIdp.selectCategory Demo.healthy Demo.fresh_store
                   Demo.fresh_store (VStr "Logo") Demo.logo_idea Demo.fresh).2)
     = ["http://localhost:8000/api/session/create";
        "http://localhost:8000/api/session/s1";
        "http://localhost:8000/api/session/create";
        "http://localhost:8000/api/categories/select/s1";
        "http://localhost:8000/api/session/s1"]
  /\ url <$> fetches
        (events (@SessionContext.selectCategory Demo.healthy Demo.fresh_store
                   (VStr "Logo") Demo.logo_idea Demo.fresh).2)
     = ["http://localhost:8000/api/session/create";
        "http://localhost:8000/api/categories/select/s1";
        "http://localhost:8000/api/session/s1"]
  /\ url <$> fetches
        (events (@SessionContextIdp.selectCategory Demo.healthy Demo.stale_store
                   Demo.stale_store (VStr "Logo") Demo.logo_idea Demo.stale).2)
     = ["http://localhost:8000/api/categories/select/s0";
        "http://localhost:8000/api/session/s0"]
  /\ url <$> fetches
        (events (@SessionContext.selectCategory Demo.healthy Demo.stale_store
                   (VStr "Logo") Demo.logo_idea Demo.stale).2)
     = ["http://localhost:8000/api/categories/select/s9";
        "http://localhost:8000/api/session/s9"].
Proof. repeat split; vm_compute; reflexivity. Qed.

(** ** Sign-in and the session id *)

Section Login.
Context `{P : Platform}.

(** Email/password provider: a login whose call returns an answer resets
    the in-memory session id and session and empties the stored slot. *)
Lemma login_invalidates_session email pass (w : World) (b : Browser) (v : Val) (w1 : World) :
  window w = Some b ->
  ApiClient.login email pass (loading_on w).2 = (Return v, w1) ->
  nullish v = false ->
  exists w' b',
    SessionContext.login email pass w = (Return VUndef, w')
    /\ sessionId (store w') = VNull
    /\ session (store w') = VNull
    /\ window w' = Some b'
    /\ localStorage b' !! "session_id" = None.
Proof.
  intros Hb Hc Hnn. pose proof (request_Return _ _ _ _ _ Hc) as Hw1.
  assert (Hb1 : window w1 = Some b) by (by rewrite Hw1).
  unfold SessionContext.login. rewrite bracket_unfold.
  unfold try_finally. rewrite (try_catch_bind_Return _ _ _ _ _ _ Hc).
  rewrite (try_catch_bind_Return _ _ _ _ _ _ (prop_not_nullish _ _ _ Hnn)).
  unfold try_catch, bind, setUser, setSessionId, setSession, set_store, modify, setItem,
    removeItem, setIsLoading, emit, modify, ret.
  simpl. rewrite Hb1. simpl.
  eexists _, _. split; [reflexivity|]. simpl.
  repeat split; try done. apply lookup_delete_eq.
Qed.

End Login.

(** C1 (the provider that delegates sign-in). The listener for auth state
    changes and the check made on mount are the only code of this provider
    that runs when a user has signed in. Both set the user and nothing else:
    the in-memory session id, the session object and local storage, and with
    it the stored session id, are what they were before the sign-in. *)
Theorem idp_sign_in_keeps_session `{P : Platform}
    (event : string) (authSession : Val) (w : World) :
  (exists w',
     SessionContextIdp.onAuthStateChange event authSession w = (Return tt, w')
     /\ sessionId (store w') = sessionId (store w)
     /\ session (store w') = session (store w)
     /\ window w' = window w
     /\ events w' = events w)
  /\ (exists w',
        SessionContextIdp.checkAuth authSession w = (Return tt, w')
        /\ sessionId (store w') = sessionId (store w)
        /\ session (store w') = session (store w)
        /\ window w' = window w
        /\ events w' = events w).
Proof.
  split.
  - unfold SessionContextIdp.onAuthStateChange, bind, setUser, set_store, modify.
    destruct authSession as [| | | | |?|fields]; simpl;
      try (eexists; split; [reflexivity|done]).
    destruct (truthy (lookup_field "user" fields)); eexists; split; try reflexivity; done.
  - unfold SessionContextIdp.checkAuth, bind, setUser, set_store, modify.
    destruct authSession; simpl; eexists; split; try reflexivity; done.
Qed.

(** A guest works on session [s0]; then [u1] signs in through the identity
    provider. The store now holds [u1] together with the guest's session. *)
Example idp_sign_in_inherits_guest_session :
  store (SessionContextIdp.onAuthStateChange "SIGNED_IN" (VObj [("user", Demo.user1)])
                                             Demo.guest).2
  = mkStore (VStr "s0") (session Demo.guest_store) Demo.user1 false None (VArr [])
  /\ (exists b', window (SessionContextIdp.onAuthStateChange
                           "SIGNED_IN" (VObj [("user", Demo.user1)]) Demo.guest).2 = Some b'
                 /\ localStorage b' !! "session_id" = Some "s0").
Proof. split; [reflexivity|]. eexists. split; reflexivity. Qed.

(** ** The views *)

(** C8, as the code has it. In the category selector, a submission whose
    trimmed idea has fewer than 10 characters ends in a toast: the store
    callback is not called, nothing is sent, the completion callback does
    not run. *)
Theorem short_idea_is_rejected `{P : Platform}
    (selectCategory : Val -> Val -> M Val) (onComplete : M unit)
    (selectedCategory : Val) (userIdea : string) (w : World) :
  (String.length (trim userIdea) < 10)%nat ->
  exists title,
    Views.handleContinue selectCategory onComplete selectedCategory userIdea w
    = (Return tt, mkWorld (window w) (store w) (ui w) (events w ++ [EToast title]))
    /\ fetches (events w ++ [EToast title]) = fetches (events w).
Proof.
  intros Hlen. unfold Views.handleContinue.
  assert (Hf : forall t, fetches (events w ++ [EToast t]) = fetches (events w)).
  { intros t. unfold fetches. by rewrite omap_app, app_nil_r. }
  destruct (negb (truthy selectedCategory) || negb (truthy (VStr (trim userIdea)))).
  - by exists "Missing Information".
  - apply Nat.ltb_lt in Hlen. rewrite Hlen. by exists "Idea Too Short".
Qed.

Lemma short_idea_is_rejected_witness :
  exists title,
    @Views.handleContinue
       (@SessionContext.selectCategory Demo.healthy Demo.guest_store)
       (@Views.handleCategoryComplete) (VStr "Logo") "  a cat  " Demo.guest
    = (Return tt, mkWorld (window Demo.guest) (store Demo.guest) (ui Demo.guest)
                          (events Demo.guest ++ [EToast title]))
    /\ fetches (events Demo.guest ++ [EToast title]) = fetches (events Demo.guest).
Proof.
  apply (@short_idea_is_rejected Demo.healthy
           (@SessionContext.selectCategory Demo.healthy Demo.guest_store)
           (@Views.handleCategoryComplete) (VStr "Logo") "  a cat  " Demo.guest).
  vm_compute. lia.
Defined.

(** Against C8 as stated: the generate panel submits the three characters
    "cat" as the idea of the selected category, and the calls go out. *)
Lemma generate_panel_submits_short_idea :
  String.length (trim (Views.prompt Demo.short_prompt)) = 3%nat
  /\ url <$> fetches
       (events (@Views.handleGenerate Demo.healthy Demo.guest_store
                  (@SessionContext.selectCategory Demo.healthy Demo.guest_store)
                  (@SessionContext.generateQuickPrompt Demo.healthy Demo.guest_store)
                  (@SessionContext.startChat Demo.healthy Demo.guest_store)
                  None None Demo.short_prompt Demo.guest).2)
     = ["http://localhost:8000/api/categories/select/s0";
        "http://localhost:8000/api/session/s0";
        "http://localhost:8000/api/visual-settings/save/s0";
        "http://localhost:8000/api/visual-settings/generate-quick/s0";
        "http://localhost:8000/api/session/s0"]
  /\ body <$> head (fetches
       (events (@Views.handleGenerate Demo.healthy Demo.guest_store
                  (@SessionContext.selectCategory Demo.healthy Demo.guest_store)
                  (@SessionContext.generateQuickPrompt Demo.healthy Demo.guest_store)
                  (@SessionContext.startChat Demo.healthy Demo.guest_store)
                  None None Demo.short_prompt Demo.guest).2))
     = Some (Some (TextBody (Demo.stringify
                               (VObj [("category", VStr "Logo"); ("user_idea", VStr "cat")])))).
Proof. repeat split; vm_compute; reflexivity. Qed.

(** C9, as the code has it. In the single-page wizard, "start new" sends,
    when the snapshot has a session id, one call that saves the four visual
    settings as undefined for that session, and nothing else: no call
    deletes the session. Whether or not that call succeeds, the store is
    left as it was and the wizard is at the landing step. *)
Theorem start_new_clears_settings_only `{P : Platform} (snap : StoreState) (w : World) :
  exists w',
    Views.handleStartNew snap w = (Return tt, w')
    /\ currentStep (ui w') = Landing
    /\ store w' = store w
    /\ events w'
       = events w
         ++ (if truthy (sessionId snap)
             then [EFetch (request_sent
                             ("/api/visual-settings/save/" +:+ ToString (sessionId snap))
                             (POST (ApiClient.json_body Views.cleared_settings)) w)]
             else []).
Proof.
  unfold Views.handleStartNew, when.
  destruct (truthy (sessionId snap)).
  - unfold ApiClient.saveVisualSettings, bind at 1, try_catch, bind at 1.
    destruct (request_frame ("/api/visual-settings/save/" +:+ ToString (sessionId snap))
                (POST (ApiClient.json_body Views.cleared_settings)) w)
      as (res & w1 & -> & Hev & Hst & _).
    destruct res; eexists; (split; [reflexivity|]); simpl; by rewrite Hev, Hst.
  - eexists. split; [reflexivity|]. simpl. by rewrite app_nil_r.
Qed.

(** Against C9 as stated: "start new" on the routed result page navigates
    home and sends nothing, so no setting of the session is cleared. *)
Lemma result_page_start_new_clears_nothing :
  Views.ResultPage_handleStartNew Demo.signed_in
  = (Return tt,
     mkWorld (window Demo.signed_in) (store Demo.signed_in) (ui Demo.signed_in)
             [ERouterPush "/"])
  /\ fetches (events (Views.ResultPage_handleStartNew Demo.signed_in).2) = [].
Proof. split; reflexivity. Qed.

(** * Further properties of the code *)

(** ** The HTTP client *)

(** X1. On a response with status 403 [request] throws the access-denied
    error and, unlike on a 401, leaves the browser as it was: both slots
    stay stored and the page does not move. *)
Theorem request_403_denied `{P : Platform}
    (endpoint : string) (options : RequestInit) (w : World) (json : JsonBody) :
  server (events w) (request_sent endpoint options w) = Response 403 json ->
  ApiClient.request endpoint options w
  = (Throw (mkError "Access denied: You don't have permission to access this resource"),
     log_fetch (request_sent endpoint options w) w).
Proof. intros Hs. by rewrite request_settle, Hs. Qed.

Lemma request_403_denied_witness :
  @ApiClient.request Scenario.forbidden "/api/session/s0" GET Demo.signed_in
  = (Throw (mkError "Access denied: You don't have permission to access this resource"),
     @log_fetch (@request_sent Scenario.forbidden "/api/session/s0" GET Demo.signed_in)
                Demo.signed_in).
Proof.
  apply (@request_403_denied Scenario.forbidden "/api/session/s0" GET Demo.signed_in
           (BodyJson (VObj [("detail", VStr "nope")]))).
  reflexivity.
Defined.

(** X2. On any other status outside 2xx [request] throws an error whose
    message is the [detail] of the JSON answer when that is truthy, the text
    [HTTP <status>] when the answer is an object without a truthy detail,
    and "Unknown error" when the answer is not JSON; the browser, the store
    and the page state are untouched. *)
Theorem request_error_detail `{P : Platform}
    (endpoint : string) (options : RequestInit) (w : World) (status : Z) (json : JsonBody) :
  server (events w) (request_sent endpoint options w) = Response status json ->
  ok status = false -> status <> 401 -> status <> 403 ->
  exists msg,
    ApiClient.request endpoint options w
    = (Throw (mkError msg), log_fetch (request_sent endpoint options w) w)
    /\ (forall fields, json = BodyJson (VObj fields) ->
        msg = if truthy (lookup_field "detail" fields)
              then ToString (lookup_field "detail" fields)
              else "HTTP " +:+ pretty status)
    /\ (forall e, json = BodyBad e -> msg = "Unknown error").
Proof.
  intros Hs Hok H401 H403. exists (message (failure_of status json)). split.
  - rewrite request_settle, Hs. simpl.
    destruct (Z.eqb_spec status 401); [done|]. destruct (Z.eqb_spec status 403); [done|].
    rewrite Hok. simpl. by destruct (failure_of status json).
  - split.
    + intros fields ->. simpl. unfold js_or.
      by destruct (truthy (lookup_field "detail" fields)).
    + by intros e ->.
Qed.

Lemma request_error_detail_witness :
  exists msg,
    @ApiClient.request Scenario.invalid "/api/categories/select/s0" (POST None) Demo.guest
    = (Throw (mkError msg),
       @log_fetch (@request_sent Scenario.invalid "/api/categories/select/s0" (POST None)
                                 Demo.guest) Demo.guest)
    /\ (forall fields, BodyJson (VObj [("detail", VStr "Idea too vague")])
                       = BodyJson (VObj fields) ->
        msg = if truthy (lookup_field "detail" fields)
              then ToString (lookup_field "detail" fields)
              else "HTTP " +:+ pretty 422)
    /\ (forall e, BodyJson (VObj [("detail", VStr "Idea too vague")]) = BodyBad e ->
        msg = "Unknown error").
Proof.
  apply (@request_error_detail Scenario.invalid "/api/categories/select/s0" (POST None)
           Demo.guest 422 (BodyJson (VObj [("detail", VStr "Idea too vague")]))).
  - reflexivity.
  - reflexivity.
  - lia.
  - lia.
Defined.

(** A 2xx answer with a JSON body: [request] returns that body. *)
Lemma request_ok_json `{P : Platform}
    (endpoint : string) (options : RequestInit) (w : World) (status : Z) (v : Val) :
  server (events w) (request_sent endpoint options w) = Response status (BodyJson v) ->
  ok status = true ->
  ApiClient.request endpoint options w
  = (Return v, log_fetch (request_sent endpoint options w) w).
Proof.
  intros Hs Hok. rewrite request_settle, Hs. simpl.
  destruct (ok_not_401 status Hok) as [-> ->]. by rewrite Hok.
Qed.

(** X3. On a 2xx answer [request] returns the body as it is when the body
    is JSON and rethrows the parser's error when it is not; either way the
    only trace is the logged call. *)
Theorem request_returns_body `{P : Platform}
    (endpoint : string) (options : RequestInit) (w : World) (status : Z) (json : JsonBody) :
  server (events w) (request_sent endpoint options w) = Response status json ->
  ok status = true ->
  ApiClient.request endpoint options w
  = (match json with BodyJson v => Return v | BodyBad e => Throw e end,
     log_fetch (request_sent endpoint options w) w).
Proof.
  intros Hs Hok. rewrite request_settle, Hs. simpl.
  destruct (ok_not_401 status Hok) as [-> ->]. rewrite Hok. by destruct json.
Qed.

Lemma request_returns_body_witness :
  @ApiClient.request Demo.healthy "/api/session/create" (POST None) Demo.fresh
  = (Return (VObj Demo.created),
     @log_fetch (@request_sent Demo.healthy "/api/session/create" (POST None) Demo.fresh)
                Demo.fresh).
Proof.
  apply (@request_returns_body Demo.healthy "/api/session/create" (POST None) Demo.fresh
           200 (BodyJson (VObj Demo.created))); reflexivity.
Defined.

(** X7. When [fetch] itself fails, [request] rethrows that very error, and
    the browser, the store and the page state are untouched. *)
Theorem request_rethrows_network_failure `{P : Platform}
    (endpoint : string) (options : RequestInit) (w : World) (e : Error) :
  server (events w) (request_sent endpoint options w) = NetworkFailure e ->
  ApiClient.request endpoint options w
  = (Throw e, log_fetch (request_sent endpoint options w) w).
Proof. intros Hs. by rewrite request_settle, Hs. Qed.

Lemma request_rethrows_network_failure_witness :
  @ApiClient.request Scenario.offline "/api/categories" GET Demo.guest
  = (Throw (mkError "Failed to fetch"),
     @log_fetch (@request_sent Scenario.offline "/api/categories" GET Demo.guest) Demo.guest).
Proof.
  apply (@request_rethrows_network_failure Scenario.offline "/api/categories" GET Demo.guest
           (mkError "Failed to fetch")).
  reflexivity.
Defined.

(** X4. Whatever the server answers, one [request] makes exactly one network
    call, the one built from its arguments and the cached user, and never
    writes the store or the page state: there is no retry. *)
Theorem request_calls_once `{P : Platform}
    (endpoint : string) (options : RequestInit) (w : World) :
  exists res w',
    ApiClient.request endpoint options w = (res, w')
    /\ events w' = events w ++ [EFetch (request_sent endpoint options w)]
    /\ store w' = store w
    /\ ui w' = ui w.
Proof. apply request_frame. Qed.

(** X5. Header precedence in [request]: a header supplied by the caller
    replaces the default content type, and the bearer credential of a cached
    user replaces an [Authorization] header supplied by the caller; every
    other header of the caller goes out unchanged. *)
Theorem request_header_precedence `{P : Platform}
    (endpoint : string) (options : RequestInit) (w : World) :
  headers (request_sent endpoint options w) !! "Content-Type"
  = Some (default "application/json" (o_headers options !! "Content-Type"))
  /\ headers (request_sent endpoint options w) !! "Authorization"
     = (if truthy (cachedUserId w)
        then Some ("Bearer " +:+ ToString (cachedUserId w))
        else o_headers options !! "Authorization")
  /\ (forall k, k <> "Content-Type" -> k <> "Authorization" ->
      headers (request_sent endpoint options w) !! k = o_headers options !! k).
Proof.
  simpl. unfold ApiClient.request_headers.
  assert (Hu : forall k,
             (o_headers options ∪ {["Content-Type" := "application/json"]}) !! k
             = match o_headers options !! k with
               | Some v => Some v
               | None => if decide (k = "Content-Type") then Some "application/json" else None
               end).
  { intros k. rewrite lookup_union.
    destruct (o_headers options !! k) as [v|] eqn:Hk; simpl.
    - by destruct (({["Content-Type" := "application/json"]} : gmap string string) !! k).
    - destruct (decide (k = "Content-Type")) as [->|Hne].
      + by rewrite lookup_singleton_eq.
      + by rewrite lookup_singleton_ne. }
  destruct (truthy (cachedUserId w)); repeat split.
  - rewrite lookup_insert_ne by done. rewrite Hu.
    by destruct (o_headers options !! "Content-Type").
  - by rewrite lookup_insert_eq.
  - intros k H1 H2. rewrite lookup_insert_ne by done. rewrite Hu.
    destruct (o_headers options !! k); [done|]. by destruct (decide (k = "Content-Type")).
  - rewrite Hu. by destruct (o_headers options !! "Content-Type").
  - rewrite Hu. destruct (o_headers options !! "Authorization"); [done|].
    by destruct (decide ("Authorization" = "Content-Type")).
  - intros k H1 H2. rewrite Hu.
    destruct (o_headers options !! k); [done|]. by destruct (decide (k = "Content-Type")).
Qed.

(** X6. [uploadFile] never touches the browser: whatever the answer, a 401
    included, local storage and the location are what they were, and so are
    the store and the page state. Outside 2xx it throws the answer's detail,
    [HTTP <status>] or "Unknown upload error" like [request] does. *)
Theorem uploadFile_leaves_browser_alone `{P : Platform}
    (sessionId : Val) (file : File) (w : World) :
  exists res,
    ApiClient.uploadFile sessionId file w = (res, log_fetch (upload_sent sessionId file) w)
    /\ (forall status fields,
          server (events w) (upload_sent sessionId file) = Response status (BodyJson (VObj fields)) ->
          ok status = false ->
          res = Throw (mkError (if truthy (lookup_field "detail" fields)
                                then ToString (lookup_field "detail" fields)
                                else "HTTP " +:+ pretty status)))
    /\ (forall status e,
          server (events w) (upload_sent sessionId file) = Response status (BodyBad e) ->
          ok status = false ->
          res = Throw (mkError "Unknown upload error"))
    /\ (forall status v,
          server (events w) (upload_sent sessionId file) = Response status (BodyJson v) ->
          ok status = true ->
          res = Return v).
Proof.
  unfold ApiClient.uploadFile, try_catch, bind at 1. rewrite fetch_spec.
  fold (upload_sent sessionId file).
  destruct (server (events w) _) as [e|status json].
  { eexists. split; [reflexivity|]. repeat split; intros; discriminate. }
  destruct (ok status) eqn:Hok; simpl.
  - destruct json as [v|e]; (eexists; split; [reflexivity|]); repeat split;
      intros; try discriminate; congruence.
  - destruct json as [v|e].
    + destruct v as [| | | | |?|fields]; simpl;
        (eexists; split; [reflexivity|]); repeat split; intros; try discriminate;
        try congruence.
      injection H as <- <-. unfold js_or.
      by destruct (truthy (lookup_field "detail" fields)).
    + simpl. eexists. split; [reflexivity|]. repeat split; intros; try discriminate;
        try congruence.
Qed.

Lemma uploadFile_leaves_browser_alone_witness :
  exists res,
    @ApiClient.uploadFile Demo.unauthorized (VStr "s0") Demo.photo Demo.signed_in
    = (res, @log_fetch (@upload_sent Demo.unauthorized (VStr "s0") Demo.photo) Demo.signed_in)
    /\ res = Throw (mkError "Not authenticated").
Proof.
  destruct (@uploadFile_leaves_browser_alone Demo.unauthorized (VStr "s0") Demo.photo
              Demo.signed_in) as (res & Heq & Hdetail & _).
  exists res. split; [exact Heq|].
  apply (Hdetail 401 [("detail", VStr "Not authenticated")]); reflexivity.
Defined.

(** ** The session store, continued *)

(** X8. An action that needs a session and finds none in its snapshot
    throws "No active session" at once: no call is made, neither the loading
    flag nor the shared error field is written, the world is what it was. *)
Theorem guard_fails_fast `{P : Platform} (snap : StoreState) (a : Action) (w : World) :
  requires_session a = true ->
  truthy (sessionId snap) = false ->
  run snap a w = (Throw SessionContext.no_active_session, w).
Proof.
  intros Hreq Hsnap.
  destruct a; try discriminate Hreq; cbn [run];
    unfold SessionContext.saveVisualSettings, SessionContext.generateQuickPrompt,
      SessionContext.startChat, SessionContext.submitAnswer,
      SessionContext.skipToGeneration, SessionContext.getCurrentQuestion,
      SessionContext.getSuggestions, SessionContext.toggleSuggestion,
      SessionContext.getFinalPrompt, SessionContext.refinePrompt;
    cbv zeta; by rewrite Hsnap.
Qed.

Lemma guard_fails_fast_witness :
  @run Demo.healthy Demo.fresh_store GenerateQuickPrompt Demo.fresh
  = (Throw SessionContext.no_active_session, Demo.fresh).
Proof.
  apply (@guard_fails_fast Demo.healthy Demo.fresh_store GenerateQuickPrompt Demo.fresh);
    reflexivity.
Defined.

Section Totality.
Context `{P : Platform}.

Lemma try_catch_total {A} (m : M A) (h : Error -> M A) (w : World) :
  (forall e w1, exists a w', h e w1 = (Return a, w')) ->
  exists a w', try_catch m h w = (Return a, w').
Proof.
  intros Hh. unfold try_catch. destruct (m w) as [[a|e] w1]; [by eexists _, _|].
  apply Hh.
Qed.

Lemma try_finally_total {A} (m : M A) (w : World) :
  (exists a w1, m w = (Return a, w1)) ->
  exists a w', try_finally m (setIsLoading false) w = (Return a, w').
Proof. intros (a & w1 & Hm). unfold try_finally. rewrite Hm. by eexists _, _. Qed.

Lemma refreshSession_total snap id (w : World) :
  exists w', SessionContext.refreshSession snap id w = (Return tt, w').
Proof.
  unfold SessionContext.refreshSession. cbv zeta.
  destruct (negb (truthy (js_or id (sessionId snap)))); [by eexists|].
  destruct (try_catch_total
              (let* sessionData := ApiClient.getSession (js_or id (sessionId snap)) in
               setSession sessionData;;;
               let* chips := prop sessionData "selected_chips" in
               when (truthy chips) (setSelectedSuggestions chips))
              (fun err => SessionContext.handleError err) w) as ([] & w' & Heq).
  { intros e w1. by eexists _, _. }
  by exists w'.
Qed.

Lemma record_category_total snap id c i (w : World) :
  exists w', SessionContext.record_category snap id c i w = (Return VUndef, w').
Proof.
  unfold SessionContext.record_category. rewrite bracket_unfold. unfold try_finally, try_catch.
  destruct (ApiClient.selectCategory id c i (loading_on w).2) as [[v|e] w1] eqn:Hc.
  - rewrite (bind_Return _ _ _ _ _ Hc).
    destruct (refreshSession_total snap id w1) as (w2 & Hr).
    rewrite (bind_Return _ _ _ _ _ Hr). by eexists.
  - rewrite (bind_Throw _ _ _ _ _ Hc). by eexists.
Qed.

Lemma selectCategory_total snap c i (w : World) :
  is_Some (window w) ->
  exists w', SessionContext.selectCategory snap c i w = (Return VUndef, w').
Proof.
  intros [b Hb]. unfold SessionContext.selectCategory.
  rewrite (bind_Return _ _ _ _ _ (getItem_browser _ _ _ Hb)). cbv zeta.
  set (active := js_or (of_item (localStorage b !! "session_id")) (sessionId snap)).
  destruct (negb (truthy active)).
  - unfold bind at 1.
    destruct (try_catch_total
                (let* uid := opt_prop (user snap) "id" in
                 let* response := ApiClient.createSession (VStr "Claude") uid in
                 let* sid := prop response "session_id" in
                 setSessionId sid;;; setItem "session_id" sid;;; ret (Some sid))
                (fun e => SessionContext.handleError e;;; ret None) w)
      as (ensured & w1 & ->).
    { intros e w1. by eexists _, _. }
    destruct ensured as [sid|]; [apply record_category_total|by eexists].
  - rewrite (bind_Return _ _ w (Some active) w) by done. apply record_category_total.
Qed.

Lemma initializeSession_total snap llm (w : World) :
  exists w', SessionContext.initializeSession snap llm w = (Return VUndef, w').
Proof.
  unfold SessionContext.initializeSession. cbv zeta. rewrite bracket_unfold.
  unfold try_finally, try_catch.
  match goal with
  | |- context [bind ?m ?k (loading_on w).2] =>
      destruct (bind m k (loading_on w).2) as [[v|e] w1] eqn:Hbody
  end.
  - assert (v = VUndef) as ->; [|by eexists].
    revert Hbody. unfold bind, ret.
    repeat match goal with
           | |- context [match ?x with _ => _ end] =>
               destruct x as [[?|?] ?]; try discriminate
           end.
    congruence.
  - by eexists.
Qed.

End Totality.



(** X10. [signup] never signs anybody in: after its one call, whatever the
    outcome, the user, the session id and the session of the store are what
    they were and the loading flag is off; on success nothing else has
    changed, on failure the error (or "Signup failed") is recorded and
    rethrown. *)
Theorem signup_does_not_sign_in `{P : Platform} (email pass : Val) (w : World) :
  exists res w',
    SessionContext.signup email pass w = (res, w')
    /\ user (store w') = user (store w)
    /\ sessionId (store w') = sessionId (store w)
    /\ session (store w') = session (store w)
    /\ isLoading (store w') = false
    /\ events w' = events w ++ [ESetIsLoading true; EFetch (signup_request email pass w);
                                ESetIsLoading false]
    /\ match res with
       | Return v => v = VUndef /\ error (store w') = None
       | Throw e => error (store w') = Some (str_or (message e) "Signup failed")
       end.
Proof.
  unfold SessionContext.signup. rewrite bracket_unfold. unfold try_finally, try_catch, bind at 1.
  assert (Hsent : signup_request email pass (loading_on w).2 = signup_request email pass w)
    by done.
  destruct (request_frame "/api/auth/signup"
              (POST (ApiClient.json_body (VObj [("email", email); ("password", pass)])))
              (loading_on w).2) as (res & w1 & Heq & Hev & Hst & _).
  unfold ApiClient.signup. rewrite Heq.
  fold (signup_request email pass (loading_on w).2) in Hev. rewrite Hsent in Hev.
  destruct res as [v|e]; eexists _, _; (split; [reflexivity|]); simpl;
    rewrite ?Hst, ?Hev; simpl; rewrite <- ?app_assoc; done.
Qed.

(** X11. [signOut] of the email/password provider, in a browser: the cached
    user is removed from local storage and from the store and the router is
    sent home; no call is made, and the session id stays where it was, in
    the store and in local storage. *)
Theorem signOut_keeps_session (w : World) (b : Browser) :
  window w = Some b ->
  exists w' b',
    SessionContext.signOut w = (Return VUndef, w')
    /\ window w' = Some b'
    /\ localStorage b' !! "user" = None
    /\ localStorage b' !! "session_id" = localStorage b !! "session_id"
    /\ store w' = with_user VNull (store w)
    /\ events w' = events w ++ [ERouterPush "/"; ERouterRefresh].
Proof.
  intros Hb. destruct w as [win st u ev]. simpl in Hb. subst win.
  unfold SessionContext.signOut, bind, removeItem, setUser, set_store, modify,
    router_push, router_refresh, emit, modify.
  simpl. eexists _, _. split; [reflexivity|]. simpl.
  split; [reflexivity|]. simpl. rewrite lookup_delete_eq, lookup_delete_ne by done.
  repeat split; try done. by rewrite <- app_assoc.
Qed.

Lemma signOut_keeps_session_witness :
  exists w' b',
    SessionContext.signOut Demo.signed_in = (Return VUndef, w')
    /\ window w' = Some b'
    /\ localStorage b' !! "user" = None
    /\ localStorage b' !! "session_id"
       = localStorage (mkBrowser (<["session_id" := "s0"]> (<["user" := Demo.user1_text]> ∅))
                                 "/") !! "session_id"
    /\ store w' = with_user VNull (store Demo.signed_in)
    /\ events w' = events Demo.signed_in ++ [ERouterPush "/"; ERouterRefresh].
Proof.
  apply (signOut_keeps_session Demo.signed_in
           (mkBrowser (<["session_id" := "s0"]> (<["user" := Demo.user1_text]> ∅)) "/")).
  reflexivity.
Defined.

(** X13. After a successful [login] whose answer carries a user object with
    a non-empty [id], that user is in the store and cached in local storage,
    and if the cached text reads back as the same object, every later
    [request] carries [Authorization: Bearer <id>]. *)
Theorem login_then_requests_carry_bearer `{P : Platform}
    (email pass : Val) (w : World) (b : Browser)
    (answer : list (string * Val)) (w1 : World) (profile : list (string * Val)) (id : string) :
  window w = Some b ->
  ApiClient.login email pass (loading_on w).2 = (Return (VObj answer), w1) ->
  lookup_field "user" answer = VObj profile ->
  lookup_field "id" profile = VStr id ->
  id <> "" ->
  JSON_stringify (VObj profile) <> "" ->
  JSON_parse (JSON_stringify (VObj profile)) = Some (VObj profile) ->
  exists w' b',
    SessionContext.login email pass w = (Return VUndef, w')
    /\ user (store w') = VObj profile
    /\ isLoading (store w') = false
    /\ window w' = Some b'
    /\ localStorage b' !! "user" = Some (JSON_stringify (VObj profile))
    /\ (forall endpoint options,
          headers (request_sent endpoint options w') !! "Authorization"
          = Some ("Bearer " +:+ id)).
Proof.
  intros Hb Hc Huser Hid Hne Htext Hparse.
  pose proof (request_Return _ _ _ _ _ Hc) as Hw1.
  assert (Hb1 : window w1 = Some b) by (by rewrite Hw1).
  clear Hw1. destruct w1 as [win1 st1 u1 ev1]. simpl in Hb1. subst win1.
  unfold SessionContext.login. rewrite bracket_unfold.
  unfold try_finally. rewrite (try_catch_bind_Return _ _ _ _ _ _ Hc).
  unfold try_catch, bind, prop, ret, setUser, setSessionId, setSession, set_store, modify,
    setItem, removeItem, setIsLoading, emit, modify, SessionContext.stringify.
  simpl. rewrite Huser. simpl.
  eexists _, _. split; [reflexivity|]. simpl.
  assert (Hstored : delete "session_id"
                      (<["user" := JSON_stringify (VObj profile)]> (localStorage b))
                    !! "user" = Some (JSON_stringify (VObj profile))).
  { rewrite lookup_delete_ne by done. apply lookup_insert_eq. }
  split; [done|]. split; [done|]. split; [reflexivity|]. split; [exact Hstored|].
  intros endpoint options.
  eapply (request_bearer_of_cached_user endpoint options);
    [reflexivity|exact Hstored|exact Htext|exact Hparse|exact Hid|exact Hne].
Qed.

Lemma login_then_requests_carry_bearer_witness :
  exists w' b',
    @SessionContext.login Scenario.auth (VStr "ada@example.org") (VStr "pw") Demo.guest
    = (Return VUndef, w')
    /\ user (store w') = VObj [("id", VStr "u1"); ("email", VStr "ada@example.org")]
    /\ isLoading (store w') = false
    /\ window w' = Some b'
    /\ localStorage b' !! "user"
       = Some (Demo.stringify (VObj [("id", VStr "u1"); ("email", VStr "ada@example.org")]))
    /\ (forall endpoint options,
          headers (@request_sent Scenario.auth endpoint options w') !! "Authorization"
          = Some ("Bearer " +:+ "u1")).
Proof.
  apply (@login_then_requests_carry_bearer Scenario.auth (VStr "ada@example.org") (VStr "pw")
           Demo.guest (mkBrowser (<["session_id" := "s0"]> ∅) "/")
           [("user", Demo.user1); ("session", VObj [])]
           (@ApiClient.login Scenario.auth (VStr "ada@example.org") (VStr "pw")
              (loading_on Demo.guest).2).2
           [("id", VStr "u1"); ("email", VStr "ada@example.org")] "u1").
  - reflexivity.
  - vm_compute. reflexivity.
  - reflexivity.
  - reflexivity.
  - discriminate.
  - vm_compute. discriminate.
  - vm_compute. reflexivity.
Defined.

Section RefreshFacts.
Context `{P : Platform}.

(** All that [refreshSession] does when it has an id to work on. *)
Lemma refreshSession_effect snap id (w : World) :
  truthy (js_or id (sessionId snap)) = true ->
  exists w',
    SessionContext.refreshSession snap id w = (Return tt, w')
    /\ events w' = events w ++ [EFetch (session_request (js_or id (sessionId snap)) w)]
    /\ sessionId (store w') = sessionId (store w)
    /\ user (store w') = user (store w)
    /\ isLoading (store w') = isLoading (store w)
    /\ ui w' = ui w
    /\ (never_401 -> window w' = window w).
Proof.
  intros Ht. unfold SessionContext.refreshSession. cbv zeta. rewrite Ht. cbn [negb].
  unfold ApiClient.getSession, try_catch, bind at 1.
  pose proof (request_window ("/api/session/" +:+ ToString (js_or id (sessionId snap)))
                GET w) as Hwin.
  destruct (request_frame ("/api/session/" +:+ ToString (js_or id (sessionId snap))) GET w)
    as (res & w1 & Heq & Hev & Hst & Hui).
  rewrite Heq in Hwin |- *. simpl in Hwin.
  fold (session_request (js_or id (sessionId snap)) w) in Hev.
  destruct res as [v|e].
  - unfold bind, setSession, setSelectedSuggestions, set_store, modify, when.
    destruct v as [| | | | |?|fields]; simpl;
      try (eexists; split; [reflexivity|]; simpl; rewrite Hev, Hst, Hui;
           repeat split; try done; intros Hno; apply Hwin; intros; apply Hno).
    destruct (truthy (lookup_field "selected_chips" fields)); simpl;
      eexists; (split; [reflexivity|]); simpl; rewrite Hev, Hst, Hui;
      repeat split; try done; intros Hno; apply Hwin; intros; apply Hno.
  - eexists. split; [reflexivity|]. simpl. rewrite Hev, Hst, Hui.
    repeat split; try done. intros Hno. apply Hwin. intros. apply Hno.
Qed.

End RefreshFacts.

(** X14. A re-fetch that is answered with a session object puts that object
    in the store; the list of selected suggestions is replaced by the
    object's [selected_chips] only when those are truthy, and kept
    otherwise. Nothing else changes. *)
Theorem refreshSession_replaces_session `{P : Platform}
    (snap : StoreState) (id : Val) (w : World) (status : Z) (fields : list (string * Val)) :
  truthy (js_or id (sessionId snap)) = true ->
  server (events w) (session_request (js_or id (sessionId snap)) w)
  = Response status (BodyJson (VObj fields)) ->
  ok status = true ->
  SessionContext.refreshSession snap id w
  = (Return tt,
     mkWorld (window w)
             (with_session (VObj fields)
                           (if truthy (lookup_field "selected_chips" fields)
                            then lookup_field "selected_chips" fields
                            else selectedSuggestions (store w))
                           (store w))
             (ui w)
             (events w ++ [EFetch (session_request (js_or id (sessionId snap)) w)])).
Proof.
  intros Ht Hs Hok. unfold SessionContext.refreshSession. cbv zeta. rewrite Ht. cbn [negb].
  unfold ApiClient.getSession.
  rewrite (try_catch_bind_Return _ _ _ _ _ _
             (request_ok_json _ _ _ _ _ Hs Hok)).
  unfold try_catch, bind, setSession, setSelectedSuggestions, set_store, modify, when, prop,
    ret. simpl.
  by destruct (truthy (lookup_field "selected_chips" fields)).
Qed.

Lemma refreshSession_replaces_session_witness :
  @SessionContext.refreshSession Demo.healthy Demo.guest_store VUndef Demo.guest
  = (Return tt,
     mkWorld (window Demo.guest)
             (with_session
                (VObj [("success", VBool true);
                       ("selected_suggestions", VArr [VStr "neon lights"]);
                       ("suggestions", VArr [VStr "neon lights"]);
                       ("final_prompt", VStr "a prompt")])
                (selectedSuggestions (store Demo.guest))
                (store Demo.guest))
             (ui Demo.guest)
             (events Demo.guest
              ++ [EFetch (@session_request Demo.healthy (VStr "s0") Demo.guest)])).
Proof.
  apply (@refreshSession_replaces_session Demo.healthy Demo.guest_store VUndef Demo.guest 200
           [("success", VBool true);
            ("selected_suggestions", VArr [VStr "neon lights"]);
            ("suggestions", VArr [VStr "neon lights"]);
            ("final_prompt", VStr "a prompt")]); reflexivity.
Defined.

Section Mirror.
Context `{P : Platform}.

Lemma cachedUserId_session_slot (w : World) (b : Browser) (v : string) st u ev :
  window w = Some b ->
  cachedUserId (mkWorld (Some (mkBrowser (<["session_id" := v]> (localStorage b)) (href b)))
                        st u ev)
  = cachedUserId w.
Proof.
  intros Hb. unfold cachedUserId. simpl. rewrite Hb. by rewrite lookup_insert_ne.
Qed.

End Mirror.

(** What [initializeSession] does when its create-session call is answered
    with a non-empty id. *)
Lemma initializeSession_effect `{P : Platform}
    (snap : StoreState) (llmProvider : Val) (w : World) (b : Browser)
    (st : Z) (fields : list (string * Val)) (sid : string) :
  window w = Some b ->
  server (events w ++ [ESetIsLoading true]) (create_request_for llmProvider snap w)
  = Response st (BodyJson (VObj fields)) ->
  ok st = true ->
  lookup_field "session_id" fields = VStr sid ->
  sid <> "" ->
  exists w',
    SessionContext.initializeSession snap llmProvider w = (Return VUndef, w')
    /\ events w'
       = events w ++ [ESetIsLoading true; EFetch (create_request_for llmProvider snap w);
                      EFetch (session_request (VStr sid) w); ESetIsLoading false]
    /\ sessionId (store w') = VStr sid
    /\ isLoading (store w') = false
    /\ ui w' = ui w
    /\ (never_401 ->
        exists b', window w' = Some b'
                   /\ localStorage b' = <["session_id" := sid]> (localStorage b)).
Proof.
  intros Hb Hsrv Hok Hsid Hne.
  assert (Hcreate : ApiClient.createSession (default_arg (VStr "Claude") llmProvider)
                      (user_id_of (user snap)) (loading_on w).2
                    = (Return (VObj fields),
                       log_fetch (create_request_for llmProvider snap w) (loading_on w).2)).
  { unfold ApiClient.createSession. cbv zeta.
    assert (Hd : default_arg (VStr "Claude") (default_arg (VStr "Claude") llmProvider)
                 = default_arg (VStr "Claude") llmProvider) by (by destruct llmProvider).
    rewrite Hd.
    exact (request_ok_json "/api/session/create" _ (loading_on w).2 st (VObj fields)
             Hsrv Hok). }
  set (w2 := mkWorld
               (Some (mkBrowser (<["session_id" := sid]> (localStorage b)) (href b)))
               (mkStore (VStr sid) (session (store w)) (user (store w)) true None
                        (selectedSuggestions (store w)))
               (ui w)
               (events w ++ [ESetIsLoading true; EFetch (create_request_for llmProvider snap w)])).
  assert (Ht : truthy (js_or (VStr sid) (sessionId snap)) = true).
  { by rewrite (js_or_truthy _ _ (truthy_VStr sid Hne)), (truthy_VStr sid Hne). }
  destruct (refreshSession_effect snap (VStr sid) w2 Ht)
    as (w3 & Hr & Hev & Hsid3 & _ & _ & Hui & Hwin).
  rewrite (js_or_truthy _ _ (truthy_VStr sid Hne)) in Hev.
  unfold SessionContext.initializeSession. cbv zeta. rewrite bracket_unfold.
  unfold try_finally.
  rewrite (try_catch_bind_Return _ _ _ _ _ _ (opt_prop_user_id _ _)).
  rewrite (try_catch_bind_Return _ _ _ _ _ _ Hcreate).
  assert (Htail : try_catch
                    (let* sid0 := prop (VObj fields) "session_id" in
                     setSessionId sid0;;; setItem "session_id" sid0;;;
                     SessionContext.refreshSession snap sid0;;; ret VUndef)
                    (fun err => SessionContext.handleError err;;; ret VUndef)
                    (log_fetch (create_request_for llmProvider snap w) (loading_on w).2)
                  = (Return VUndef, w3)).
  { unfold try_catch, bind at 1, prop, ret. rewrite Hsid.
    unfold bind at 1, setSessionId, set_store, modify. simpl.
    unfold bind at 1, setItem. simpl. rewrite Hb. simpl.
    rewrite <- app_assoc. simpl. fold w2.
    by rewrite (bind_Return _ _ _ _ _ Hr). }
  rewrite Htail. eexists. split; [reflexivity|]. simpl.
  rewrite Hev, Hsid3, Hui. simpl. rewrite <- app_assoc. simpl.
  unfold session_request.
  rewrite (request_sent_ext _ _ w2 w (cachedUserId_session_slot w b sid _ _ _ Hb)).
  split; [by rewrite <- app_assoc|]. do 3 (split; [done|]).
  intros Hno. rewrite (Hwin Hno). by eexists.
Qed.

(** X15. When the create-session call of [initializeSession] is answered
    with a non-empty id and no call is answered 401, the action makes
    exactly two calls, the creation and the re-fetch of that session, and
    returns with the flag off and the same id in the store and in local
    storage. *)
Theorem initializeSession_mirrors_id `{P : Platform}
    (snap : StoreState) (llmProvider : Val) (w : World) (b : Browser)
    (st : Z) (fields : list (string * Val)) (sid : string) :
  window w = Some b ->
  server (events w ++ [ESetIsLoading true]) (create_request_for llmProvider snap w)
  = Response st (BodyJson (VObj fields)) ->
  ok st = true ->
  lookup_field "session_id" fields = VStr sid ->
  sid <> "" ->
  never_401 ->
  exists w' b',
    SessionContext.initializeSession snap llmProvider w = (Return VUndef, w')
    /\ fetches (events w')
       = fetches (events w) ++ [create_request_for llmProvider snap w;
                                session_request (VStr sid) w]
    /\ isLoading (store w') = false
    /\ sessionId (store w') = VStr sid
    /\ window w' = Some b'
    /\ localStorage b' !! "session_id" = Some sid.
Proof.
  intros Hb Hsrv Hok Hsid Hne Hno.
  destruct (initializeSession_effect snap llmProvider w b st fields sid Hb Hsrv Hok Hsid Hne)
    as (w' & Hrun & Hev & Hstore & Hflag & _ & Hwin).
  destruct (Hwin Hno) as (b' & Hb' & Hls).
  exists w', b'. split; [exact Hrun|]. split.
  { rewrite Hev. unfold fetches. by rewrite omap_app. }
  do 3 (split; [done|]). rewrite Hls. apply lookup_insert_eq.
Qed.

Lemma initializeSession_mirrors_id_witness :
  exists w' b',
    @SessionContext.initializeSession Demo.healthy Demo.fresh_store VUndef Demo.fresh
    = (Return VUndef, w')
    /\ fetches (events w')
       = fetches (events Demo.fresh)
         ++ [@create_request_for Demo.healthy VUndef Demo.fresh_store Demo.fresh;
             @session_request Demo.healthy (VStr "s1") Demo.fresh]
    /\ isLoading (store w') = false
    /\ sessionId (store w') = VStr "s1"
    /\ window w' = Some b'
    /\ localStorage b' !! "session_id" = Some "s1".
Proof.
  apply (@initializeSession_mirrors_id Demo.healthy Demo.fresh_store VUndef Demo.fresh
           (mkBrowser ∅ "/") 200 Demo.created "s1");
    [reflexivity|reflexivity|reflexivity|reflexivity|discriminate|exact healthy_never_401].
Defined.

(** X16. [joinSession] in a browser puts the id it is given both in the
    store and, as text, in local storage (unless a call is answered 401),
    and re-fetches that session; given a falsy id it still overwrites both
    and re-fetches the session of its snapshot, if that has one. It never
    throws. *)
Theorem joinSession_mirrors_id `{P : Platform}
    (snap : StoreState) (id : Val) (w : World) (b : Browser) :
  window w = Some b ->
  exists w',
    SessionContext.joinSession snap id w = (Return VUndef, w')
    /\ sessionId (store w') = id
    /\ events w'
       = events w ++ (if truthy (js_or id (sessionId snap))
                      then [EFetch (session_request (js_or id (sessionId snap)) w)]
                      else [])
    /\ (never_401 ->
        exists b', window w' = Some b'
                   /\ localStorage b' = <["session_id" := ToString id]> (localStorage b)).
Proof.
  intros Hb. unfold SessionContext.joinSession.
  set (w2 := mkWorld
               (Some (mkBrowser (<["session_id" := ToString id]> (localStorage b)) (href b)))
               (with_sessionId id (store w)) (ui w) (events w)).
  assert (Hpre : forall k : M Val,
             (setSessionId id;;; setItem "session_id" id;;; k) w = k w2).
  { intros k. unfold bind at 1, setSessionId, set_store, modify. simpl.
    unfold bind at 1, setItem. simpl. by rewrite Hb. }
  rewrite Hpre.
  destruct (truthy (js_or id (sessionId snap))) eqn:Ht.
  - destruct (refreshSession_effect snap id w2 Ht) as (w3 & Hr & Hev & Hsid & _ & _ & _ & Hwin).
    rewrite (bind_Return _ _ _ _ _ Hr). eexists. split; [reflexivity|]. simpl.
    rewrite Hev, Hsid. simpl. unfold session_request.
    rewrite (request_sent_ext _ _ w2 w (cachedUserId_session_slot w b _ _ _ _ Hb)).
    do 2 (split; [done|]). intros Hno. rewrite (Hwin Hno). by eexists.
  - unfold SessionContext.refreshSession at 1. cbv zeta. rewrite Ht. cbn [negb].
    eexists. split; [reflexivity|]. simpl. rewrite app_nil_r.
    do 2 (split; [done|]). intros _. by eexists.
Qed.

Lemma joinSession_mirrors_id_witness :
  exists w',
    @SessionContext.joinSession Demo.healthy Demo.fresh_store (VStr "s7") Demo.fresh
    = (Return VUndef, w')
    /\ sessionId (store w') = VStr "s7"
    /\ events w'
       = events Demo.fresh
         ++ (if truthy (js_or (VStr "s7") (sessionId Demo.fresh_store))
             then [EFetch (@session_request Demo.healthy
                             (js_or (VStr "s7") (sessionId Demo.fresh_store)) Demo.fresh)]
             else [])
    /\ (@never_401 Demo.healthy ->
        exists b', window w' = Some b'
                   /\ localStorage b'
                      = <["session_id" := ToString (VStr "s7")]>
                          (localStorage (mkBrowser ∅ "/"))).
Proof.
  apply (@joinSession_mirrors_id Demo.healthy Demo.fresh_store (VStr "s7") Demo.fresh
           (mkBrowser ∅ "/")).
  reflexivity.
Defined.

(** X17. The mount effect does not invent a session: with no session id and
    no user in local storage it changes nothing and makes no call. *)
Theorem mount_nothing_stored `{P : Platform} (snap : StoreState) (w : World) (b : Browser) :
  window w = Some b ->
  localStorage b !! "session_id" = None ->
  localStorage b !! "user" = None ->
  SessionContext.mount snap w = (Return tt, w).
Proof.
  intros Hb Hs Hu. unfold SessionContext.mount.
  rewrite (bind_Return _ _ _ _ _ (getItem_browser _ _ _ Hb)). rewrite Hs. simpl.
  unfold bind at 1. simpl.
  rewrite (bind_Return _ _ _ _ _ (getItem_browser _ _ _ Hb)). rewrite Hu. simpl.
  reflexivity.
Qed.

Lemma mount_nothing_stored_witness :
  @SessionContext.mount Demo.healthy Demo.fresh_store Demo.fresh = (Return tt, Demo.fresh).
Proof.
  apply (@mount_nothing_stored Demo.healthy Demo.fresh_store Demo.fresh (mkBrowser ∅ "/"));
    reflexivity.
Defined.

(** X18. With a non-empty session id stored, the mount effect re-attaches:
    the id goes into the store and that session is fetched, in one call.
    The cached user is restored when its text is JSON and left as it is
    when the text is garbled or missing; the effect never throws. *)
Theorem mount_reattaches `{P : Platform}
    (snap : StoreState) (w : World) (b : Browser) (d : string) :
  window w = Some b ->
  localStorage b !! "session_id" = Some d ->
  d <> "" ->
  exists w',
    SessionContext.mount snap w = (Return tt, w')
    /\ sessionId (store w') = VStr d
    /\ user (store w') = restored_user (localStorage b !! "user") (user (store w))
    /\ events w' = events w ++ [EFetch (session_request (VStr d) w)].
Proof.
  intros Hb Hd Hne. unfold SessionContext.mount.
  rewrite (bind_Return _ _ _ _ _ (getItem_browser _ _ _ Hb)). rewrite Hd. cbn [of_item].
  rewrite (truthy_VStr d Hne). cbn [when].
  destruct w as [win st u ev]. simpl in Hb. subst win.
  unfold bind at 1, setSessionId, set_store, modify. simpl.
  unfold bind at 1, getItem. simpl.
  assert (Ht : truthy (js_or (VStr d) (sessionId snap)) = true).
  { by rewrite (js_or_truthy _ _ (truthy_VStr d Hne)), (truthy_VStr d Hne). }
  assert (Hfinish : forall usr,
            exists w',
              SessionContext.refreshSession snap (VStr d)
                (mkWorld (Some b)
                         (mkStore (VStr d) (session st) usr (isLoading st) (error st)
                                  (selectedSuggestions st)) u ev)
              = (Return tt, w')
              /\ sessionId (store w') = VStr d
              /\ user (store w') = usr
              /\ events w' = ev ++ [EFetch (session_request (VStr d)
                                              (mkWorld (Some b) st u ev))]).
  { intros usr.
    destruct (refreshSession_effect snap (VStr d)
                (mkWorld (Some b)
                         (mkStore (VStr d) (session st) usr (isLoading st) (error st)
                                  (selectedSuggestions st)) u ev) Ht)
      as (w' & Hr & Hev & Hsid & Husr & _).
    rewrite (js_or_truthy _ _ (truthy_VStr d Hne)) in Hev.
    exists w'. by do 3 (split; [done|]). }
  unfold restored_user.
  destruct (localStorage b !! "user") as [text|]; simpl.
  - destruct (String.eqb text ""); simpl.
    + unfold bind at 1. simpl. apply Hfinish.
    + destruct (JSON_parse text) as [parsed|]; unfold bind at 1, try_catch; simpl;
        apply Hfinish.
  - unfold bind at 1. simpl. apply Hfinish.
Qed.

Lemma mount_reattaches_witness :
  exists w',
    @SessionContext.mount Demo.healthy Demo.fresh_store Demo.signed_in = (Return tt, w')
    /\ sessionId (store w') = VStr "s0"
    /\ user (store w')
       = @restored_user Demo.healthy
           (localStorage
              (mkBrowser (<["session_id" := "s0"]> (<["user" := Demo.user1_text]> ∅)) "/")
            !! "user")
           (user (store Demo.signed_in))
    /\ events w' = events Demo.signed_in
                   ++ [EFetch (@session_request Demo.healthy (VStr "s0") Demo.signed_in)].
Proof.
  apply (@mount_reattaches Demo.healthy Demo.fresh_store Demo.signed_in
           (mkBrowser (<["session_id" := "s0"]> (<["user" := Demo.user1_text]> ∅)) "/") "s0").
  - reflexivity.
  - reflexivity.
  - discriminate.
Defined.

(** ** Steady computations *)

Section Steady.
Context `{P : Platform}.

Lemma steady_ret {A} (a : A) : steady (ret a).
Proof. done. Qed.

Lemma steady_throw {A} (e : Error) : steady (@throw A e).
Proof. done. Qed.

Lemma steady_bind {A B} (m : M A) (k : A -> M B) :
  steady m -> (forall a, steady (k a)) -> steady (bind m k).
Proof.
  intros Hm Hk w. unfold bind. destruct (Hm w) as [Hw Hu].
  destruct (m w) as [[a|e] w1]; simpl in *; [|done].
  destruct (Hk a w1) as [Hw2 Hu2]. split; [tauto|congruence].
Qed.

Lemma steady_try_catch {A} (m : M A) (h : Error -> M A) :
  steady m -> (forall e, steady (h e)) -> steady (try_catch m h).
Proof.
  intros Hm Hh w. unfold try_catch. destruct (Hm w) as [Hw Hu].
  destruct (m w) as [[a|e] w1]; simpl in *; [done|].
  destruct (Hh e w1) as [Hw2 Hu2]. split; [tauto|congruence].
Qed.

Lemma steady_try_finally {A} (m : M A) (f : M unit) :
  steady m -> steady f -> steady (try_finally m f).
Proof.
  intros Hm Hf w. unfold try_finally. destruct (Hm w) as [Hw Hu].
  destruct (m w) as [r w1]; simpl in *.
  destruct (Hf w1) as [Hw2 Hu2].
  destruct (f w1) as [[[]|e] w2]; simpl in *; split; (tauto || congruence).
Qed.

Lemma steady_when (b : bool) (m : M unit) : steady m -> steady (when b m).
Proof. destruct b; [done|]. intros _. apply steady_ret. Qed.

Lemma steady_set_store f : steady (set_store f).
Proof. done. Qed.
Lemma steady_setIsLoading b : steady (setIsLoading b).
Proof. done. Qed.
Lemma steady_getItem k : steady (getItem k).
Proof. intros [win st u ev]. unfold getItem. simpl. by destruct win. Qed.
Lemma steady_setItem k v : steady (setItem k v).
Proof.
  intros [win st u ev]. unfold setItem. simpl. destruct win; simpl; [|done].
  split; [by eexists|done].
Qed.
Lemma steady_removeItem k : steady (removeItem k).
Proof.
  intros [win st u ev]. unfold removeItem. simpl. destruct win; simpl; [|done].
  split; [by eexists|done].
Qed.
Lemma steady_prop v k : steady (prop v k).
Proof. intros w. by destruct v. Qed.
Lemma steady_opt_prop v k : steady (opt_prop v k).
Proof. intros w. by destruct v. Qed.

Lemma settle_steady (answer : FetchOutcome) (w : World) :
  (is_Some (window w) -> is_Some (window (settle answer w).2))
  /\ ui (settle answer w).2 = ui w.
Proof.
  destruct answer as [e|status json]; [done|]. simpl.
  destruct (Z.eqb status 401).
  { simpl. split; [|done]. intros [b ->]. by eexists. }
  destruct (Z.eqb status 403); [done|].
  destruct (negb (ok status)); [done|].
  by destruct json.
Qed.

Lemma steady_request endpoint options : steady (ApiClient.request endpoint options).
Proof.
  intros w. rewrite request_settle.
  exact (settle_steady _ (log_fetch (request_sent endpoint options w) w)).
Qed.

End Steady.

Create HintDb steady.
#[export] Hint Resolve steady_ret steady_throw steady_when steady_set_store
  steady_setIsLoading steady_getItem steady_setItem steady_removeItem steady_prop
  steady_opt_prop steady_request : steady.

Ltac steady_step :=
  match goal with
  | |- steady (bind _ _) => apply steady_bind; [|intros ?]
  | |- steady (try_catch _ _) => apply steady_try_catch; [|intros ?]
  | |- steady (try_finally _ _) => apply steady_try_finally
  | |- steady (when _ _) => apply steady_when
  | |- steady (if ?b then _ else _) => destruct b
  | |- steady (match ?x with _ => _ end) => destruct x
  | |- steady (let x := _ in _) => cbv zeta
  | |- steady (setSessionId _) => apply steady_set_store
  | |- steady (setSession _) => apply steady_set_store
  | |- steady (setUser _) => apply steady_set_store
  | |- steady (setError _) => apply steady_set_store
  | |- steady (setSelectedSuggestions _) => apply steady_set_store
  | |- steady (SessionContext.handleError _) => apply steady_set_store
  | |- steady _ => solve [eauto with steady]
  end.
Ltac steady_tac := repeat steady_step.

Section SteadyStore.
Context `{P : Platform}.

Lemma steady_refreshSession snap id : steady (SessionContext.refreshSession snap id).
Proof. unfold SessionContext.refreshSession, ApiClient.getSession. steady_tac. Qed.

Lemma steady_initializeSession snap llm : steady (SessionContext.initializeSession snap llm).
Proof.
  unfold SessionContext.initializeSession, ApiClient.createSession. cbv zeta.
  steady_tac; apply steady_refreshSession.
Qed.

Lemma steady_selectCategory snap c i : steady (SessionContext.selectCategory snap c i).
Proof.
  unfold SessionContext.selectCategory, SessionContext.record_category,
    ApiClient.createSession, ApiClient.selectCategory. cbv zeta.
  steady_tac; apply steady_refreshSession.
Qed.

Lemma creations_cons_create (e : Event) (l : list Event) :
  is_create e = true -> creations (e :: l) = S (creations l).
Proof. intros He. unfold creations. cbn [List.filter]. by rewrite He. Qed.

Lemma creations_cons_other (e : Event) (l : list Event) :
  is_create e = false -> creations (e :: l) = creations l.
Proof. intros He. unfold creations. cbn [List.filter]. by rewrite He. Qed.

Lemma create_for_is_create llm snap (w : World) :
  is_create (EFetch (create_request_for llm snap w)) = true.
Proof. simpl. by rewrite String.eqb_refl. Qed.

End SteadyStore.

(** ** The wizard *)

(** X19. Picking a category on the landing page of the single-page wizard,
    with the callbacks of the email/password store, in a browser: the
    handler never throws and always ends with the spinner off and the
    wizard at the generate step, even when creating the session or saving
    the category failed, because the store callbacks swallow those
    failures. *)
Theorem handleCategorySelect_always_moves_on `{P : Platform}
    (snap : StoreState) (categoryName : string) (w : World) :
  is_Some (window w) ->
  exists w',
    Views.handleCategorySelect snap (SessionContext.initializeSession snap)
                               (SessionContext.selectCategory snap) categoryName w
    = (Return tt, w')
    /\ currentStep (ui w') = Generate
    /\ isInitializing (ui w') = false
    /\ selectorLoading (ui w') = selectorLoading (ui w).
Proof.
  intros Hb. unfold Views.handleCategorySelect.
  set (w0 := mkWorld (window w) (store w)
                     (mkUi (currentStep (ui w)) true (selectorLoading (ui w))) (events w)).
  assert (Hstart : forall k : M unit, (Views.setIsInitializing true;;; k) w = k w0) by done.
  rewrite Hstart. unfold try_finally, try_catch.
  assert (Hinit : exists w1,
             when (negb (truthy (sessionId snap)))
                  (SessionContext.initializeSession snap VUndef;;; ret tt) w0
             = (Return tt, w1)
             /\ is_Some (window w1) /\ ui w1 = ui w0).
  { destruct (negb (truthy (sessionId snap))); simpl; [|by exists w0].
    destruct (initializeSession_total snap VUndef w0) as (w1 & Hi).
    destruct (steady_initializeSession snap VUndef w0) as [Hw Hu].
    rewrite Hi in Hw, Hu. simpl in Hw, Hu.
    exists w1. rewrite (bind_Return _ _ _ _ _ Hi). auto. }
  destruct Hinit as (w1 & Hi & Hb1 & Hu1).
  rewrite (bind_Return _ _ _ _ _ Hi).
  destruct (selectCategory_total snap (VStr categoryName)
              (VStr (Views.placeholderIdea categoryName)) w1 Hb1) as (w2 & Hs).
  destruct (steady_selectCategory snap (VStr categoryName)
              (VStr (Views.placeholderIdea categoryName)) w1) as [_ Hu2].
  rewrite Hs in Hu2. simpl in Hu2.
  rewrite (bind_Return _ _ _ _ _ Hs).
  eexists. split; [reflexivity|]. simpl. by rewrite Hu2, Hu1.
Qed.

Lemma handleCategorySelect_always_moves_on_witness :
  exists w',
    @Views.handleCategorySelect Demo.fresh_store
       (@SessionContext.initializeSession Demo.down Demo.fresh_store)
       (@SessionContext.selectCategory Demo.down Demo.fresh_store) "Logo" Demo.fresh
    = (Return tt, w')
    /\ currentStep (ui w') = Generate
    /\ isInitializing (ui w') = false
    /\ selectorLoading (ui w') = selectorLoading (ui Demo.fresh).
Proof.
  apply (@handleCategorySelect_always_moves_on Demo.down Demo.fresh_store "Logo" Demo.fresh).
  by eexists.
Defined.

(** X20. The same handler started from a render without a session, nothing
    stored: if the create-session call of [initializeSession] is answered
    with a non-empty id and no call is answered 401, the whole handler makes
    exactly one create-session call. [selectCategory] still runs with the
    snapshot that shows no session, but it finds the id in local storage. *)
Theorem handleCategorySelect_creates_once `{P : Platform}
    (snap : StoreState) (categoryName : string) (w : World) (b : Browser)
    (st : Z) (fields : list (string * Val)) (sid : string) :
  window w = Some b ->
  localStorage b !! "session_id" = None ->
  truthy (sessionId snap) = false ->
  server (events w ++ [ESetIsLoading true]) (create_request_for VUndef snap w)
  = Response st (BodyJson (VObj fields)) ->
  ok st = true ->
  lookup_field "session_id" fields = VStr sid ->
  sid <> "" ->
  never_401 ->
  exists w' b',
    Views.handleCategorySelect snap (SessionContext.initializeSession snap)
                               (SessionContext.selectCategory snap) categoryName w
    = (Return tt, w')
    /\ creations (events w') = S (creations (events w))
    /\ currentStep (ui w') = Generate
    /\ window w' = Some b'
    /\ localStorage b' !! "session_id" = Some sid.
Proof.
  intros Hb Hnone Hsnap Hsrv Hok Hsid Hne Hno. unfold Views.handleCategorySelect.
  set (w0 := mkWorld (window w) (store w)
                     (mkUi (currentStep (ui w)) true (selectorLoading (ui w))) (events w)).
  assert (Hstart : forall k : M unit, (Views.setIsInitializing true;;; k) w = k w0) by done.
  rewrite Hstart. unfold try_finally, try_catch. rewrite Hsnap. cbn [negb when].
  destruct (initializeSession_effect snap VUndef w0 b st fields sid Hb Hsrv Hok Hsid Hne)
    as (w1 & Hi & Hev1 & _ & _ & _ & Hwin1).
  destruct (Hwin1 Hno) as (b1 & Hb1 & Hls1).
  assert (Hstored : localStorage b1 !! "session_id" = Some sid).
  { rewrite Hls1. apply lookup_insert_eq. }
  rewrite (bind_Return _ _ w0 tt w1) by (by rewrite (bind_Return _ _ _ _ _ Hi)).
  destruct (selectCategory_reuse snap (VStr categoryName)
              (VStr (Views.placeholderIdea categoryName)) w1 b1 sid Hb1 Hstored Hne)
    as (res & w2 & tail & Hs & Hev2 & Htail & Hwin2).
  destruct (selectCategory_total snap (VStr categoryName)
              (VStr (Views.placeholderIdea categoryName)) w1) as (w2' & Hs'); [by eexists|].
  rewrite Hs in Hs'. injection Hs' as -> <-.
  rewrite (bind_Return _ _ _ _ _ Hs).
  eexists _, b1. split; [reflexivity|]. simpl.
  split; [|split; [done|split; [exact (Hwin2 Hno)|exact Hstored]]].
  rewrite Hev2, Hev1. simpl. rewrite !creations_app.
  rewrite (creations_cons_other (ESetIsLoading true)) by done.
  rewrite (creations_cons_create _ _ (create_for_is_create VUndef snap w0)).
  rewrite (creations_cons_other (EFetch (session_request (VStr sid) w0)))
    by apply session_is_not_create.
  rewrite (creations_cons_other (ESetIsLoading false)) by done.
  rewrite (creations_cons_other (ESetIsLoading true)) by done.
  rewrite (creations_cons_other (EFetch (select_request _ _ _ w1)))
    by apply select_is_not_create.
  rewrite (category_tail_creations _ _ _ Htail).
  unfold creations at 2. simpl. lia.
Qed.

Lemma handleCategorySelect_creates_once_witness :
  exists w' b',
    @Views.handleCategorySelect Demo.fresh_store
       (@SessionContext.initializeSession Demo.healthy Demo.fresh_store)
       (@SessionContext.selectCategory Demo.healthy Demo.fresh_store) "Logo" Demo.fresh
    = (Return tt, w')
    /\ @creations Demo.healthy (events w') = S (@creations Demo.healthy (events Demo.fresh))
    /\ currentStep (ui w') = Generate
    /\ window w' = Some b'
    /\ localStorage b' !! "session_id" = Some "s1".
Proof.
  apply (@handleCategorySelect_creates_once Demo.healthy Demo.fresh_store "Logo" Demo.fresh
           (mkBrowser ∅ "/") 200 Demo.created "s1");
    [reflexivity|reflexivity|reflexivity|reflexivity|reflexivity|reflexivity|discriminate|
     exact healthy_never_401].
Defined.

(** ** The views, continued *)

Section Trim.

Lemma list_ascii_app (a b : string) :
  String.list_ascii_of_string (a +:+ b)
  = String.list_ascii_of_string a ++ String.list_ascii_of_string b.
Proof. induction a as [|x a IH]; [done|]. simpl. by rewrite IH. Qed.

Lemma trim_start_keeps (x : ascii) (l : list ascii) :
  is_space x = false -> trim_start (x :: l) = x :: l.
Proof. intros Hx. simpl. by rewrite Hx. Qed.

(** A text that starts and ends with something other than white space is
    its own trimmed form. *)
Lemma trim_fixed (x y : ascii) (middle : string) :
  is_space x = false -> is_space y = false ->
  trim (String x (middle +:+ String y EmptyString)) = String x (middle +:+ String y EmptyString).
Proof.
  intros Hx Hy. unfold trim.
  change (String.list_ascii_of_string (String x (middle +:+ String y "")))
    with (x :: String.list_ascii_of_string (middle +:+ String y "")).
  rewrite (trim_start_keeps x _ Hx), list_ascii_app. simpl String.list_ascii_of_string.
  change (x :: String.list_ascii_of_string middle ++ [y])
    with ((x :: String.list_ascii_of_string middle) ++ [y]).
  rewrite rev_app_distr. simpl. rewrite Hy.
  change (y :: rev (String.list_ascii_of_string middle) ++ [x])
    with ([y] ++ rev (x :: String.list_ascii_of_string middle)).
  rewrite rev_app_distr, rev_involutive. simpl rev. cbn [app].
  change (x :: String.list_ascii_of_string middle ++ [y])
    with (String.list_ascii_of_string (String x middle) ++ String.list_ascii_of_string (String y "")).
  rewrite <- list_ascii_app. by rewrite String.string_of_list_ascii_of_string.
Qed.

Lemma length_append (a b : string) :
  String.length (a +:+ b) = (String.length a + String.length b)%nat.
Proof. induction a as [|x a IH]; [done|]. simpl. by rewrite IH. Qed.

Lemma length_toLowerCase (s : string) : String.length (toLowerCase s) = String.length s.
Proof. induction s as [|x s IH]; [done|]. simpl. by rewrite IH. Qed.

Lemma append_assoc (a b c : string) : (a +:+ b) +:+ c = a +:+ (b +:+ c).
Proof.
  induction a as [|x a IH]; [done|].
  change (String x ((a +:+ b) +:+ c) = String x (a +:+ (b +:+ c))). by f_equal.
Qed.

End Trim.

(** X21. The placeholder idea the landing page submits for a category is 21
    characters longer than the category's name and has no white space to
    trim at either end: whatever the name, it is never shorter than the 10
    characters the category selector asks for. *)
Theorem placeholderIdea_long_enough (categoryName : string) :
  trim (Views.placeholderIdea categoryName) = Views.placeholderIdea categoryName
  /\ String.length (Views.placeholderIdea categoryName)
     = (21 + String.length categoryName)%nat
  /\ (10 <= String.length (trim (Views.placeholderIdea categoryName)))%nat.
Proof.
  assert (Hshape : Views.placeholderIdea categoryName
                   = String "C" ((("reate a " +:+ toLowerCase categoryName) +:+ " style imag")
                                 +:+ String "e" EmptyString)).
  { unfold Views.placeholderIdea. by rewrite !append_assoc. }
  assert (Htrim : trim (Views.placeholderIdea categoryName)
                  = Views.placeholderIdea categoryName).
  { rewrite Hshape. by apply trim_fixed. }
  assert (Hlen : String.length (Views.placeholderIdea categoryName)
                 = (21 + String.length categoryName)%nat).
  { unfold Views.placeholderIdea. rewrite !length_append, length_toLowerCase. simpl. lia. }
  split; [done|]. split; [done|]. rewrite Htrim, Hlen. lia.
Qed.

(** X22. The generate panel sends nothing for a blank prompt or when the
    session of its snapshot has no selected category: it shows one toast and
    calls none of the store callbacks or completion callbacks. *)
Theorem handleGenerate_rejects_blank `{P : Platform}
    (snap : StoreState)
    (selectCategory : Val -> Val -> M Val) (generateQuickPrompt : M Val)
    (startChat : Val -> Val -> Val -> M Val)
    (onPromptGenerated : option (Val -> M unit)) (onAdvancedMode : option (unit -> M unit))
    (p : Views.PanelState) (w : World) :
  trim (Views.prompt p) = "" \/ truthy (selected_category_of (session snap)) = false ->
  exists title,
    Views.handleGenerate snap selectCategory generateQuickPrompt startChat
                         onPromptGenerated onAdvancedMode p w
    = (Return tt, mkWorld (window w) (store w) (ui w) (events w ++ [EToast title]))
    /\ (title = "Empty Input" \/ title = "No Category Selected").
Proof.
  intros Hblank. unfold Views.handleGenerate.
  destruct (truthy (VStr (trim (Views.prompt p)))) eqn:Hp; cbn [negb].
  - destruct Hblank as [Hempty|Hcat]; [by rewrite Hempty in Hp|].
    assert (Hprop : forall w0, opt_prop (session snap) "selected_category" w0
                               = (Return (selected_category_of (session snap)), w0)).
    { intros w0. by destruct (session snap). }
    rewrite (bind_Return _ _ _ _ _ (Hprop w)). rewrite Hcat. cbn [negb].
    exists "No Category Selected". split; [done|by right].
  - exists "Empty Input". split; [done|by left].
Qed.

Lemma handleGenerate_rejects_blank_witness :
  exists title,
    @Views.handleGenerate Demo.healthy Demo.guest_store
       (@SessionContext.selectCategory Demo.healthy Demo.guest_store)
       (@SessionContext.generateQuickPrompt Demo.healthy Demo.guest_store)
       (@SessionContext.startChat Demo.healthy Demo.guest_store)
       None None
       (Views.mkPanel "   " Views.Quick false "" "" "" "") Demo.guest
    = (Return tt, mkWorld (window Demo.guest) (store Demo.guest) (ui Demo.guest)
                          (events Demo.guest ++ [EToast title]))
    /\ (title = "Empty Input" \/ title = "No Category Selected").
Proof.
  apply (@handleGenerate_rejects_blank Demo.healthy Demo.guest_store
           (@SessionContext.selectCategory Demo.healthy Demo.guest_store)
           (@SessionContext.generateQuickPrompt Demo.healthy Demo.guest_store)
           (@SessionContext.startChat Demo.healthy Demo.guest_store)
           None None (Views.mkPanel "   " Views.Quick false "" "" "" "") Demo.guest).
  left. reflexivity.
Defined.

(** ** Counting create-session calls *)

Section Creations.
Context `{P : Platform}.

Lemma creates_silent {A} (m : M A) : silent m -> creates 0 m.
Proof. intros Hm w. exists []. by rewrite app_nil_r, Hm. Qed.

Lemma creates_ret {A} (a : A) : creates 0 (ret a).
Proof. by apply creates_silent. Qed.

Lemma creates_throw {A} (e : Error) : creates 0 (@throw A e).
Proof. by apply creates_silent. Qed.

Lemma creates_bind {A B} (m : M A) (k : A -> M B) :
  creates 0 m -> (forall a, creates 0 (k a)) -> creates 0 (bind m k).
Proof.
  intros Hm Hk w. unfold bind. destruct (Hm w) as (l1 & Hev1 & Hc1).
  destruct (m w) as [[a|e] w1]; simpl in Hev1; [|by exists l1].
  destruct (Hk a w1) as (l2 & Hev2 & Hc2). exists (l1 ++ l2).
  by rewrite Hev2, Hev1, <- app_assoc, creations_app, Hc1, Hc2.
Qed.

Lemma creates_try_catch {A} (m : M A) (h : Error -> M A) :
  creates 0 m -> (forall e, creates 0 (h e)) -> creates 0 (try_catch m h).
Proof.
  intros Hm Hh w. unfold try_catch. destruct (Hm w) as (l1 & Hev1 & Hc1).
  destruct (m w) as [[a|e] w1]; simpl in Hev1; [by exists l1|].
  destruct (Hh e w1) as (l2 & Hev2 & Hc2). exists (l1 ++ l2).
  by rewrite Hev2, Hev1, <- app_assoc, creations_app, Hc1, Hc2.
Qed.

Lemma creates_try_finally {A} (m : M A) (f : M unit) :
  creates 0 m -> creates 0 f -> creates 0 (try_finally m f).
Proof.
  intros Hm Hf w. unfold try_finally. destruct (Hm w) as (l1 & Hev1 & Hc1).
  destruct (m w) as [r w1]. simpl in Hev1.
  destruct (Hf w1) as (l2 & Hev2 & Hc2). exists (l1 ++ l2).
  destruct (f w1) as [[[]|e] w2]; simpl in *;
    by rewrite Hev2, Hev1, <- app_assoc, creations_app, Hc1, Hc2.
Qed.

Lemma creates_when (b : bool) (m : M unit) : creates 0 m -> creates 0 (when b m).
Proof. destruct b; [done|]. intros _. apply creates_ret. Qed.

Lemma creates_set_store f : creates 0 (set_store f).
Proof. by apply creates_silent. Qed.

Lemma creates_setIsLoading b : creates 0 (setIsLoading b).
Proof. intros w. by exists [ESetIsLoading b]. Qed.

Lemma creates_getItem k : creates 0 (getItem k).
Proof. apply creates_silent. intros w. unfold getItem. by destruct (window w). Qed.

Lemma creates_setItem k v : creates 0 (setItem k v).
Proof. apply creates_silent. intros w. unfold setItem. by destruct (window w). Qed.

Lemma creates_prop v k : creates 0 (prop v k).
Proof. apply creates_silent. intros w. by destruct v. Qed.

Lemma creates_opt_prop v k : creates 0 (opt_prop v k).
Proof. apply creates_silent. intros w. by destruct v. Qed.

(** One call of [request] adds its own request to the log and nothing else. *)
Lemma creates_request (n : nat) endpoint options :
  (forall w, creations [EFetch (request_sent endpoint options w)] = n) ->
  creates n (ApiClient.request endpoint options).
Proof.
  intros Hn w. destruct (request_frame endpoint options w) as (res & w1 & Hr & Hev & _).
  exists [EFetch (request_sent endpoint options w)]. by rewrite Hr, Hn.
Qed.

Lemma creates_getSession id : creates 0 (ApiClient.getSession id).
Proof.
  unfold ApiClient.getSession. apply creates_request. intros w.
  pose proof (session_is_not_create id w) as Hno. unfold session_request in Hno.
  unfold creations. cbn [List.filter]. by rewrite Hno.
Qed.

Lemma creates_selectCategory id c i : creates 0 (ApiClient.selectCategory id c i).
Proof.
  unfold ApiClient.selectCategory. apply creates_request. intros w.
  pose proof (select_is_not_create id c i w) as Hno. unfold select_request in Hno.
  unfold creations. cbn [List.filter]. by rewrite Hno.
Qed.

Lemma creates_createSession llm uid : creates 1 (ApiClient.createSession llm uid).
Proof.
  unfold ApiClient.createSession. cbv zeta. apply creates_request. intros w.
  unfold creations. cbn [List.filter]. simpl. by rewrite String.eqb_refl.
Qed.

End Creations.

Create HintDb creates.
#[export] Hint Resolve creates_ret creates_throw creates_when creates_set_store
  creates_setIsLoading creates_getItem creates_setItem creates_prop creates_opt_prop
  creates_getSession creates_selectCategory : creates.

Ltac creates_step :=
  lazymatch goal with
  | |- creates 0 (bind _ _) => apply creates_bind; [|intros ?]
  | |- creates 0 (try_catch _ _) => apply creates_try_catch; [|intros ?]
  | |- creates 0 (try_finally _ _) => apply creates_try_finally
  | |- creates 0 (when _ _) => apply creates_when
  | |- creates 0 (if ?b then _ else _) => destruct b
  | |- creates 0 (let x := _ in _) => cbv zeta
  | |- creates 0 (setSessionId _) => apply creates_set_store
  | |- creates 0 (setSession _) => apply creates_set_store
  | |- creates 0 (setUser _) => apply creates_set_store
  | |- creates 0 (setError _) => apply creates_set_store
  | |- creates 0 (setSelectedSuggestions _) => apply creates_set_store
  | |- creates 0 (SessionContext.handleError _) => apply creates_set_store
  | |- creates 0 _ => solve [eauto with creates]
  end.

Ltac creates_tac := repeat creates_step.

Section CreationCounts.
Context `{P : Platform}.

Lemma creates_refreshSession snap id : creates 0 (SessionContext.refreshSession snap id).
Proof. unfold SessionContext.refreshSession. creates_tac. Qed.

Lemma creates_record_category snap id c i :
  creates 0 (SessionContext.record_category snap id c i).
Proof.
  unfold SessionContext.record_category. creates_tac; apply creates_refreshSession.
Qed.

(** A guarded create-session call whose continuation and handler create
    nothing: exactly one creation, whatever the answer. *)
Lemma creates_guarded_create {A} llm (u : Val) (k : Val -> M A) (h : Error -> M A) :
  (forall v, creates 0 (k v)) -> (forall e, creates 0 (h e)) ->
  creates 1 (try_catch (let* uid := opt_prop u "id" in
                        let* response := ApiClient.createSession llm uid in
                        k response) h).
Proof.
  intros Hk Hh w.
  rewrite (try_catch_bind_Return _ _ _ _ _ _ (opt_prop_user_id u w)).
  destruct (creates_createSession llm (user_id_of u) w) as (l1 & Hev1 & Hc1).
  unfold try_catch, bind at 1.
  destruct (ApiClient.createSession llm (user_id_of u) w) as [[v|e] w1]; simpl in Hev1.
  - destruct (creates_try_catch (k v) h (Hk v) Hh w1) as (l2 & Hev2 & Hc2).
    unfold try_catch in Hev2. exists (l1 ++ l2).
    by rewrite Hev2, Hev1, <- app_assoc, creations_app, Hc1, Hc2.
  - destruct (Hh e w1) as (l2 & Hev2 & Hc2). exists (l1 ++ l2).
    by rewrite Hev2, Hev1, <- app_assoc, creations_app, Hc1, Hc2.
Qed.

Lemma idp_initializeSession_creates snap older llm (w : World) :
  exists w' l,
    SessionContextIdp.initializeSession snap older llm w = (Return VUndef, w')
    /\ events w' = events w ++ l /\ creations l = 1%nat.
Proof.
  unfold SessionContextIdp.initializeSession. cbv zeta. rewrite bracket_unfold.
  set (guarded := try_catch _ _).
  assert (Hc : creates 1 guarded).
  { apply creates_guarded_create.
    - intros v. unfold SessionContextIdp.refreshSession.
      creates_tac; apply creates_refreshSession.
    - intros e. unfold SessionContextIdp.handleError. creates_tac. }
  assert (Ht : exists a w1, guarded (loading_on w).2 = (Return a, w1)).
  { apply try_catch_total. intros e w1. by eexists _, _. }
  destruct Ht as (a & w1 & Hg). destruct (Hc (loading_on w).2) as (l & Hev & Hl).
  rewrite Hg in Hev. simpl in Hev. unfold try_finally. rewrite Hg.
  assert (Ha : a = VUndef).
  { subst guarded. unfold try_catch in Hg.
    destruct ((let* uid := opt_prop (user snap) "id" in _) (loading_on w).2)
      as [[v|e] w2] eqn:Hbody.
    - injection Hg as <- _. revert Hbody. unfold bind.
      repeat (match goal with
              | |- context [match ?m ?x with _ => _ end] => destruct (m x) as [[?|?] ?]
              end; try discriminate).
      unfold ret. by intros [= <- _].
    - by injection Hg as <- _. }
  subst a. eexists _, (ESetIsLoading true :: l ++ [ESetIsLoading false]).
  split; [reflexivity|]. simpl. rewrite Hev. simpl. rewrite <- !app_assoc. simpl.
  split; [done|].
  rewrite (creations_cons_other (ESetIsLoading true)) by done.
  rewrite creations_app, Hl. done.
Qed.

End CreationCounts.

(** X23. The provider that delegates sign-in: [selectCategory] called from a
    render that shows a session id creates no session, and called from a
    render that shows none it makes exactly two create-session calls,
    whatever the server answers: the one of [initializeSession], and its
    own, because the id it looks at is still the empty one of that
    render. *)
Theorem idp_selectCategory_creation_count `{P : Platform}
    (snap older : StoreState) (category userIdea : Val) (w : World) :
  creations (events (SessionContextIdp.selectCategory snap older category userIdea w).2)
  = (creations (events w) + (if truthy (sessionId snap) then 0 else 2))%nat.
Proof.
  unfold SessionContextIdp.selectCategory. cbv zeta.
  destruct (truthy (sessionId snap)) eqn:Hsnap; cbn [negb when].
  - rewrite (bind_Return _ _ w tt w) by done.
    rewrite (bind_Return _ _ w (Some (sessionId snap)) w) by done.
    destruct (creates_record_category snap (sessionId snap) category userIdea w)
      as (l & -> & Hl).
    rewrite creations_app, Hl. lia.
  - destruct (idp_initializeSession_creates snap older VUndef w) as (w1 & l1 & Hi & Hev1 & Hl1).
    rewrite (bind_Return _ _ w tt w1) by (by rewrite (bind_Return _ _ _ _ _ Hi)).
    set (guarded := try_catch _ _).
    assert (Hc : creates 1 guarded).
    { apply creates_guarded_create.
      - intros v. creates_tac.
      - intros e. unfold SessionContextIdp.handleError. creates_tac. }
    assert (Ht : exists a w2, guarded w1 = (Return a, w2)).
    { apply try_catch_total. intros e w2. by eexists _, _. }
    destruct Ht as (ensured & w2 & Hg). destruct (Hc w1) as (l2 & Hev2 & Hl2).
    rewrite Hg in Hev2. simpl in Hev2. rewrite (bind_Return _ _ _ _ _ Hg).
    destruct ensured as [sid|].
    + destruct (creates_record_category snap sid category userIdea w2) as (l3 & -> & Hl3).
      rewrite Hev2, Hev1, !creations_app, Hl1, Hl2, Hl3. lia.
    + simpl. rewrite Hev2, Hev1, !creations_app, Hl1, Hl2. lia.
Qed.


(** ** The chips of the chat input *)

Section Chips.
Import ChatInterface.

Lemma split_comma_nonempty s : split_comma s <> [].
Proof.
  destruct s as [|c s]; [done|]. simpl. destruct (Ascii.eqb c ","); [done|].
  by destruct (split_comma s).
Qed.

Lemma split_comma_app a b :
  split_comma (a +:+ String "," b) = split_comma a ++ split_comma b.
Proof.
  induction a as [|c a IH]; [done|].
  change (String c a +:+ String "," b) with (String c (a +:+ String "," b)).
  cbn [split_comma]. rewrite IH. destruct (Ascii.eqb c ","); [done|].
  pose proof (split_comma_nonempty a). by destruct (split_comma a).
Qed.

Lemma split_comma_plain s :
  (","%char ∉ String.list_ascii_of_string s) -> split_comma s = [s].
Proof.
  induction s as [|c s IH]; [done|]. simpl. intros Hno.
  destruct (Ascii.eqb_spec c ",") as [->|_]; [destruct Hno; left|].
  rewrite IH; [done|]. intros Hin. apply Hno. by right.
Qed.

Lemma split_comma_pieces s p : p ∈ split_comma s -> ","%char ∉ String.list_ascii_of_string p.
Proof.
  revert p. induction s as [|c s IH]; intros p.
  - simpl. intros ->%list_elem_of_singleton. simpl. apply not_elem_of_nil.
  - simpl. destruct (Ascii.eqb_spec c ",") as [->|Hc].
    + intros [->|Hin]%elem_of_cons; [simpl; apply not_elem_of_nil|by apply IH].
    + pose proof (split_comma_nonempty s). destruct (split_comma s) as [|h t]; [done|].
      intros [->|Hin]%elem_of_cons.
      * simpl. intros [Heq|Hin]%elem_of_cons; [done|]. revert Hin. apply IH. left.
      * apply IH. by right.
Qed.

Lemma trim_start_sub l c : c ∈ trim_start l -> c ∈ l.
Proof.
  induction l as [|a l IH]; [done|]. simpl. destruct (is_space a); [|done].
  intros Hin. right. by apply IH.
Qed.

Lemma elem_of_rev' (l : list ascii) c : c ∈ rev l <-> c ∈ l.
Proof. rewrite !list_elem_of_In. symmetry. apply in_rev. Qed.

Lemma list_of_trim s :
  String.list_ascii_of_string (trim s)
  = rev (trim_start (rev (trim_start (String.list_ascii_of_string s)))).
Proof. unfold trim. by rewrite String.list_ascii_of_string_of_list_ascii. Qed.

Lemma trim_no_comma s c :
  c ∉ String.list_ascii_of_string s -> c ∉ String.list_ascii_of_string (trim s).
Proof.
  intros Hno Hin. apply Hno. rewrite list_of_trim in Hin.
  apply elem_of_rev', trim_start_sub, elem_of_rev', trim_start_sub in Hin. done.
Qed.

(** What [trim_start] returns is empty or starts with something else than
    white space, and it is a suffix of its argument. *)
Lemma trim_start_fixed l : trim_start (trim_start l) = trim_start l.
Proof.
  induction l as [|a l IH]; [done|]. simpl. destruct (is_space a) eqn:Ha; [done|].
  simpl. by rewrite Ha.
Qed.

Lemma trim_start_suffix l : exists k, l = k ++ trim_start l.
Proof.
  induction l as [|a l [k IH]]; [by exists []|]. simpl.
  destruct (is_space a); [|by exists []]. exists (a :: k). simpl. by f_equal.
Qed.

Lemma trim_start_snoc l x :
  is_space x = false -> trim_start (l ++ [x]) = trim_start l ++ [x].
Proof.
  intros Hx. induction l as [|a l IH]; simpl; [by rewrite Hx|].
  by destruct (is_space a).
Qed.

(** Trimming the reverse of a list that does not start with white space
    leaves a list whose reverse does not start with white space either. *)
Lemma trim_start_rev_head l :
  trim_start l = l -> trim_start (rev (trim_start (rev l))) = rev (trim_start (rev l)).
Proof.
  intros Hl. destruct l as [|x l]; [done|].
  simpl in Hl. destruct (is_space x) eqn:Hx.
  { (* trim_start l = x :: l is impossible: it is a suffix of l *)
    destruct (trim_start_suffix l) as [k Hk]. rewrite Hl in Hk.
    apply (f_equal length) in Hk. rewrite length_app in Hk. simpl in Hk. lia. }
  simpl rev. rewrite (trim_start_snoc _ _ Hx), rev_app_distr. simpl. by rewrite Hx.
Qed.

Lemma trim_idem s : trim (trim s) = trim s.
Proof.
  unfold trim at 1. rewrite list_of_trim.
  set (l := trim_start (String.list_ascii_of_string s)).
  assert (Hl : trim_start l = l) by apply trim_start_fixed.
  rewrite (trim_start_rev_head l Hl), rev_involutive, trim_start_fixed. done.
Qed.

Lemma trim_space s : trim (String " " s) = trim s.
Proof. reflexivity. Qed.

Lemma parts_app a b : parts (a +:+ String "," b) = parts a ++ parts b.
Proof. unfold parts. by rewrite split_comma_app, fmap_app, filter_app. Qed.

Lemma parts_space s : parts (String " " s) = parts s.
Proof.
  unfold parts. cbn [split_comma]. change (Ascii.eqb " " ",") with false. cbv iota.
  pose proof (split_comma_nonempty s). destruct (split_comma s) as [|h t]; [done|].
  rewrite !fmap_cons. by rewrite trim_space.
Qed.

Lemma parts_plain s : plain s -> parts s = [s].
Proof.
  intros (Hno & Htrim & Hne). unfold parts. rewrite (split_comma_plain s Hno).
  simpl. rewrite Htrim. by rewrite filter_cons_True.
Qed.

Lemma parts_are_plain prev : Forall plain (parts prev).
Proof.
  apply Forall_forall. intros p [Hne Hin]%list_elem_of_filter.
  apply list_elem_of_fmap in Hin as (x & -> & Hx).
  split; [|split; [apply trim_idem|done]].
  by apply trim_no_comma, (split_comma_pieces prev).
Qed.

Lemma parts_join ps : Forall plain ps -> parts (join ", " ps) = ps.
Proof.
  induction 1 as [|p ps Hp Hps IH]; [done|].
  destruct ps as [|q ps]; [by apply parts_plain|].
  change (join ", " (p :: q :: ps)) with (p +:+ ", " +:+ join ", " (q :: ps)).
  change (", " +:+ join ", " (q :: ps)) with (String "," (String " " (join ", " (q :: ps)))).
  by rewrite parts_app, parts_space, IH, (parts_plain p Hp).
Qed.

Lemma parts_appended prev s :
  plain s -> parts (prev +:+ ", " +:+ s) = parts prev ++ [s].
Proof.
  intros Hs. change (", " +:+ s) with (String "," (String " " s)).
  by rewrite parts_app, parts_space, (parts_plain s Hs).
Qed.

(** A suggestion that is not plain is never among the parts of the text. *)
Lemma parts_only_plain prev s : s ∈ parts prev -> plain s.
Proof. revert s. apply Forall_forall, parts_are_plain. Qed.

Lemma filter_absent (s : string) (l : list string) :
  s ∉ l -> filter (fun p => p <> s) l = l.
Proof.
  induction l as [|x l IH]; [done|]. intros Hno.
  rewrite filter_cons_True by (intros ->; apply Hno; left).
  rewrite IH; [done|]. intros Hin. apply Hno. by right.
Qed.

Lemma select_new suggestion prev :
  plain suggestion -> suggestion ∉ parts prev ->
  parts (handleSuggestionSelect suggestion prev) = parts prev ++ [suggestion].
Proof.
  intros Hs Hnew. unfold handleSuggestionSelect. cbv zeta.
  rewrite bool_decide_eq_false_2 by done.
  destruct (parts prev) as [|p ps] eqn:Hparts.
  - simpl. by apply parts_plain.
  - rewrite bool_decide_eq_true_2 by (simpl; lia).
    by rewrite (parts_appended prev suggestion Hs), Hparts.
Qed.

End Chips.

(** X24. Clicking a chip whose text is plain and not yet among the
    comma-separated parts of the input adds it as the last part, and a
    second click takes it out again; what is left is the old parts joined
    with a comma and a space, which need not be the old text. *)
Theorem handleSuggestionSelect_adds_then_removes (suggestion prev : string) :
  plain suggestion ->
  suggestion ∉ ChatInterface.parts prev ->
  ChatInterface.parts (ChatInterface.handleSuggestionSelect suggestion prev)
  = ChatInterface.parts prev ++ [suggestion]
  /\ ChatInterface.handleSuggestionSelect suggestion
       (ChatInterface.handleSuggestionSelect suggestion prev)
     = ChatInterface.join ", " (ChatInterface.parts prev).
Proof.
  intros Hs Hnew. pose proof (select_new suggestion prev Hs Hnew) as Hadd.
  split; [exact Hadd|].
  unfold ChatInterface.handleSuggestionSelect at 1. cbv zeta. rewrite Hadd.
  rewrite bool_decide_eq_true_2 by (apply elem_of_app; right; left).
  rewrite filter_app, (filter_absent _ _ Hnew).
  rewrite filter_cons_False by (intros Hne; by apply Hne).
  by rewrite filter_nil, app_nil_r.
Qed.

Lemma handleSuggestionSelect_adds_then_removes_witness :
  ChatInterface.parts (ChatInterface.handleSuggestionSelect "neon" "warm ,cozy")
  = ChatInterface.parts "warm ,cozy" ++ ["neon"]
  /\ ChatInterface.handleSuggestionSelect "neon"
       (ChatInterface.handleSuggestionSelect "neon" "warm ,cozy")
     = ChatInterface.join ", " (ChatInterface.parts "warm ,cozy").
Proof.
  apply (handleSuggestionSelect_adds_then_removes "neon" "warm ,cozy").
  - split; [|split; [reflexivity|discriminate]].
    apply (bool_decide_unpack _). vm_compute. exact I.
  - apply (bool_decide_unpack _). vm_compute. exact I.
Defined.

(** X25. Clicking a chip whose text is among the parts of the input removes
    every occurrence of it and keeps the other parts in order: afterwards
    the text no longer has it as a part. *)
Theorem handleSuggestionSelect_removes (suggestion prev : string) :
  suggestion ∈ ChatInterface.parts prev ->
  ChatInterface.parts (ChatInterface.handleSuggestionSelect suggestion prev)
  = filter (fun p => p <> suggestion) (ChatInterface.parts prev)
  /\ suggestion ∉ ChatInterface.parts (ChatInterface.handleSuggestionSelect suggestion prev).
Proof.
  intros Hold. unfold ChatInterface.handleSuggestionSelect. cbv zeta.
  rewrite bool_decide_eq_true_2 by done.
  assert (Heq : ChatInterface.parts
                  (ChatInterface.join ", "
                     (filter (fun p => p <> suggestion) (ChatInterface.parts prev)))
                = filter (fun p => p <> suggestion) (ChatInterface.parts prev)).
  { apply parts_join. apply Forall_forall. intros p [_ Hin]%list_elem_of_filter.
    by apply (parts_only_plain prev). }
  split; [exact Heq|]. rewrite Heq. intros [Hne _]%list_elem_of_filter. done.
Qed.

Lemma handleSuggestionSelect_removes_witness :
  ChatInterface.parts (ChatInterface.handleSuggestionSelect "cozy" "warm, cozy ,cozy, neon")
  = filter (fun p => p <> "cozy") (ChatInterface.parts "warm, cozy ,cozy, neon")
  /\ "cozy" ∉ ChatInterface.parts
                (ChatInterface.handleSuggestionSelect "cozy" "warm, cozy ,cozy, neon").
Proof.
  apply (handleSuggestionSelect_removes "cozy" "warm, cozy ,cozy, neon").
  apply (bool_decide_unpack _). vm_compute. exact I.
Defined.

(** X26. A chip whose text is not plain (it holds a comma, starts or ends
    with white space, or is empty) is never recognised among the parts, so
    a click on it never removes anything: the result is the chip's text
    alone or the old text with the chip's text appended. *)
Theorem handleSuggestionSelect_never_removes (suggestion prev : string) :
  ~ plain suggestion ->
  ChatInterface.handleSuggestionSelect suggestion prev = suggestion
  \/ ChatInterface.handleSuggestionSelect suggestion prev = prev +:+ ", " +:+ suggestion.
Proof.
  intros Hnot. unfold ChatInterface.handleSuggestionSelect. cbv zeta.
  rewrite bool_decide_eq_false_2 by (intros Hin; by apply Hnot, (parts_only_plain prev)).
  destruct (bool_decide _); [by right|by left].
Qed.

Lemma handleSuggestionSelect_never_removes_witness :
  ChatInterface.handleSuggestionSelect "warm, cozy" "warm, cozy" = "warm, cozy"
  \/ ChatInterface.handleSuggestionSelect "warm, cozy" "warm, cozy"
     = "warm, cozy" +:+ ", " +:+ "warm, cozy".
Proof.
  apply (handleSuggestionSelect_never_removes "warm, cozy" "warm, cozy").
  intros [Hno _]. apply Hno. do 4 right. left.
Defined.

(** ** The sign-in page *)

(** X27. [handleAuth] never rejects, whatever the [login] and [signup] it
    is given do, and it always leaves the page's own loading flag off and
    the form as it was. *)
Theorem handleAuth_always_settles (login signup : Val -> Val -> M Val)
    (snap s : AuthPage.State) (w : World) :
  exists w',
    AuthPage.handleAuth login signup snap s w
    = (Return tt,
       (AuthPage.mkState false (AuthPage.isSignUp s) (AuthPage.email s) (AuthPage.password s),
        w')).
Proof.
  unfold AuthPage.handleAuth, AuthPage.go_home, AuthPage.setIsLoading,
    Component.bind, Component.try_finally, Component.try_catch, Component.lift,
    Component.set_local, toast, router_push, router_refresh, emit, modify, bind.
  simpl.
  destruct (AuthPage.isSignUp snap); simpl.
  - destruct (signup _ _ w) as [[v|e] w1]; simpl.
    + destruct (login _ _ w1) as [[v'|e] w2]; simpl; [by eexists|].
      destruct (String.eqb (message e) "User already exists"); simpl; [|by eexists].
      destruct (login _ _ _) as [[v''|e'] w3]; simpl; by eexists.
    + destruct (String.eqb (message e) "User already exists"); simpl; [|by eexists].
      destruct (login _ _ _) as [[v''|e'] w3]; simpl; by eexists.
  - destruct (login _ _ w) as [[v|e] w1]; simpl; by eexists.
Qed.

Section AuthCalls.
Context `{P : Platform}.

Lemma calls_app (l1 l2 : list Event) : calls (l1 ++ l2) = calls l1 ++ calls l2.
Proof. unfold calls, fetches. by rewrite omap_app, fmap_app. Qed.





End AuthCalls.



(** ** The prompt display *)

Section PromptLoading.
Context `{P : Platform}.

Lemma request_page endpoint options (w : World) :
  exists res w1,
    ApiClient.request endpoint options w = (res, w1)
    /\ store w1 = store w
    /\ calls (events w1)
       = calls (events w) ++ [(baseUrl +:+ endpoint, o_method options, o_body options)].
Proof.
  destruct (request_frame endpoint options w) as (res & w1 & Hr & Hev & Hst & _).
  exists res, w1. split; [done|]. split; [done|]. by rewrite Hev, calls_app.
Qed.

Lemma opt_prop_final_prompt (v : Val) (w : World) :
  opt_prop v "final_prompt" w = (Return (final_prompt_of v), w).
Proof. by destruct v. Qed.

(** The second attempt of [loadPrompt]: one call for the session, and the
    prompt cell is written only with a truthy prompt. *)
Lemma loadPrompt_fallback (store0 : StoreState) (s : PromptDisplay.State) (w : World) :
  exists r2 s' w',
    ApiClient.getSession (sessionId store0) w = (r2, w')
    /\ Component.try_catch
         (Component.bind (Component.lift (ApiClient.getSession (sessionId store0)))
            (fun sessionData =>
               Component.bind (Component.lift (prop sessionData "final_prompt"))
                 (fun prompt =>
                    Component.when (truthy prompt) (PromptDisplay.setFinalPrompt prompt))))
         (fun err => Component.ret tt) s w
       = (Return tt, (s', w'))
    /\ PromptDisplay.finalPrompt s' = fallback_prompt r2 (PromptDisplay.finalPrompt s)
    /\ PromptDisplay.isLoadingPrompt s' = PromptDisplay.isLoadingPrompt s
    /\ PromptDisplay.refinementInput s' = PromptDisplay.refinementInput s
    /\ PromptDisplay.isRefining s' = PromptDisplay.isRefining s
    /\ store w' = store w
    /\ calls (events w') = calls (events w) ++ [session_call (sessionId store0)].
Proof.
  unfold Component.try_catch, Component.bind at 1, Component.lift at 1, ApiClient.getSession.
  destruct (request_page ("/api/session/" +:+ ToString (sessionId store0)) GET w)
    as (res & w1 & -> & Hst & Hcalls).
  exists res. destruct res as [v|e]; [|by exists s, w1].
  unfold Component.bind, Component.lift, Component.when, PromptDisplay.setFinalPrompt,
    Component.set_local, Component.ret, prop, ret, throw, fallback_prompt, landed.
  destruct v as [| | | | |?|fields]; try (by exists s, w1).
  cbn [nullish field_of].
  destruct (truthy (lookup_field "final_prompt" fields)); [|by exists s, w1].
  by eexists _, w1.
Qed.

End PromptLoading.

(** X29. The effect that loads the prompt never rejects and always ends
    with its spinner off; it leaves the session store alone, so a failure is
    recorded nowhere. Without a session id it calls nothing and keeps the
    prompt; with a prompt in the session of its render it calls nothing and
    shows that prompt. Otherwise it asks for the final prompt: when that
    call returns an answer that is not nullish, this is its only call and
    the answer's prompt is shown; when the call throws or the answer is
    nullish, it asks for the session as its second and last call and shows
    the session's prompt if that is truthy, the old prompt if not. *)
Theorem loadPrompt_settles `{P : Platform}
    (store0 : StoreState) (s : PromptDisplay.State) (w : World) :
  exists s' w' l,
    PromptDisplay.loadPrompt store0 s w = (Return tt, (s', w'))
    /\ PromptDisplay.isLoadingPrompt s' = false
    /\ PromptDisplay.refinementInput s' = PromptDisplay.refinementInput s
    /\ PromptDisplay.isRefining s' = PromptDisplay.isRefining s
    /\ store w' = store w
    /\ calls (events w') = calls (events w) ++ l
    /\ (truthy (sessionId store0) = false ->
        l = [] /\ PromptDisplay.finalPrompt s' = PromptDisplay.finalPrompt s)
    /\ (truthy (sessionId store0) = true ->
        truthy (final_prompt_of (session store0)) = true ->
        l = [] /\ PromptDisplay.finalPrompt s' = final_prompt_of (session store0))
    /\ (truthy (sessionId store0) = true ->
        truthy (final_prompt_of (session store0)) = false ->
        forall r w1,
          ApiClient.getFinalPrompt (sessionId store0) w = (r, w1) ->
          match landed r with
          | Some prompt =>
              l = [final_prompt_call (sessionId store0)]
              /\ PromptDisplay.finalPrompt s' = prompt
          | None =>
              l = [final_prompt_call (sessionId store0); session_call (sessionId store0)]
              /\ forall r2 w2,
                   ApiClient.getSession (sessionId store0) w1 = (r2, w2) ->
                   PromptDisplay.finalPrompt s'
                   = fallback_prompt r2 (PromptDisplay.finalPrompt s)
          end).
Proof.
  unfold PromptDisplay.loadPrompt.
  destruct (truthy (sessionId store0)) eqn:Hsid; cbn [negb].
  2:{ eexists _, w, []. split; [reflexivity|]. simpl. rewrite app_nil_r.
      repeat split; try done. }
  unfold Component.bind at 1, PromptDisplay.setIsLoadingPrompt at 1, Component.set_local at 1.
  unfold Component.try_finally.
  set (s1 := PromptDisplay.mkState (PromptDisplay.finalPrompt s) true
               (PromptDisplay.refinementInput s) (PromptDisplay.isRefining s)).
  unfold Component.try_catch at 1, Component.bind at 1, Component.lift at 1.
  rewrite opt_prop_final_prompt.
  destruct (truthy (final_prompt_of (session store0))) eqn:Hcached.
  { eexists _, w, []. split; [reflexivity|]. simpl. rewrite app_nil_r.
    repeat split; try done. }
  unfold Component.bind at 1, Component.lift at 1, ApiClient.getFinalPrompt.
  destruct (request_page ("/api/prompt/final/" +:+ ToString (sessionId store0)) GET w)
    as (res & w1 & Hreq & Hst & Hcalls).
  rewrite Hreq.
  assert (Hfall : forall s0, PromptDisplay.finalPrompt s0 = PromptDisplay.finalPrompt s ->
            PromptDisplay.refinementInput s0 = PromptDisplay.refinementInput s ->
            PromptDisplay.isRefining s0 = PromptDisplay.isRefining s ->
            landed res = None ->
            forall out,
            out = Component.try_catch
                    (Component.bind (Component.lift (ApiClient.getSession (sessionId store0)))
                       (fun sessionData =>
                          Component.bind (Component.lift (prop sessionData "final_prompt"))
                            (fun prompt =>
                               Component.when (truthy prompt)
                                 (PromptDisplay.setFinalPrompt prompt))))
                    (fun err => Component.ret tt) s0 w1 ->
            exists s' w' l,
              (let '(r, (s2, w2)) := out in
               match PromptDisplay.setIsLoadingPrompt false s2 w2 with
               | (Return _, sw) => (r, sw)
               | (Throw e, sw) => (Throw e, sw)
               end) = (Return tt, (s', w'))
              /\ PromptDisplay.isLoadingPrompt s' = false
              /\ PromptDisplay.refinementInput s' = PromptDisplay.refinementInput s
              /\ PromptDisplay.isRefining s' = PromptDisplay.isRefining s
              /\ store w' = store w
              /\ calls (events w') = calls (events w) ++ l
              /\ (true = false ->
                  l = [] /\ PromptDisplay.finalPrompt s' = PromptDisplay.finalPrompt s)
              /\ (true = true -> false = true ->
                  l = [] /\ PromptDisplay.finalPrompt s' = final_prompt_of (session store0))
              /\ (true = true -> false = false ->
                  forall r w1',
                    (res, w1) = (r, w1') ->
                    match landed r with
                    | Some prompt =>
                        l = [final_prompt_call (sessionId store0)]
                        /\ PromptDisplay.finalPrompt s' = prompt
                    | None =>
                        l = [final_prompt_call (sessionId store0);
                             session_call (sessionId store0)]
                        /\ forall r2 w2,
                             ApiClient.getSession (sessionId store0) w1' = (r2, w2) ->
                             PromptDisplay.finalPrompt s'
                             = fallback_prompt r2 (PromptDisplay.finalPrompt s)
                    end)).
  { intros s0 Hp Hi Hr Hland out ->.
    destruct (loadPrompt_fallback store0 s0 w1)
      as (r2 & s2 & w2 & Hsess & -> & Hp2 & _ & Hi2 & Hr2 & Hst2 & Hc2).
    exists (PromptDisplay.mkState (PromptDisplay.finalPrompt s2) false
              (PromptDisplay.refinementInput s2) (PromptDisplay.isRefining s2)), w2,
           [final_prompt_call (sessionId store0); session_call (sessionId store0)].
    split; [reflexivity|]. simpl.
    rewrite Hi2, Hr2, Hst2, Hc2, Hcalls, <- app_assoc.
    do 5 (split; [done|]). split; [done|]. split; [done|].
    intros _ _ r w1' [= <- <-]. rewrite Hland. split; [done|].
    intros r2' w2' Hsess'. rewrite Hsess in Hsess'. injection Hsess' as <- <-.
    by rewrite Hp2, Hp. }
  destruct res as [v|e].
  - unfold Component.bind, Component.lift, PromptDisplay.setFinalPrompt, Component.set_local,
      prop, ret, throw.
    destruct v as [| | | | |?|fields];
      try (eexists _, w1, [final_prompt_call (sessionId store0)];
           split; [reflexivity|]; simpl; rewrite Hst, Hcalls;
           do 5 (split; [done|]); split; [done|]; split; [done|];
           by intros _ _ r w1' [= <- <-]).
    + exact (Hfall s1 eq_refl eq_refl eq_refl eq_refl _ eq_refl).
    + exact (Hfall s1 eq_refl eq_refl eq_refl eq_refl _ eq_refl).
  - exact (Hfall s1 eq_refl eq_refl eq_refl eq_refl _ eq_refl).
Qed.

(** ** The settings sidebar *)

Section Spread.

Lemma spread_with_lookup (k : string) (v : Val) (fields : list (string * Val)) :
  lookup_field k (Sidebar.spread_with k v fields) = v.
Proof.
  induction fields as [|[k' v'] rest IH]; simpl.
  - by rewrite String.eqb_refl.
  - destruct (String.eqb k k') eqn:Hk; simpl; [by rewrite String.eqb_refl|].
    by rewrite Hk.
Qed.

Lemma spread_with_others (k k0 : string) (v : Val) (fields : list (string * Val)) :
  k0 <> k ->
  lookup_field k0 (Sidebar.spread_with k v fields) = lookup_field k0 fields.
Proof.
  intros Hne. induction fields as [|[k' v'] rest IH]; simpl.
  - by rewrite (proj2 (String.eqb_neq k0 k) Hne).
  - destruct (String.eqb_spec k k') as [<-|Hk]; simpl.
    + by rewrite (proj2 (String.eqb_neq k0 k) Hne).
    + by rewrite IH.
Qed.

End Spread.

(** X30. A change in the sidebar made while the store of the render has no
    session: the panel shows the new value, changed at that key only, but
    [saveVisualSettings] throws before any call and the handler swallows
    it, so nothing is sent, nothing is recorded and the world is what it
    was. *)
Theorem sidebar_change_without_session `{P : Platform}
    (store0 : StoreState) (key : string) (snap s : Sidebar.State) (value : Val) (w : World) :
  truthy (sessionId store0) = false ->
  Sidebar.change key (SessionContext.saveVisualSettings store0) snap value s w
  = (Return tt, (Sidebar.spread_with key value snap, w))
  /\ lookup_field key (Sidebar.spread_with key value snap) = value
  /\ (forall k, k <> key ->
      lookup_field k (Sidebar.spread_with key value snap) = lookup_field k snap).
Proof.
  intros Hsnap. split; [|split; [apply spread_with_lookup|intros k; apply spread_with_others]].
  unfold Sidebar.change, Sidebar.setSettings, Component.bind, Component.try_catch,
    Component.lift, Component.set_local, Component.ret, SessionContext.saveVisualSettings.
  by rewrite Hsnap.
Qed.

Lemma sidebar_change_without_session_witness :
  @Sidebar.handleAspectRatioChange
    (@SessionContext.saveVisualSettings Demo.healthy Demo.fresh_store)
    Sidebar.initial (VStr "1:1") Sidebar.initial Demo.fresh
  = (Return tt, (Sidebar.spread_with "aspect_ratio" (VStr "1:1") Sidebar.initial, Demo.fresh))
  /\ lookup_field "aspect_ratio" (Sidebar.spread_with "aspect_ratio" (VStr "1:1") Sidebar.initial)
     = VStr "1:1"
  /\ (forall k, k <> "aspect_ratio" ->
      lookup_field k (Sidebar.spread_with "aspect_ratio" (VStr "1:1") Sidebar.initial)
      = lookup_field k Sidebar.initial).
Proof.
  apply (@sidebar_change_without_session Demo.healthy Demo.fresh_store "aspect_ratio"
           Sidebar.initial Sidebar.initial (VStr "1:1") Demo.fresh).
  reflexivity.
Defined.

(** ** The routed landing page *)

(** X12. The routed landing page, in a browser whose local storage holds a
    non-empty session id, when no call is answered 401: picking a category
    never creates a session and always ends by navigating to the generate
    page of the stored id with the spinner off, whether or not the server
    accepted the category, because [selectCategory] swallows that
    failure. *)
Theorem routed_select_navigates_to_stored_id `{P : Platform}
    (snap : StoreState) (categoryName : string) (w : World) (b : Browser) (d : string) :
  window w = Some b ->
  localStorage b !! "session_id" = Some d ->
  d <> "" ->
  never_401 ->
  exists w',
    Views.routed_handleCategorySelect snap (SessionContext.selectCategory snap) categoryName w
    = (Return tt, w')
    /\ last (events w') = Some (ERouterPush ("/generate/" +:+ d))
    /\ isInitializing (ui w') = false
    /\ creations (events w') = creations (events w).
Proof.
  intros Hb Hd Hne Hno. unfold Views.routed_handleCategorySelect.
  set (w0 := mkWorld (window w) (store w)
                     (mkUi (currentStep (ui w)) true (selectorLoading (ui w))) (events w)).
  assert (Hstart : forall k : M unit, (Views.setIsInitializing true;;; k) w = k w0) by done.
  rewrite Hstart. unfold try_finally, try_catch.
  destruct (selectCategory_reuse snap (VStr categoryName)
              (VStr (Views.placeholderIdea categoryName)) w0 b d Hb Hd Hne)
    as (res & w1 & tail & Hs & Hev & Htail & Hwin).
  destruct (selectCategory_total snap (VStr categoryName)
              (VStr (Views.placeholderIdea categoryName)) w0) as (w1' & Hs'); [by eexists|].
  rewrite Hs in Hs'. injection Hs' as -> <-.
  rewrite (bind_Return _ _ _ _ _ Hs).
  rewrite (bind_Return _ _ _ _ _ (getItem_browser _ _ _ (Hwin Hno))).
  rewrite Hd. cbn [of_item ToString]. rewrite (truthy_VStr d Hne). cbn [when].
  eexists. split; [reflexivity|]. simpl. split; [by rewrite last_snoc|]. split; [done|].
  rewrite Hev, !creations_app.
  rewrite (creations_cons_other (ESetIsLoading true)) by done.
  rewrite (creations_cons_other (EFetch (select_request _ _ _ w0)))
    by apply select_is_not_create.
  rewrite (category_tail_creations _ _ _ Htail).
  change (creations [ERouterPush ("/generate/" +:+ d)]) with 0%nat.
  change (events w0) with (events w). lia.
Qed.

Lemma routed_select_navigates_to_stored_id_witness :
  exists w',
    @Views.routed_handleCategorySelect Demo.guest_store
      (@SessionContext.selectCategory Scenario.invalid Demo.guest_store) "Logo" Demo.guest
    = (Return tt, w')
    /\ last (events w') = Some (ERouterPush ("/generate/" +:+ "s0"))
    /\ isInitializing (ui w') = false
    /\ @creations Scenario.invalid (events w') = @creations Scenario.invalid (events Demo.guest).
Proof.
  apply (@routed_select_navigates_to_stored_id Scenario.invalid Demo.guest_store "Logo"
           Demo.guest (mkBrowser (<["session_id" := "s0"]> ∅) "/") "s0").
  - reflexivity.
  - reflexivity.
  - discriminate.
  - intros l r json. discriminate.
Defined.
